(** * GiggleMap backend: place and user services over a PostGIS store

    A shallow embedding of the services ([place.service.js],
    [user.service.js]) and of the controllers that call them.  The SQL
    statements are given their relational reading over tables kept as lists
    of rows; the functions the statements call inside the database
    ([ST_MakePoint], [ST_DWithin], [ST_Distance], [ST_GeographyFromText])
    and the libraries the services call ([bcrypt], [jsonwebtoken],
    Cloudinary's URL rewriting) are an interface the development is
    parametric in.  JavaScript numbers are kept as exact rationals with
    [NaN] and the two infinities beside them; a string is the sequence of
    its UTF-16 code units, each kept in eight bits, so that [String.length]
    is the [length] of JavaScript on the texts that can be written here.
    Integer columns are 32 bits wide: the stat update, the engagement query
    and the lookup of a place by id, which the controllers call with any
    integer of the request, raise on one outside that range; the ids of
    stored rows are taken within it.  A table is a list in the order of one
    scan; the database fixes no such order where a statement has no
    [ORDER BY]. *)

From Stdlib Require Import List ZArith QArith Qabs Qround String Ascii Bool Lia.
From Stdlib Require Import Sorted Permutation.
Import ListNotations.

Local Open Scope string_scope.
Local Open Scope Z_scope.

(** ** The JavaScript runtime fragments the controllers rely on *)

Module JS.

(** A JavaScript number: a finite value, [NaN], or a signed infinity. *)
Inductive number : Type :=
| NaN
| Inf (negative : bool)
| Num (q : Q).

Definition isNaN (n : number) : bool :=
  match n with NaN => true | _ => false end.

Definition of_Z (z : Z) : number := Num (inject_Z z).

(** The integer a number denotes, when it denotes one. *)
Definition as_integer (n : number) : option Z :=
  match n with
  | Num q => if Qeq_bool q (inject_Z (Qfloor q)) then Some (Qfloor q) else None
  | _ => None
  end.

(** [Math.round]: the nearest integer, halves rounded up. *)
Definition Math_round (n : number) : number :=
  match n with
  | Num q => of_Z (Qfloor (q + (1 # 2)))
  | other => other
  end.

(** *** Scanning *)

Definition is_white_space (c : ascii) : bool :=
  let n := Z.of_nat (nat_of_ascii c) in
  (n =? 32) || ((9 <=? n) && (n <=? 13)) || (n =? 160).

Fixpoint trim_start (s : string) : string :=
  match s with
  | String c rest => if is_white_space c then trim_start rest else s
  | EmptyString => s
  end.

Definition decimal_digit (c : ascii) : option Z :=
  let n := Z.of_nat (nat_of_ascii c) in
  if (48 <=? n) && (n <=? 57) then Some (n - 48) else None.

Definition hex_digit (c : ascii) : option Z :=
  let n := Z.of_nat (nat_of_ascii c) in
  if (48 <=? n) && (n <=? 57) then Some (n - 48)
  else if (97 <=? n) && (n <=? 102) then Some (n - 87)
  else if (65 <=? n) && (n <=? 70) then Some (n - 55)
  else None.

(** The longest run of digits at the head of [s]: its value in the given
    radix on top of [acc], how many digits were read, and what follows. *)
Fixpoint scan_digits (digit : ascii -> option Z) (radix : Z)
         (s : string) (acc : Z) (count : nat) : Z * nat * string :=
  match s with
  | String c rest =>
      match digit c with
      | Some d => scan_digits digit radix rest (acc * radix + d) (S count)
      | None => (acc, count, s)
      end
  | EmptyString => (acc, count, s)
  end.

(** An optional sign: whether it was a minus, and what follows. *)
Definition scan_sign (s : string) : bool * string :=
  match s with
  | String "-" rest => (true, rest)
  | String "+" rest => (false, rest)
  | _ => (false, s)
  end.

Definition strip_hex_prefix (s : string) : option string :=
  match s with
  | String "0" (String "x" rest) => Some rest
  | String "0" (String "X" rest) => Some rest
  | _ => None
  end.

Definition signed (negative : bool) (z : Z) : Z :=
  if negative then - z else z.

(** [parseInt(string)] with no radix argument. *)
Definition parseInt (s : string) : number :=
  let '(negative, s1) := scan_sign (trim_start s) in
  match strip_hex_prefix s1 with
  | Some s2 =>
      let '(v, count, _) := scan_digits hex_digit 16 s2 0 0%nat in
      match count with O => NaN | _ => of_Z (signed negative v) end
  | None =>
      let '(v, count, _) := scan_digits decimal_digit 10 s1 0 0%nat in
      match count with O => NaN | _ => of_Z (signed negative v) end
  end.

Definition pow10 (e : Z) : Q :=
  if 0 <=? e then inject_Z (10 ^ e) else 1 # Z.to_pos (10 ^ (- e)).

(** The exponent part [e[+-]digits], read only when digits follow. *)
Definition scan_exponent (s : string) : Z * string :=
  match s with
  | String c rest =>
      if (Ascii.eqb c "e" || Ascii.eqb c "E")%bool then
        let '(negative, s1) := scan_sign rest in
        let '(v, count, s2) := scan_digits decimal_digit 10 s1 0 0%nat in
        match count with O => (0, s) | _ => (signed negative v, s2) end
      else (0, s)
  | EmptyString => (0, s)
  end.

(** The longest prefix of [s] that is a [StrDecimalLiteral], as a number
    and the text after it; [NaN] when there is none. *)
Definition scan_float (s : string) : number * string :=
  let '(negative, s1) := scan_sign s in
  if String.prefix "Infinity" s1 then
    (Inf negative, String.substring 8 (String.length s1 - 8)%nat s1)
  else
    let '(int_value, int_count, s2) := scan_digits decimal_digit 10 s1 0 0%nat in
    let '(frac_value, frac_count, s3) :=
      match s2 with
      | String "." rest => scan_digits decimal_digit 10 rest 0 0%nat
      | _ => (0, 0%nat, s2)
      end in
    match (int_count + frac_count)%nat with
    | O => (NaN, s)
    | _ =>
        let '(e, s4) := scan_exponent s3 in
        let scale := 10 ^ Z.of_nat frac_count in
        let mantissa := (inject_Z (int_value * scale + frac_value) / inject_Z scale)%Q in
        let magnitude := (mantissa * pow10 e)%Q in
        (Num (Qred (if negative then - magnitude else magnitude)%Q), s4)
    end.

(** [parseFloat(string)]. *)
Definition parseFloat (s : string) : number := fst (scan_float (trim_start s)).

(** *** Printing *)

Definition digit_char (d : Z) : ascii := ascii_of_nat (Z.to_nat (48 + d)).

Fixpoint digits_of (fuel : nat) (n : Z) (acc : string) : string :=
  match fuel with
  | O => acc
  | S fuel' =>
      let acc' := String (digit_char (n mod 10)) acc in
      if n / 10 =? 0 then acc' else digits_of fuel' (n / 10) acc'
  end.

(** Decimal digits of a natural number. *)
Definition string_of_nonneg (n : Z) : string :=
  digits_of (S (Z.to_nat (Z.log2 n))) n "".

(** The fraction digits of [num/den] (with [0 <= num < den]), as long as
    there is a remainder and fuel. *)
Fixpoint fraction_digits (fuel : nat) (num den : Z) : string :=
  match fuel with
  | O => ""
  | S fuel' =>
      if num =? 0 then ""
      else String (digit_char (10 * num / den))
                  (fraction_digits fuel' ((10 * num) mod den) den)
  end.

(** [s] without the zeros at its end. *)
Fixpoint strip_zeros (s : string) : string :=
  match s with
  | EmptyString => EmptyString
  | String c rest =>
      match strip_zeros rest with
      | EmptyString => if Ascii.eqb c "0" then EmptyString else String c EmptyString
      | kept => String c kept
      end
  end.

(** [num/den], positive and below 1, multiplied by 10 until it is 1 or
    more: the numerator then, and how many times it took. *)
Fixpoint shift_up (fuel : nat) (num den : Z) (shifts : Z) : Z * Z :=
  match fuel with
  | O => (num, shifts)
  | S fuel' =>
      if den <=? num then (num, shifts)
      else shift_up fuel' (10 * num) den (shifts + 1)
  end.

(** The digits [d1 d2 d3 ...] and the exponent [e] as [d1.d2d3...e+e]. *)
Definition exponent_notation (digits : string) (e : Z) : string :=
  match digits with
  | String d rest =>
      String d (if String.eqb rest "" then "" else "." ++ rest)
      ++ "e" ++ (if e <? 0 then "-" else "+") ++ string_of_nonneg (Z.abs e)
  | EmptyString => "0"
  end.

(** [Number::toString] on a finite value.  A double prints as the shortest
    decimal that reads back as itself; for the rationals that stand for
    doubles here that is their decimal expansion, cut at 17 fraction digits.
    Magnitudes from 1e-6 up to, not including, 1e21 print in positional
    notation, the others with an exponent. *)
Definition Number_toString (q : Q) : string :=
  let q := Qred q in
  let negative := Qnum q <? 0 in
  let num := Z.abs (Qnum q) in
  let den := Zpos (Qden q) in
  let whole := string_of_nonneg (num / den) in
  (if negative then "-" else "") ++
  if (num =? 0) || ((den <=? num * 10 ^ 6) && (num <? den * 10 ^ 21)) then
    let frac := fraction_digits 17 (num mod den) den in
    whole ++ (if String.eqb frac "" then "" else "." ++ frac)
  else if den * 10 ^ 21 <=? num then
    let frac := fraction_digits 17 (num mod den) den in
    exponent_notation (strip_zeros (whole ++ frac))
                      (Z.of_nat (String.length whole) - 1)
  else
    let '(shifted, shifts) :=
      shift_up (S (S (Z.to_nat (Z.log2 den)))) num den 0 in
    exponent_notation
      (string_of_nonneg (shifted / den)
       ++ fraction_digits 16 (shifted mod den) den)
      (- shifts).

(** The values a JSON body field or a query-string field can hold, as far
    as the controllers look at them: the scalars.  The arrays and objects a
    JSON body can hold as well are left out. *)
Inductive value : Type :=
| undefined
| null
| Boolean (b : bool)
| Number (n : number)
| Str (s : string).

(** [ToString], as a template literal applies it. *)
Definition ToString (v : value) : string :=
  match v with
  | undefined => "undefined"
  | null => "null"
  | Boolean true => "true"
  | Boolean false => "false"
  | Number NaN => "NaN"
  | Number (Inf false) => "Infinity"
  | Number (Inf true) => "-Infinity"
  | Number (Num q) => Number_toString q
  | Str s => s
  end.

Definition is_undefined (v : value) : bool :=
  match v with undefined => true | _ => false end.

(** [!v]. *)
Definition is_falsy (v : value) : bool :=
  match v with
  | undefined => true
  | null => true
  | Boolean b => negb b
  | Number NaN => true
  | Number (Inf _) => false
  | Number (Num q) => Qeq_bool q 0
  | Str s => String.eqb s ""
  end.

(** [v.length < n] for a [v] that is neither [undefined] nor [null]: a
    string has a length; the [length] of a number or a boolean is
    [undefined], which is below no number. *)
Definition length_below (v : value) (n : nat) : bool :=
  match v with
  | Str s => (String.length s <? n)%nat
  | _ => false
  end.

(** [!s] for an optional string: absent and empty are falsy. *)
Definition falsy (s : option string) : bool :=
  match s with
  | None => true
  | Some s => String.eqb s ""
  end.

End JS.

(** ** The store *)

(** A value of PostGIS's [geography(Point, 4326)]: longitude and latitude in
    degrees. *)
Record geography : Type := POINT { lng : Q; lat : Q }.

(** What a service call can raise. *)
Inductive exn : Type :=
| Error (message : string)          (* [new Error(message)] *)
| PrismaError (code : string).      (* raised by the database client *)

(** The client's error codes used below. *)
Definition P2010 : string := "P2010".   (* a raw query failed in the database *)
Definition P2025 : string := "P2025".   (* the record an operation needs was not found *)
Definition P2020 : string := "P2020".   (* a value is out of range for the column's type *)

(** The client checks the arguments of a query against the schema before
    any statement runs, and raises when a value is not of the column's type
    (a number where the schema has [String]).  This error has a name and no
    code. *)
Definition PrismaClientValidationError : exn :=
  PrismaError "PrismaClientValidationError".

(** What [bcrypt.compare] and [bcrypt.hash] raise on data that is no
    string: one message for [undefined] and [null], one for the rest. *)
Definition bcrypt_compare_error (data : JS.value) : exn :=
  match data with
  | JS.undefined | JS.null => Error "data and hash arguments required"
  | _ => Error "data and hash must be strings"
  end.

Definition bcrypt_hash_error (data : JS.value) : exn :=
  match data with
  | JS.undefined | JS.null => Error "data and salt arguments required"
  | _ => Error ("data must be a string or Buffer and salt must either be "
                ++ "a salt string or a number of rounds")
  end.

(** ** 32-bit integers

    The columns [id], [storyCount], [likeCount] and [commentCount] are
    [INTEGER]: a parameter compared with one or added to one is sent as a
    32-bit integer, and the sum of two is one. *)
Definition int4_min : Z := -2147483648.
Definition int4_max : Z := 2147483647.

Definition int4 (n : Z) : bool := (int4_min <=? n) && (n <=? int4_max).

(** [error.message === text] as [loginUser] uses it: it holds of the message
    a service gave its own error, and of no error of the database client. *)
Definition message_is (e : exn) (text : string) : bool :=
  match e with
  | Error m => String.eqb m text
  | PrismaError _ => false
  end.

Inductive result (A : Type) : Type :=
| Ok (a : A)
| Throw (e : exn).
Arguments Ok {A} a.
Arguments Throw {A} e.

(** The functions the SQL statements call inside the database, and what the
    database does with a [LIMIT] that is not an integer.  [ST_MakePoint x y]
    stands for [ST_MakePoint(x, y)::geography] and [ST_GeographyFromText] for
    the parse of an EWKT text; each is [None] when the database raises. *)
Class Postgres : Type := {
  ST_MakePoint : JS.number -> JS.number -> option geography;
  ST_GeographyFromText : string -> option geography;
  ST_AsText : geography -> string;
  ST_Distance : geography -> geography -> Q;
  ST_DWithin : geography -> geography -> JS.number -> bool;
  LIMIT_non_integer : JS.number -> result (option nat)
}.

(** The documented contract of the two distance functions: a distance is
    never negative, and [ST_DWithin] holds exactly of the pairs whose distance
    is at most the given one. *)
Class PostgresLaws (PG : Postgres) : Prop := {
  ST_Distance_nonneg : forall a b, (0 <= ST_Distance a b)%Q;
  ST_DWithin_iff : forall a b r,
      ST_DWithin a b (JS.Num r) = true <-> (ST_Distance a b <= r)%Q
}.

(** What the user service and controller call outside the database:
    [bcrypt.compare], [jwt.sign] on a user's id and name, and the rewriting of
    an avatar URL to a given width and height ([getOptimizedAvatarUrl] of
    [cloudinary.service.js], built on the platform's [URL]). *)
Class Libraries : Type := {
  bcrypt_compare : string -> string -> bool;
  jwt_sign : Z -> string -> string;
  getOptimizedAvatarUrl : string -> Z -> Z -> string
}.

Module Place.
(** A row of table ["Place"]: [location] is [NOT NULL]. *)
Record row : Type := {
  id : Z;
  name : string;
  description : option string;
  location : geography
}.

(** [SELECT id, name, description, ST_AsText(location) AS location]. *)
Record selected : Type := {
  s_id : Z;
  s_name : string;
  s_description : option string;
  s_location : string
}.
End Place.

Module User.
(** The nullable text columns of a user, over the type of one entry: a
    stored row holds an [option string] in each, an update holds an
    [option (option string)] ([None]: the key is [undefined]). *)
Record texts (F : Type) : Type := {
  fullName : F;
  avatarUrl : F;
  bio : F;
  website : F;
  instagram : F;
  twitter : F;
  facebook : F;
  city : F;
  country : F
}.
Arguments fullName {F} _.
Arguments avatarUrl {F} _.
Arguments bio {F} _.
Arguments website {F} _.
Arguments instagram {F} _.
Arguments twitter {F} _.
Arguments facebook {F} _.
Arguments city {F} _.
Arguments country {F} _.

(** A row of table ["User"] (the two timestamps left out). *)
Record row : Type := {
  id : Z;
  username : string;
  email : string;
  password : string;
  profile : texts (option string);
  storyCount : Z;
  likeCount : Z;
  commentCount : Z;
  coordinates : option geography
}.

(** What the client's [findFirst] returns once [password] is taken out:
    the columns the client can read, which leaves [coordinates] out. *)
Record account : Type := {
  a_id : Z;
  a_username : string;
  a_email : string;
  a_profile : texts (option string);
  a_storyCount : Z;
  a_likeCount : Z;
  a_commentCount : Z
}.

(** The columns [getUserProfileService] selects. *)
Record view : Type := {
  v_id : Z;
  v_username : string;
  v_profile : texts (option string);
  v_storyCount : Z;
  v_likeCount : Z;
  v_commentCount : Z;
  v_coordinates : option string
}.

(** The columns [getNearbyUsersService] selects, over the type of
    [distance]: a rational from the database, a number once the controller
    has rounded it. *)
Record nearby (D : Type) : Type := {
  n_id : Z;
  n_username : string;
  n_fullName : option string;
  n_avatarUrl : option string;
  n_bio : option string;
  n_city : option string;
  n_country : option string;
  n_storyCount : Z;
  n_likeCount : Z;
  n_commentCount : Z;
  n_coordinates : string;
  n_distance : D
}.
Arguments n_id {D} _.
Arguments n_username {D} _.
Arguments n_fullName {D} _.
Arguments n_avatarUrl {D} _.
Arguments n_bio {D} _.
Arguments n_city {D} _.
Arguments n_country {D} _.
Arguments n_storyCount {D} _.
Arguments n_likeCount {D} _.
Arguments n_commentCount {D} _.
Arguments n_coordinates {D} _.
Arguments n_distance {D} _.

Definition with_coordinates (g : option geography) (u : row) : row :=
  {| id := id u; username := username u; email := email u;
     password := password u; profile := profile u;
     storyCount := storyCount u; likeCount := likeCount u;
     commentCount := commentCount u; coordinates := g |}.

Definition with_profile (p : texts (option string)) (u : row) : row :=
  {| id := id u; username := username u; email := email u;
     password := password u; profile := p;
     storyCount := storyCount u; likeCount := likeCount u;
     commentCount := commentCount u; coordinates := coordinates u |}.

Definition with_counts (story like comment : Z) (u : row) : row :=
  {| id := id u; username := username u; email := email u;
     password := password u; profile := profile u;
     storyCount := story; likeCount := like;
     commentCount := comment; coordinates := coordinates u |}.
End User.

(** The database: the two tables in scan order, and the sequence behind
    ["Place".id]. *)
Record DB : Type := {
  Places : list Place.row;
  Users : list User.row;
  Place_id_seq : Z
}.

(** A service call: it reads and writes the database and returns or raises. *)
Definition M (A : Type) : Type := DB -> result A * DB.

Definition ret {A : Type} (a : A) : M A := fun db => (Ok a, db).

Definition throw {A : Type} (e : exn) : M A := fun db => (Throw e, db).

Definition bind {A B : Type} (m : M A) (k : A -> M B) : M B :=
  fun db =>
    match m db with
    | (Ok a, db') => k a db'
    | (Throw e, db') => (Throw e, db')
    end.

Notation "x <- m ;; k" := (bind m (fun x => k))
  (at level 61, m at next level, right associativity).
Notation "m ;;; k" := (bind m (fun _ => k))
  (at level 61, right associativity).

(** An HTTP response: the status and the JSON body. *)
Inductive json : Type :=
| ErrorBody (error : string)
| MessageBody (message : string)
| LoginBody (message : string) (user : User.account) (token : string)
| PlacesBody (places : list Place.selected)
| NearbyBody (center_latitude center_longitude radius : JS.number)
             (count : nat) (users : list (User.nearby JS.number)).

Record response : Type := { status : Z; body : json }.

Definition respond (code : Z) (b : json) : response :=
  {| status := code; body := b |}.

(** A query-string field as a value: absent is [undefined]. *)
Definition param (s : option string) : JS.value :=
  match s with
  | Some s => JS.Str s
  | None => JS.undefined
  end.

(** [parseFloat(v)] and [parseInt(v)] on any value: the argument is turned
    into a string first. *)
Definition parseFloat (v : JS.value) : JS.number := JS.parseFloat (JS.ToString v).
Definition parseInt (v : JS.value) : JS.number := JS.parseInt (JS.ToString v).

(** ** SQL clauses *)

Section Clauses.
Context {A B : Type}.

(** [SELECT select FROM rows WHERE ...]: [select] is [None] on the rows the
    condition leaves out. *)
Fixpoint SELECT_WHERE (select : A -> option B) (rows : list A) : list B :=
  match rows with
  | [] => []
  | r :: rest =>
      match select r with
      | Some b => b :: SELECT_WHERE select rest
      | None => SELECT_WHERE select rest
      end
  end.

Variable key : B -> Q.

Fixpoint insert_ASC (r : B) (sorted : list B) : list B :=
  match sorted with
  | [] => [r]
  | x :: rest =>
      if Qle_bool (key r) (key x) then r :: sorted
      else x :: insert_ASC r rest
  end.

(** The order [ORDER BY key ASC] is to establish. *)
Definition ascending (a b : B) : Prop := (key a <= key b)%Q.

(** [ORDER BY key ASC]. *)
Definition ORDER_BY_ASC (rows : list B) : list B :=
  fold_right insert_ASC [] rows.
End Clauses.

Section Services.
Context {PG : Postgres} {LIB : Libraries}.

(** [LIMIT n]: the first [n] rows; a negative [n] is an error of the
    database. *)
Definition LIMIT {A : Type} (n : JS.number) (rows : list A) : result (list A) :=
  match JS.as_integer n with
  | Some z =>
      if z <? 0 then Throw (PrismaError P2010)
      else Ok (firstn (Z.to_nat z) rows)
  | None =>
      match LIMIT_non_integer n with
      | Ok (Some k) => Ok (firstn k rows)
      | Ok None => Ok rows
      | Throw e => Throw e
      end
  end.

(** The places within [r] of [center], in scan order. *)
Definition places_within (center : geography) (r : Q) (db : DB) : list Place.row :=
  filter (fun p => Qle_bool (ST_Distance (Place.location p) center) r) (Places db).

(** *** place.service.js *)

(** The body of [POST /places] as [createPlaceService] destructures it;
    [None] in [name] or [description] is an absent or [null] field. *)
Record PlaceInput : Type := {
  in_name : option string;
  in_description : option string;
  in_latitude : JS.value;
  in_longitude : JS.value
}.

(** The database with one more place, its id drawn from the sequence. *)
Definition with_new_Place (name : string) (description : option string)
           (location : geography) (db : DB) : DB :=
  {| Places := Places db ++
       [ {| Place.id := Place_id_seq db; Place.name := name;
            Place.description := description; Place.location := location |} ];
     Users := Users db;
     Place_id_seq := Place_id_seq db + 1 |}.

(** [INSERT INTO "Place" (name, description, location)
     VALUES (name, description, ST_GeographyFromText(location))].
    A statement that fails leaves the database as it was. *)
Definition INSERT_Place (name description : option string) (location : string)
  : M unit :=
  fun db =>
    match ST_GeographyFromText location, name with
    | Some g, Some n => (Ok tt, with_new_Place n description g db)
    | _, _ => (Throw (PrismaError P2010), db)
    end.

Definition location_text (longitude latitude : JS.value) : string :=
  "SRID=4326;POINT(" ++ JS.ToString longitude ++ " " ++ JS.ToString latitude ++ ")".

Definition createPlaceService (input : PlaceInput) : M string :=
  let location := location_text (in_longitude input) (in_latitude input) in
  INSERT_Place (in_name input) (in_description input) location ;;;
  ret "Place created successfully".

Definition select_place (p : Place.row) : Place.selected :=
  {| Place.s_id := Place.id p; Place.s_name := Place.name p;
     Place.s_description := Place.description p;
     Place.s_location := ST_AsText (Place.location p) |}.

(** [SELECT ... FROM "Place"
     WHERE ST_DWithin(location, ST_MakePoint(lng, lat)::geography, radius)]:
    no [ORDER BY], no [LIMIT]. *)
Definition findNearbyPlacesService (lat lng radius : JS.number)
  : M (list Place.selected) :=
  fun db =>
    match ST_MakePoint lng lat with
    | Some center =>
        (Ok (SELECT_WHERE
               (fun p => if ST_DWithin (Place.location p) center radius
                         then Some (select_place p) else None)
               (Places db)), db)
    | None => (Throw (PrismaError P2010), db)
    end.

(** [SELECT ST_Distance(ST_MakePoint(fromLng, fromLat)::geography,
                        ST_MakePoint(toLng, toLat)::geography) AS distance]. *)
Definition getDistanceService (fromLat fromLng toLat toLng : JS.value) : M Q :=
  fun db =>
    match ST_MakePoint (parseFloat fromLng) (parseFloat fromLat),
          ST_MakePoint (parseFloat toLng) (parseFloat toLat) with
    | Some a, Some b => (Ok (ST_Distance a b), db)
    | _, _ => (Throw (PrismaError P2010), db)
    end.

(** *** place.controller.js *)

Definition createPlace (input : PlaceInput) (db : DB) : response * DB :=
  match createPlaceService input db with
  | (Ok message, db') => (respond 201 (MessageBody message), db')
  | (Throw _, db') => (respond 500 (ErrorBody "Failed to create place"), db')
  end.

(** The query string of [GET /places/nearby/search]. *)
Record NearbyPlacesQuery : Type := {
  pq_lat : option string;
  pq_lng : option string;
  pq_radius : option string
}.

Definition findNearbyPlaces (query : NearbyPlacesQuery) (db : DB) : response * DB :=
  let lat := parseFloat (param (pq_lat query)) in
  let lng := parseFloat (param (pq_lng query)) in
  let radius :=
    parseFloat (if JS.falsy (pq_radius query) then JS.Str "5000"
                else param (pq_radius query)) in
  match findNearbyPlacesService lat lng radius db with
  | (Ok rows, db') => (respond 200 (PlacesBody rows), db')
  | (Throw _, db') =>
      (respond 500 (ErrorBody "Failed to search nearby places"), db')
  end.

(** *** user.service.js *)

Definition without_password (u : User.row) : User.account :=
  {| User.a_id := User.id u; User.a_username := User.username u;
     User.a_email := User.email u; User.a_profile := User.profile u;
     User.a_storyCount := User.storyCount u;
     User.a_likeCount := User.likeCount u;
     User.a_commentCount := User.commentCount u |}.

(** [prisma.user.findFirst({ where: { OR: [{ email }, { username }] } })]. *)
Definition findFirst_email_or_username (emailOrUsername : string)
  : M (option User.row) :=
  fun db =>
    (Ok (find (fun u => String.eqb (User.email u) emailOrUsername
                        || String.eqb (User.username u) emailOrUsername)%bool
              (Users db)), db).

(** The two arguments are the values of the body as [loginUser] passes
    them, neither [undefined] nor [null].  The client refuses an
    [emailOrUsername] that is no string; [bcrypt.compare], reached once a
    user was found, refuses a [password] that is none. *)
Definition loginUserService (emailOrUsername password : JS.value)
  : M (User.account * string) :=
  match emailOrUsername with
  | JS.Str emailOrUsername =>
      user <- findFirst_email_or_username emailOrUsername ;;
      match user with
      | None => throw (Error "Invalid credentials")
      | Some user =>
          match password with
          | JS.Str password =>
              if bcrypt_compare password (User.password user) then
                ret (without_password user,
                     jwt_sign (User.id user) (User.username user))
              else throw (Error "Invalid credentials")
          | _ => throw (bcrypt_compare_error password)
          end
      end
  | _ => throw PrismaClientValidationError
  end.

Definition select_view (u : User.row) : User.view :=
  {| User.v_id := User.id u; User.v_username := User.username u;
     User.v_profile := User.profile u;
     User.v_storyCount := User.storyCount u;
     User.v_likeCount := User.likeCount u;
     User.v_commentCount := User.commentCount u;
     User.v_coordinates := option_map ST_AsText (User.coordinates u) |}.

(** [SELECT ... FROM "User" WHERE id = userId], first row or [null]. *)
Definition getUserProfileService (userId : Z) : M (option User.view) :=
  fun db =>
    (Ok (option_map select_view
           (find (fun u => User.id u =? userId) (Users db))), db).

(** The fields [updateUserProfileService] destructures from [updateData]. *)
Record UpdateData : Type := {
  up_texts : User.texts (option (option string));
  up_latitude : JS.value;
  up_longitude : JS.value
}.

Definition assign {A : Type} (new : option A) (old : A) : A :=
  match new with
  | Some v => v
  | None => old
  end.

(** The stored texts overwritten by the keys [updateFields] holds. *)
Definition apply_updateFields (f : User.texts (option (option string)))
           (p : User.texts (option string)) : User.texts (option string) :=
  {| User.fullName := assign (User.fullName f) (User.fullName p);
     User.avatarUrl := assign (User.avatarUrl f) (User.avatarUrl p);
     User.bio := assign (User.bio f) (User.bio p);
     User.website := assign (User.website f) (User.website p);
     User.instagram := assign (User.instagram f) (User.instagram p);
     User.twitter := assign (User.twitter f) (User.twitter p);
     User.facebook := assign (User.facebook f) (User.facebook p);
     User.city := assign (User.city f) (User.city p);
     User.country := assign (User.country f) (User.country p) |}.

Definition is_some {A : Type} (o : option A) : bool :=
  match o with Some _ => true | None => false end.

(** [Object.keys(updateFields).length > 0]. *)
Definition has_keys (f : User.texts (option (option string))) : bool :=
  (is_some (User.fullName f) || is_some (User.avatarUrl f)
   || is_some (User.bio f) || is_some (User.website f)
   || is_some (User.instagram f) || is_some (User.twitter f)
   || is_some (User.facebook f) || is_some (User.city f)
   || is_some (User.country f))%bool.

Definition with_Users (users : list User.row) (db : DB) : DB :=
  {| Places := Places db; Users := users; Place_id_seq := Place_id_seq db |}.

(** [UPDATE "User" SET ... WHERE id = userId]: every row of that id is
    rewritten, and none is no error. *)
Definition UPDATE_User (userId : Z) (set : User.row -> User.row) : M unit :=
  fun db =>
    (Ok tt,
     with_Users (map (fun u => if User.id u =? userId then set u else u)
                     (Users db)) db).

(** [UPDATE "User" SET coordinates = ST_GeographyFromText(location)
     WHERE id = userId]. *)
Definition UPDATE_User_coordinates (userId : Z) (location : string) : M unit :=
  match ST_GeographyFromText location with
  | Some g => UPDATE_User userId (User.with_coordinates (Some g))
  | None => throw (PrismaError P2010)
  end.

(** [prisma.user.update({ where: { id }, data })]: the client raises when
    there is no such record. *)
Definition prisma_user_update (userId : Z)
           (data : User.texts (option (option string))) : M unit :=
  fun db =>
    if existsb (fun u => User.id u =? userId) (Users db) then
      UPDATE_User userId
        (fun u => User.with_profile (apply_updateFields data (User.profile u)) u)
        db
    else (Throw (PrismaError P2025), db).

Definition updateUserProfileService (userId : Z) (updateData : UpdateData)
  : M (option User.view) :=
  let latitude := up_latitude updateData in
  let longitude := up_longitude updateData in
  let updateFields := up_texts updateData in
  (if (negb (JS.is_undefined latitude) && negb (JS.is_undefined longitude))%bool
   then UPDATE_User_coordinates userId (location_text longitude latitude)
   else ret tt) ;;;
  (if has_keys updateFields then prisma_user_update userId updateFields
   else ret tt) ;;;
  getUserProfileService userId.

(** The row [getNearbyUsersService] selects for a user, when the [WHERE]
    clause keeps it:
    [coordinates IS NOT NULL AND ST_DWithin(coordinates, center, radius)]. *)
Definition select_nearby (center : geography) (radius : JS.number)
           (u : User.row) : option (User.nearby Q) :=
  match User.coordinates u with
  | None => None
  | Some g =>
      if ST_DWithin g center radius then
        Some {| User.n_id := User.id u;
                User.n_username := User.username u;
                User.n_fullName := User.fullName (User.profile u);
                User.n_avatarUrl := User.avatarUrl (User.profile u);
                User.n_bio := User.bio (User.profile u);
                User.n_city := User.city (User.profile u);
                User.n_country := User.country (User.profile u);
                User.n_storyCount := User.storyCount u;
                User.n_likeCount := User.likeCount u;
                User.n_commentCount := User.commentCount u;
                User.n_coordinates := ST_AsText g;
                User.n_distance := ST_Distance g center |}
      else None
  end.

(** [SELECT ..., ST_Distance(coordinates, center) AS distance FROM "User"
     WHERE coordinates IS NOT NULL AND ST_DWithin(coordinates, center, radius)
     ORDER BY distance ASC LIMIT limit],
    with [center] the point [ST_MakePoint(longitude, latitude)::geography]. *)
Definition getNearbyUsersService (latitude longitude radius limit : JS.number)
  : M (list (User.nearby Q)) :=
  fun db =>
    match ST_MakePoint longitude latitude with
    | Some center =>
        (LIMIT limit
           (ORDER_BY_ASC User.n_distance
              (SELECT_WHERE (select_nearby center radius) (Users db))), db)
    | None => (Throw (PrismaError P2010), db)
    end.

Definition validStats : list string := ["storyCount"; "likeCount"; "commentCount"].

Definition includes (l : list string) (s : string) : bool :=
  existsb (String.eqb s) l.

(** [GREATEST(0, n)]. *)
Definition GREATEST_0 (n : Z) : Z := Z.max 0 n.

(** [column + increment] on two [INTEGER]s: the database raises when the
    sum is outside the 32-bit range. *)
Definition int4pl (a b : Z) : option Z :=
  if int4 (a + b) then Some (a + b) else None.

(** The rows of [userId] rewritten by a [SET] clause that can raise: [None]
    when it raises on one of them. *)
Fixpoint SET_WHERE_id (userId : Z) (set : User.row -> option User.row)
         (rows : list User.row) : option (list User.row) :=
  match rows with
  | [] => Some []
  | u :: rest =>
      match (if User.id u =? userId then set u else Some u),
            SET_WHERE_id userId set rest with
      | Some u', Some rest' => Some (u' :: rest')
      | _, _ => None
      end
  end.

(** [UPDATE "User" SET column = GREATEST(0, column + increment)
     WHERE id = userId], the two parameters sent as 32-bit integers: the
    statement raises when one of them is none, or when a sum is none on a
    row of that id, and a statement that raises leaves the table as it
    was. *)
Definition UPDATE_User_counter (userId increment : Z)
           (set : Z -> User.row -> option User.row) : M unit :=
  fun db =>
    if (int4 userId && int4 increment)%bool then
      match SET_WHERE_id userId (set increment) (Users db) with
      | Some rows => (Ok tt, with_Users rows db)
      | None => (Throw (PrismaError P2010), db)
      end
    else (Throw (PrismaError P2010), db).

Definition updateUserStatsService (userId : Z) (statType : string) (increment : Z)
  : M (option User.view) :=
  if negb (includes validStats statType) then
    throw (Error ("Invalid stat type: " ++ statType))
  else
    (if String.eqb statType "storyCount" then
       UPDATE_User_counter userId increment
         (fun increment u =>
            option_map
              (fun sum => User.with_counts (GREATEST_0 sum) (User.likeCount u)
                                           (User.commentCount u) u)
              (int4pl (User.storyCount u) increment))
     else if String.eqb statType "likeCount" then
       UPDATE_User_counter userId increment
         (fun increment u =>
            option_map
              (fun sum => User.with_counts (User.storyCount u) (GREATEST_0 sum)
                                           (User.commentCount u) u)
              (int4pl (User.likeCount u) increment))
     else if String.eqb statType "commentCount" then
       UPDATE_User_counter userId increment
         (fun increment u =>
            option_map
              (fun sum => User.with_counts (User.storyCount u) (User.likeCount u)
                                           (GREATEST_0 sum) u)
              (int4pl (User.commentCount u) increment))
     else ret tt) ;;;
    getUserProfileService userId.

(** [prisma.user.delete({ where: { id: userId } })]: the client raises when
    there is no such record. *)
Definition prisma_user_delete (userId : Z) : M unit :=
  fun db =>
    if existsb (fun u => User.id u =? userId) (Users db) then
      (Ok tt,
       with_Users (filter (fun u => negb (User.id u =? userId)) (Users db)) db)
    else (Throw (PrismaError P2025), db).

Definition deleteUserService (userId : Z) : M bool :=
  prisma_user_delete userId ;;; ret true.

(** *** user.controller.js *)

(** The body of [POST /users/login]: each field holds any value of the
    JSON body, [undefined] when the key is absent. *)
Record LoginInput : Type := {
  in_emailOrUsername : JS.value;
  in_password : JS.value
}.

Definition loginUser (input : LoginInput) (db : DB) : response * DB :=
  let emailOrUsername := in_emailOrUsername input in
  let password := in_password input in
  if (JS.is_falsy emailOrUsername || JS.is_falsy password)%bool then
    (respond 400 (ErrorBody "Email/username and password are required"), db)
  else
    match loginUserService emailOrUsername password db with
    | (Ok (user, token), db') =>
        (respond 200 (LoginBody "Login successful" user token), db')
    | (Throw error, db') =>
        if message_is error "Invalid credentials" then
          (respond 401 (ErrorBody "Invalid email/username or password"), db')
        else (respond 500 (ErrorBody "Login failed"), db')
    end.

(** The query string of [GET /users/nearby]. *)
Record NearbyUsersQuery : Type := {
  uq_lat : option string;
  uq_lng : option string;
  uq_radius : option string;
  uq_limit : option string
}.

(** [user.avatarUrl ? getOptimizedAvatarUrl(user.avatarUrl, {width, height}) : null]. *)
Definition optimized (avatarUrl : option string) (width height : Z) : option string :=
  if JS.falsy avatarUrl then None
  else option_map (fun url => getOptimizedAvatarUrl url width height) avatarUrl.

Definition optimizedUser (user : User.nearby Q) : User.nearby JS.number :=
  {| User.n_id := User.n_id user;
     User.n_username := User.n_username user;
     User.n_fullName := User.n_fullName user;
     User.n_avatarUrl := optimized (User.n_avatarUrl user) 100 100;
     User.n_bio := User.n_bio user;
     User.n_city := User.n_city user;
     User.n_country := User.n_country user;
     User.n_storyCount := User.n_storyCount user;
     User.n_likeCount := User.n_likeCount user;
     User.n_commentCount := User.n_commentCount user;
     User.n_coordinates := User.n_coordinates user;
     User.n_distance :=
       JS.Math_round (parseFloat (JS.Number (JS.Num (User.n_distance user)))) |}.

(** The arguments [getNearbyUsers] passes on: [radius] and [limit] default
    to the numbers 10000 and 50 when the query string has no such key. *)
Definition searchRadius (query : NearbyUsersQuery) : JS.number :=
  parseFloat (match uq_radius query with
              | None => JS.Number (JS.of_Z 10000)
              | Some s => JS.Str s
              end).

Definition searchLimit (query : NearbyUsersQuery) : JS.number :=
  parseInt (match uq_limit query with
            | None => JS.Number (JS.of_Z 50)
            | Some s => JS.Str s
            end).

Definition getNearbyUsers (query : NearbyUsersQuery) (db : DB) : response * DB :=
  if (JS.falsy (uq_lat query) || JS.falsy (uq_lng query))%bool then
    (respond 400 (ErrorBody "Latitude and longitude are required"), db)
  else
    let latitude := parseFloat (param (uq_lat query)) in
    let longitude := parseFloat (param (uq_lng query)) in
    if (JS.isNaN latitude || JS.isNaN longitude)%bool then
      (respond 400 (ErrorBody "Invalid latitude or longitude"), db)
    else
      match getNearbyUsersService latitude longitude
              (searchRadius query) (searchLimit query) db with
      | (Ok users, db') =>
          let optimizedUsers := map optimizedUser users in
          (respond 200 (NearbyBody latitude longitude (searchRadius query)
                          (List.length optimizedUsers) optimizedUsers), db')
      | (Throw _, db') =>
          (respond 500 (ErrorBody "Failed to find nearby users"), db')
      end.

(** [DELETE /users/:id], behind [authenticateToken] and [authorizeOwner],
    which let a request through only when [parseInt(req.params.id)] is the
    id of the authenticated user: [userId] is that integer.  [deleteAvatar]
    touches the image host only and never raises. *)
Definition deleteUser (userId : Z) (db : DB) : response * DB :=
  match (getUserProfileService userId ;;; deleteUserService userId) db with
  | (Ok _, db') =>
      (respond 200 (MessageBody "User account deleted successfully"), db')
  | (Throw _, db') =>
      (respond 500 (ErrorBody "Failed to delete user account"), db')
  end.
End Services.

(** ** A stand-in engine and sample tables

    A flat stand-in for PostGIS, to run the services on concrete tables:
    degrees are plane coordinates, a degree is 111 km long, and the distance
    is the one along the axes.  It reads a point text with the scanner of
    [JS.parseFloat], with no check of ranges. *)

Fixpoint strip_prefix (p s : string) : option string :=
  match p, s with
  | EmptyString, _ => Some s
  | String a p', String b s' => if Ascii.eqb a b then strip_prefix p' s' else None
  | String _ _, EmptyString => None
  end.

Definition plane_Distance (a b : geography) : Q :=
  (111000 * (Qabs (lng a - lng b) + Qabs (lat a - lat b)))%Q.

Definition plane_MakePoint (x y : JS.number) : option geography :=
  match x, y with
  | JS.Num x, JS.Num y => Some (POINT x y)
  | _, _ => None
  end.

Definition plane_GeographyFromText (text : string) : option geography :=
  match strip_prefix "SRID=4326;POINT(" text with
  | None => None
  | Some s1 =>
      match JS.scan_float s1 with
      | (JS.Num x, s2) =>
          match strip_prefix " " s2 with
          | None => None
          | Some s3 =>
              match JS.scan_float s3 with
              | (JS.Num y, s4) =>
                  if String.eqb s4 ")" then Some (POINT x y) else None
              | _ => None
              end
          end
      | _ => None
      end
  end.

Definition plane_AsText (g : geography) : string :=
  "POINT(" ++ JS.Number_toString (lng g) ++ " " ++ JS.Number_toString (lat g) ++ ")".

Definition plane_DWithin (a b : geography) (r : JS.number) : bool :=
  match r with
  | JS.Num r => Qle_bool (plane_Distance a b) r
  | JS.Inf negative => negb negative
  | JS.NaN => false
  end.

Definition plane : Postgres :=
  {| ST_MakePoint := plane_MakePoint;
     ST_GeographyFromText := plane_GeographyFromText;
     ST_AsText := plane_AsText;
     ST_Distance := plane_Distance;
     ST_DWithin := plane_DWithin;
     LIMIT_non_integer := fun _ => Throw (PrismaError P2010) |}.

(** Stand-ins for the libraries: a hash is the password behind a tag. *)
Definition sample_libraries : Libraries :=
  {| bcrypt_compare := fun password hash => String.eqb hash ("$2b$12$" ++ password);
     jwt_sign := fun userId username => "jwt." ++ username;
     getOptimizedAvatarUrl := fun url _ _ => url |}.

Definition no_texts {F : Type} : User.texts (option F) :=
  {| User.fullName := None; User.avatarUrl := None; User.bio := None;
     User.website := None; User.instagram := None; User.twitter := None;
     User.facebook := None; User.city := None; User.country := None |}.

(** A user with a name, a password and maybe a point, and nothing else. *)
Definition sample_user (id : Z) (username password : string)
           (coordinates : option geography) : User.row :=
  {| User.id := id; User.username := username;
     User.email := username ++ "@example.com";
     User.password := "$2b$12$" ++ password;
     User.profile := no_texts;
     User.storyCount := 0; User.likeCount := 0; User.commentCount := 0;
     User.coordinates := coordinates |}.

Definition empty_db : DB := {| Places := []; Users := []; Place_id_seq := 1 |}.

Definition db_of_users (users : list User.row) : DB :=
  {| Places := []; Users := users; Place_id_seq := 1 |}.

(** Cairo's city square, the centre of the sample queries. *)
Definition square : geography := POINT (31233334 # 1000000) (30033333 # 1000000).

(** Two places of the seed data, the farther one stored first. *)
Definition food_plaza : Place.row :=
  {| Place.id := 1; Place.name := "Food Plaza";
     Place.description := Some "Famous for street food";
     Place.location := POINT (31245 # 1000) (3005 # 100) |}.

Definition city_square : Place.row :=
  {| Place.id := 2; Place.name := "City Square";
     Place.description := Some "A center point";
     Place.location := square |}.

Definition places_db : DB :=
  {| Places := [food_plaza; city_square]; Users := []; Place_id_seq := 3 |}.

(** Three users: one at the square, one a street away, one with no point. *)
Definition users_db : DB :=
  db_of_users
    [ sample_user 1 "amira" "secret1" (Some (POINT (3124 # 100) (3004 # 100)));
      sample_user 2 "badr" "secret2" (Some square);
      sample_user 3 "chadi" "secret3" None ].

(** ** Engagement counters *)

(** The counter a stat type names. *)
Definition counter (statType : string) (u : User.row) : Z :=
  if String.eqb statType "storyCount" then User.storyCount u
  else if String.eqb statType "likeCount" then User.likeCount u
  else User.commentCount u.

(** The row [u] with the counter a stat type names set to [value]. *)
Definition with_counter (statType : string) (value : Z) (u : User.row) : User.row :=
  if String.eqb statType "storyCount" then
    User.with_counts value (User.likeCount u) (User.commentCount u) u
  else if String.eqb statType "likeCount" then
    User.with_counts (User.storyCount u) value (User.commentCount u) u
  else User.with_counts (User.storyCount u) (User.likeCount u) value u.

(** The [SET] clause of the [UPDATE] for a stat type of the list. *)
Definition set_counter (statType : string) (increment : Z) (u : User.row)
  : option User.row :=
  option_map (fun sum => with_counter statType (GREATEST_0 sum) u)
             (int4pl (counter statType u) increment).

(** On every row of [userId] the counter plus the increment fits 32 bits. *)
Definition sums_fit (userId : Z) (statType : string) (increment : Z) (db : DB)
  : Prop :=
  forall u, In u (Users db) -> User.id u = userId ->
            int4 (counter statType u + increment) = true.

(** A user whose story counter is at the top of the 32-bit range. *)
Definition busy_user : User.row :=
  {| User.id := 1; User.username := "amira";
     User.email := "amira@example.com";
     User.password := "$2b$12$secret1";
     User.profile := no_texts;
     User.storyCount := int4_max; User.likeCount := 0; User.commentCount := 0;
     User.coordinates := None |}.

Definition counters_nonneg (db : DB) : Prop :=
  Forall (fun u => 0 <= User.storyCount u /\ 0 <= User.likeCount u
                   /\ 0 <= User.commentCount u) (Users db).

(** A sequence of calls of [updateUserStatsService], each given as user id,
    stat type and increment; a call that raises leaves the database as it
    was and the sequence goes on. *)
Fixpoint stat_updates {PG : Postgres} (calls : list (Z * string * Z)) (db : DB) : DB :=
  match calls with
  | [] => db
  | (userId, statType, increment) :: rest =>
      stat_updates rest (snd (updateUserStatsService userId statType increment db))
  end.

(** ** Login *)

(** The two causes of a failed login. *)
Definition no_such_user (emailOrUsername : string) (db : DB) : Prop :=
  fst (findFirst_email_or_username emailOrUsername db) = Ok None.

Definition wrong_password {LIB : Libraries} (emailOrUsername password : string) (db : DB) : Prop :=
  exists user,
    fst (findFirst_email_or_username emailOrUsername db) = Ok (Some user)
    /\ bcrypt_compare password (User.password user) = false.

(** ** Sample requests *)

(** [n] users, all at the square. *)
Definition crowd (n : nat) : list User.row :=
  map (fun k => sample_user (Z.of_nat k) "user" "secret" (Some square)) (seq 1 n).

(** [POST /places] with a latitude of 91. *)
Definition place_latitude_91 : PlaceInput :=
  {| in_name := Some "North of north"; in_description := None;
     in_latitude := JS.Number (JS.of_Z 91);
     in_longitude := JS.Number (JS.of_Z 31) |}.

(** [POST /places] with a name and no coordinate. *)
Definition place_without_coordinate : PlaceInput :=
  {| in_name := Some "Nowhere"; in_description := None;
     in_latitude := JS.undefined; in_longitude := JS.undefined |}.

(** [PUT /users/1] with a latitude and no longitude. *)
Definition update_latitude_only : UpdateData :=
  {| up_texts := no_texts;
     up_latitude := JS.Number (JS.of_Z 30);
     up_longitude := JS.undefined |}.

(** [GET /users/nearby] around the square with the given [limit]. *)
Definition nearby_square (limit : option string) : NearbyUsersQuery :=
  {| uq_lat := Some "30.033333"; uq_lng := Some "31.233334";
     uq_radius := None; uq_limit := limit |}.

(** [POST /places] for the city square of the seed data. *)
Definition place_city_square : PlaceInput :=
  {| in_name := Some "City Square"; in_description := Some "A center point";
     in_latitude := JS.Number (JS.Num (lat square));
     in_longitude := JS.Number (JS.Num (lng square)) |}.

(** [PUT /users/3] with both coordinates. *)
Definition update_both_coordinates : UpdateData :=
  {| up_texts := no_texts;
     up_latitude := JS.Number (JS.of_Z 30);
     up_longitude := JS.Number (JS.of_Z 31) |}.

(** * The other services, controllers and routes *)

(** ** Text helpers of the runtime *)

(** [s.includes(text)]. *)
Definition includes_text (s text : string) : bool :=
  match String.index 0 text s with
  | Some _ => true
  | None => false
  end.

Fixpoint trim_end (s : string) : string :=
  match s with
  | EmptyString => EmptyString
  | String c rest =>
      match trim_end rest with
      | EmptyString => if JS.is_white_space c then EmptyString else String c EmptyString
      | kept => String c kept
      end
  end.

(** [s.trim()]. *)
Definition trim (s : string) : string := trim_end (JS.trim_start s).

(** [s.split(c)], for a one-character separator: never empty. *)
Fixpoint split_on (c : ascii) (s : string) : list string :=
  match s with
  | EmptyString => [EmptyString]
  | String a rest =>
      if Ascii.eqb a c then EmptyString :: split_on c rest
      else match split_on c rest with
           | piece :: pieces => String a piece :: pieces
           | [] => [String a EmptyString]
           end
  end.

(** What a controller sends with the status: [{ error }] or its payload. *)
Inductive sent (T : Type) : Type :=
| Failure (error : string)
| Payload (t : T).
Arguments Failure {T} error.
Arguments Payload {T} t.

Definition reply (T : Type) : Type := (Z * sent T)%type.

(** What the database client and the database answer where a controller
    hands them [NaN] for an integer: the row [getPlaceByIdService] finds for
    a [NaN] id, and the run of the stat [UPDATE] and the profile query when
    the id or the increment is [NaN]. *)
Class Driver : Type := {
  place_of_NaN_id : result (option Place.selected);
  stats_of_NaN : JS.number -> string -> JS.number -> M (option User.view)
}.

(** ** place.service.js and place.controller.js, the rest *)

Section MorePlaces.
Context {PG : Postgres} {DR : Driver}.

(** [SELECT id, name, description, ST_AsText(location) AS location FROM "Place"]. *)
Definition getAllPlacesService : M (list Place.selected) :=
  fun db => (Ok (map select_place (Places db)), db).

(** The same [SELECT] with [WHERE id = id], and [result[0]]. *)
Definition getPlaceByIdService (id : Z) : M (option Place.selected) :=
  fun db =>
    (Ok (option_map select_place
           (find (fun p => Place.id p =? id) (Places db))), db).

(** An entry of [testPlaces]: name, description, [lat], [lng]. *)
Definition testPlaces : list (string * string * Q * Q) :=
  [ ("City Square", "A center point", 30033333 # 1000000, 31233334 # 1000000);
    ("Library Park", "Quiet place with trees", 3004 # 100, 3122 # 100);
    ("Food Plaza", "Famous for street food", 3005 # 100, 31245 # 1000) ]%Q.

(** The loop of [seedTestPlaces]: one [INSERT] per entry, in order, each on
    its own; the first that raises ends the loop. *)
Fixpoint seed_places (entries : list (string * string * Q * Q)) : M unit :=
  match entries with
  | [] => ret tt
  | (name, description, lat, lng) :: rest =>
      INSERT_Place (Some name) (Some description)
        (location_text (JS.Number (JS.Num lng)) (JS.Number (JS.Num lat))) ;;;
      seed_places rest
  end.

Definition seedTestPlaces : M unit := seed_places testPlaces.

Definition getAllPlaces (db : DB) : reply (list Place.selected) * DB :=
  match getAllPlacesService db with
  | (Ok rows, db') => ((200, Payload rows), db')
  | (Throw _, db') => ((500, Failure "Failed to get places"), db')
  end.

(** [getPlaceByIdService] on the number [getPlaceById] passes.  The id is a
    parameter of the query, sent as a 32-bit integer: the query raises on an
    integer that is none. *)
Definition getPlaceByIdService_of_number (id : JS.number)
  : M (option Place.selected) :=
  match JS.as_integer id with
  | Some n => if int4 n then getPlaceByIdService n else throw (PrismaError P2010)
  | None => fun db => (place_of_NaN_id, db)
  end.

(** [GET /places/:id]: the payload is [result || {}], [None] for the empty
    object. *)
Definition getPlaceById (id : string) (db : DB) : reply (option Place.selected) * DB :=
  match getPlaceByIdService_of_number (JS.parseInt id) db with
  | (Ok row, db') => ((200, Payload row), db')
  | (Throw _, db') => ((500, Failure "Failed to get place by ID"), db')
  end.

Definition seedTestData (db : DB) : reply string * DB :=
  match seedTestPlaces db with
  | (Ok _, db') => ((201, Payload "Test data seeded successfully"), db')
  | (Throw _, db') => ((500, Failure "Failed to seed test data"), db')
  end.

(** [GET /places/route/distance]: the payload is [{ distance }]. *)
Definition getDistanceBetweenPlaces (fromLat fromLng toLat toLng : option string)
           (db : DB) : reply Q * DB :=
  match getDistanceService (param fromLat) (param fromLng)
                           (param toLat) (param toLng) db with
  | (Ok distance, db') => ((200, Payload distance), db')
  | (Throw _, db') => ((500, Failure "Failed to calculate distance"), db')
  end.

(** Ids of places come from the sequence: each is below its next value. *)
Definition Places_fresh (db : DB) : Prop :=
  Forall (fun p => Place.id p < Place_id_seq db) (Places db).
End MorePlaces.

(** ** user.service.js, the rest *)

(** [bcrypt.hash(password, saltRounds)]. *)
Class Hashing : Type := {
  bcrypt_hash : string -> Z -> string
}.

(** A hash is one its password compares true with. *)
Class HashingLaws (LIB : Libraries) (HASH : Hashing) : Prop := {
  bcrypt_compare_hash : forall password saltRounds,
      bcrypt_compare password (bcrypt_hash password saltRounds) = true
}.

(** The database with the sequence behind ["User".id]. *)
Record Registry : Type := {
  store : DB;
  User_id_seq : Z
}.

(** The body of [POST /users/register]: each field holds any value of the
    JSON body, [undefined] when the key is absent. *)
Record RegisterInput : Type := {
  reg_username : JS.value;
  reg_email : JS.value;
  reg_password : JS.value;
  reg_fullName : JS.value
}.

(** The columns [getUserEngagementService] selects ([createdAt] left out). *)
Record Engagement : Type := {
  e_id : Z;
  e_username : string;
  e_storyCount : Z;
  e_likeCount : Z;
  e_commentCount : Z
}.

Definition with_fullName (fullName : option string) (p : User.texts (option string))
  : User.texts (option string) :=
  {| User.fullName := fullName; User.avatarUrl := User.avatarUrl p;
     User.bio := User.bio p; User.website := User.website p;
     User.instagram := User.instagram p; User.twitter := User.twitter p;
     User.facebook := User.facebook p; User.city := User.city p;
     User.country := User.country p |}.

Definition with_avatarUrl (avatarUrl : option string) (p : User.texts (option string))
  : User.texts (option string) :=
  {| User.fullName := User.fullName p; User.avatarUrl := avatarUrl;
     User.bio := User.bio p; User.website := User.website p;
     User.instagram := User.instagram p; User.twitter := User.twitter p;
     User.facebook := User.facebook p; User.city := User.city p;
     User.country := User.country p |}.

Section MoreUsers.
Context {PG : Postgres} {LIB : Libraries} {HASH : Hashing}.

(** [prisma.user.findFirst({ where: { OR: [{ email }, { username }] } })]
    of [createUserService]: each field against its own column. *)
Definition findFirst_email_or_username_of (email username : string)
  : M (option User.row) :=
  fun db =>
    (Ok (find (fun u => String.eqb (User.email u) email
                        || String.eqb (User.username u) username)%bool
              (Users db)), db).

(** The row [prisma.user.create] stores: every column the data leaves out
    at its default. *)
Definition new_user (id : Z) (username email hashedPassword : string)
           (fullName : option string) : User.row :=
  {| User.id := id; User.username := username; User.email := email;
     User.password := hashedPassword;
     User.profile := with_fullName fullName no_texts;
     User.storyCount := 0; User.likeCount := 0; User.commentCount := 0;
     User.coordinates := None |}.

(** [fullName || null] as the column takes it: [NULL] for a falsy value and
    the text of a string; [None] for another value, which the client
    refuses. *)
Definition or_null (fullName : JS.value) : option (option string) :=
  if JS.is_falsy fullName then Some None
  else match fullName with
       | JS.Str s => Some (Some s)
       | _ => None
       end.

(** The four arguments are the values of the body as [registerUser] passes
    them; the first three are neither [undefined] nor [null].  The client
    refuses an [email] or a [username] that is no string, [bcrypt.hash] a
    [password] that is none.  The new row is put at the end of the list: the
    list stands for the order of one scan, which the database is free to
    choose, and no property below but the ones that say so depends on where
    the row is put. *)
Definition createUserService (username email password fullName : JS.value)
           (reg : Registry)
  : result User.account * Registry :=
  match email, username with
  | JS.Str email, JS.Str username =>
      match findFirst_email_or_username_of email username (store reg) with
      | (Ok (Some _), _) =>
          (Throw (Error "User with this email or username already exists"), reg)
      | (Ok None, _) =>
          let saltRounds := 12 in
          match password with
          | JS.Str password =>
              let hashedPassword := bcrypt_hash password saltRounds in
              match or_null fullName with
              | Some fullName =>
                  let user := new_user (User_id_seq reg) username email
                                       hashedPassword fullName in
                  (Ok (without_password user),
                   {| store := with_Users (Users (store reg) ++ [user]) (store reg);
                      User_id_seq := User_id_seq reg + 1 |})
              | None => (Throw PrismaClientValidationError, reg)
              end
          | _ => (Throw (bcrypt_hash_error password), reg)
          end
      | (Throw e, _) => (Throw e, reg)
      end
  | _, _ => (Throw PrismaClientValidationError, reg)
  end.

Definition select_engagement (u : User.row) : Engagement :=
  {| e_id := User.id u; e_username := User.username u;
     e_storyCount := User.storyCount u; e_likeCount := User.likeCount u;
     e_commentCount := User.commentCount u |}.

(** [prisma.user.findUnique({ where: { id: userId }, select })], raising on
    [null].  The client raises on an id outside the 32-bit range of the
    column. *)
Definition getUserEngagementService (userId : Z) : M Engagement :=
  fun db =>
    if int4 userId then
      match find (fun u => User.id u =? userId) (Users db) with
      | Some u => (Ok (select_engagement u), db)
      | None => (Throw (Error "User not found"), db)
      end
    else (Throw (PrismaError P2020), db).

(** [updateUserStatsService] on the numbers [updateUserStats] passes: the
    stat type is checked first; the statements run as modelled when the id
    and the increment are integers. *)
Definition updateUserStatsService_of_numbers {DR : Driver}
           (userId : JS.number) (statType : string) (increment : JS.number)
  : M (option User.view) :=
  if negb (includes validStats statType) then
    throw (Error ("Invalid stat type: " ++ statType))
  else
    match JS.as_integer userId, JS.as_integer increment with
    | Some id, Some n => updateUserStatsService id statType n
    | _, _ => stats_of_NaN userId statType increment
    end.

(** ** user.controller.js, the rest *)

Definition registerUser (input : RegisterInput) (reg : Registry)
  : reply (string * User.account) * Registry :=
  let username := reg_username input in
  let email := reg_email input in
  let password := reg_password input in
  let fullName := reg_fullName input in
  if (JS.is_falsy username || JS.is_falsy email || JS.is_falsy password)%bool then
    ((400, Failure "Username, email, and password are required"), reg)
  else if JS.length_below password 6 then
    ((400, Failure "Password must be at least 6 characters long"), reg)
  else
    match createUserService username email password fullName reg with
    | (Ok user, reg') =>
        ((201, Payload ("User created successfully", user)), reg')
    | (Throw (Error m), reg') =>
        if includes_text m "already exists" then ((409, Failure m), reg')
        else ((500, Failure "Failed to create user"), reg')
    | (Throw (PrismaError _), reg') =>
        ((500, Failure "Failed to create user"), reg')
    end.

(** [if (user.avatarUrl) user.avatarUrl = getOptimizedAvatarUrl(...)] with
    width and height 200: a falsy URL stays as it is. *)
Definition optimize_view (v : User.view) : User.view :=
  let avatarUrl := User.avatarUrl (User.v_profile v) in
  let optimizedUrl :=
    if JS.falsy avatarUrl then avatarUrl
    else option_map (fun url => getOptimizedAvatarUrl url 200 200) avatarUrl in
  {| User.v_id := User.v_id v; User.v_username := User.v_username v;
     User.v_profile := with_avatarUrl optimizedUrl (User.v_profile v);
     User.v_storyCount := User.v_storyCount v;
     User.v_likeCount := User.v_likeCount v;
     User.v_commentCount := User.v_commentCount v;
     User.v_coordinates := User.v_coordinates v |}.

(** [GET /users/:id], for an id that fits the 32 bits of the column; on one
    that does not the query raises, as in [getUserEngagementService]
    above. *)
Definition getUserProfile (id : string) (db : DB) : reply User.view * DB :=
  match JS.as_integer (JS.parseInt id) with
  | None => ((400, Failure "Invalid user ID"), db)
  | Some userId =>
      match getUserProfileService userId db with
      | (Ok None, db') => ((404, Failure "User not found"), db')
      | (Ok (Some user), db') => ((200, Payload (optimize_view user)), db')
      | (Throw _, db') => ((500, Failure "Failed to get user profile"), db')
      end
  end.

(** [GET /users/:id/engagement]. *)
Definition getUserEngagement (id : string) (db : DB) : reply Engagement * DB :=
  match JS.as_integer (JS.parseInt id) with
  | None => ((400, Failure "Invalid user ID"), db)
  | Some userId =>
      match getUserEngagementService userId db with
      | (Ok engagement, db') => ((200, Payload engagement), db')
      | (Throw error, db') =>
          if message_is error "User not found" then
            ((404, Failure "User not found"), db')
          else ((500, Failure "Failed to get user engagement"), db')
      end
  end.

(** [PUT /users/:id], behind [authorizeOwner]: [userId] is the integer
    [parseInt(req.params.id)].  The body carries the texts but [avatarUrl],
    and the two coordinates.  A [null] profile makes the read of its
    [avatarUrl] raise. *)
Definition updateUserProfile (userId : Z) (body : UpdateData) (db : DB)
  : reply (string * User.view) * DB :=
  let updateData :=
    {| up_texts :=
         {| User.fullName := User.fullName (up_texts body);
            User.avatarUrl := None;
            User.bio := User.bio (up_texts body);
            User.website := User.website (up_texts body);
            User.instagram := User.instagram (up_texts body);
            User.twitter := User.twitter (up_texts body);
            User.facebook := User.facebook (up_texts body);
            User.city := User.city (up_texts body);
            User.country := User.country (up_texts body) |};
       up_latitude := up_latitude body;
       up_longitude := up_longitude body |} in
  match updateUserProfileService userId updateData db with
  | (Ok (Some updatedUser), db') =>
      ((200, Payload ("Profile updated successfully", optimize_view updatedUser)), db')
  | (Ok None, db') => ((500, Failure "Failed to update profile"), db')
  | (Throw _, db') => ((500, Failure "Failed to update profile"), db')
  end.

(** [PUT /users/:id/stats]: the body's [statType] is a string or absent, its
    [increment] any value, 1 when absent. *)
Definition updateUserStats {DR : Driver} (id : string) (statType : option string)
           (increment : JS.value) (db : DB)
  : reply (string * option User.view) * DB :=
  let userId := JS.parseInt id in
  let increment := if JS.is_undefined increment then JS.Number (JS.of_Z 1)
                   else increment in
  match statType with
  | Some statType =>
      if JS.falsy (Some statType) then
        ((400, Failure "Stat type is required"), db)
      else
        match updateUserStatsService_of_numbers userId statType
                (parseInt increment) db with
        | (Ok updatedUser, db') =>
            ((200, Payload ("User stats updated successfully", updatedUser)), db')
        | (Throw (Error m), db') =>
            if includes_text m "Invalid stat type" then ((400, Failure m), db')
            else ((500, Failure "Failed to update user stats"), db')
        | (Throw (PrismaError _), db') =>
            ((500, Failure "Failed to update user stats"), db')
        end
  | None => ((400, Failure "Stat type is required"), db)
  end.
End MoreUsers.

(** ** auth.middleware.js and the routes of user.routes.js *)

(** What [jwt.verify(token, secret)] gives: the payload's [userId] ([None]
    when it holds no integer there), or one of the errors the middleware
    tells apart, or another error. *)
Inductive verified : Type :=
| Decoded (userId : option Z)
| JsonWebTokenError
| TokenExpiredError
| OtherVerifyError.

Class Tokens : Type := {
  jwt_verify : string -> verified
}.

(** What [GET /users/me] sends: the profile, the email of [req.user], and
    the avatar URL rewritten or [null]. *)
Record OwnProfile : Type := {
  own_profile : User.view;
  own_email : string;
  own_avatarUrl : option string
}.

Section Routes.
Context {PG : Postgres} {LIB : Libraries} {TOK : Tokens} {DR : Driver}.

(** [authHeader && authHeader.split(' ')[1]]. *)
Definition bearer_token (authorization : option string) : option string :=
  match authorization with
  | None => None
  | Some authHeader =>
      if String.eqb authHeader "" then Some ""
      else nth_error (split_on " " authHeader) 1
  end.

(** A middleware ends the request with a status and an error, or goes on. *)
Definition authenticateToken (authorization : option string) (db : DB)
  : (Z * string) + User.account :=
  let token := bearer_token authorization in
  match token with
  | None => inl (401, "Access token required")
  | Some token =>
      if String.eqb token "" then inl (401, "Access token required")
      else
        match jwt_verify token with
        | Decoded (Some userId) =>
            match find (fun u => User.id u =? userId) (Users db) with
            | Some user => inr (without_password user)
            | None => inl (401, "User not found")
            end
        | Decoded None => inl (500, "Authentication error")
        | JsonWebTokenError => inl (401, "Invalid token")
        | TokenExpiredError => inl (401, "Token expired")
        | OtherVerifyError => inl (500, "Authentication error")
        end
  end.

(** [authorizeOwner]: it goes on with [parseInt(req.params.id)] when that is
    the id of [req.user]. *)
Definition authorizeOwner (id : string) (user : User.account) : (Z * string) + Z :=
  match JS.as_integer (JS.parseInt id) with
  | Some requestedUserId =>
      if requestedUserId =? User.a_id user then inr requestedUserId
      else inl (403, "Access denied: You can only access your own profile")
  | None => inl (403, "Access denied: You can only access your own profile")
  end.

(** [router.delete('/:id', authenticateToken, authorizeOwner, deleteUser)]. *)
Definition DELETE_users_id (authorization : option string) (id : string) (db : DB)
  : response * DB :=
  match authenticateToken authorization db with
  | inl (code, error) => (respond code (ErrorBody error), db)
  | inr user =>
      match authorizeOwner id user with
      | inl (code, error) => (respond code (ErrorBody error), db)
      | inr userId => deleteUser userId db
      end
  end.

(** [router.put('/:id', authenticateToken, authorizeOwner, updateUserProfile)]. *)
Definition PUT_users_id (authorization : option string) (id : string)
           (body : UpdateData) (db : DB) : reply (string * User.view) * DB :=
  match authenticateToken authorization db with
  | inl (code, error) => ((code, Failure error), db)
  | inr user =>
      match authorizeOwner id user with
      | inl (code, error) => ((code, Failure error), db)
      | inr userId => updateUserProfile userId body db
      end
  end.

(** [router.put('/:id/stats', authenticateToken, updateUserStats)]. *)
Definition PUT_users_id_stats (authorization : option string) (id : string)
           (statType : option string) (increment : JS.value) (db : DB)
  : reply (string * option User.view) * DB :=
  match authenticateToken authorization db with
  | inl (code, error) => ((code, Failure error), db)
  | inr _ => updateUserStats id statType increment db
  end.

(** [getCurrentUserProfile], with [req.user] set by the middleware; a
    [null] profile makes the read of its [avatarUrl] raise. *)
Definition getCurrentUserProfile (user : User.account) (db : DB)
  : reply OwnProfile * DB :=
  match getUserProfileService (User.a_id user) db with
  | (Ok (Some fullProfile), db') =>
      ((200, Payload
               {| own_profile := fullProfile;
                  own_email := User.a_email user;
                  own_avatarUrl :=
                    optimized (User.avatarUrl (User.v_profile fullProfile)) 200 200 |}),
       db')
  | (Ok None, db') => ((500, Failure "Failed to get profile"), db')
  | (Throw _, db') => ((500, Failure "Failed to get profile"), db')
  end.

(** [router.get('/me', authenticateToken, getCurrentUserProfile)]. *)
Definition GET_users_me (authorization : option string) (db : DB)
  : reply OwnProfile * DB :=
  match authenticateToken authorization db with
  | inl (code, error) => ((code, Failure error), db)
  | inr user => getCurrentUserProfile user db
  end.
End Routes.

(** ** User search *)

(** Upper-case ASCII letters to lower case: what [toLowerCase] and SQL's
    [LOWER] agree on; other characters are kept. *)
Definition lower_char (c : ascii) : ascii :=
  let n := nat_of_ascii c in
  if ((65 <=? n) && (n <=? 90))%nat then ascii_of_nat (n + 32) else c.

Fixpoint toLowerCase (s : string) : string :=
  match s with
  | EmptyString => EmptyString
  | String c rest => String (lower_char c) (toLowerCase rest)
  end.

(** The match of SQL's [LIKE]: [%] stands for any text, [_] for any one
    character, and a backslash takes the next character literally (a pattern
    that ends in a lone backslash matches nothing here; the patterns of the
    search all end in [%]). *)
Fixpoint like (pattern s : string) {struct pattern} : bool :=
  match pattern with
  | EmptyString =>
      match s with EmptyString => true | String _ _ => false end
  | String c rest =>
      if Ascii.eqb c "%" then
        (fix any (s : string) : bool :=
           (like rest s
            || match s with
               | EmptyString => false
               | String _ s' => any s'
               end)%bool) s
      else if Ascii.eqb c "_" then
        match s with
        | String _ s' => like rest s'
        | EmptyString => false
        end
      else if Ascii.eqb c "\" then
        match rest with
        | String escaped rest' =>
            match s with
            | String a s' => (Ascii.eqb a escaped && like rest' s')%bool
            | EmptyString => false
            end
        | EmptyString => false
        end
      else
        match s with
        | String a s' => (Ascii.eqb a c && like rest s')%bool
        | EmptyString => false
        end
  end.

(** [s LIKE pattern]. *)
Definition LIKE (s pattern : string) : bool := like pattern s.

(** [LOWER(column) LIKE pattern] and [LOWER(column) = text] on a nullable
    column: not true on [NULL]. *)
Definition LOWER_LIKE (column : option string) (pattern : string) : bool :=
  match column with
  | Some s => LIKE (toLowerCase s) pattern
  | None => false
  end.

Definition LOWER_is (column : option string) (text : string) : bool :=
  match column with
  | Some s => String.eqb (toLowerCase s) text
  | None => false
  end.

(** The columns [searchUsersService] selects. *)
Record Found : Type := {
  f_id : Z;
  f_username : string;
  f_fullName : option string;
  f_avatarUrl : option string;
  f_bio : option string;
  f_city : option string;
  f_country : option string;
  f_storyCount : Z;
  f_likeCount : Z;
  f_commentCount : Z;
  f_coordinates : option string
}.

Section OrderBy.
Context {A : Type}.
Variable leb : A -> A -> bool.

Fixpoint insert_by (r : A) (sorted : list A) : list A :=
  match sorted with
  | [] => [r]
  | x :: rest => if leb r x then r :: sorted else x :: insert_by r rest
  end.

(** [ORDER BY] a list of keys, given as the order on rows they induce. *)
Definition ORDER_BY (rows : list A) : list A := fold_right insert_by [] rows.
End OrderBy.

Section Search.
Context {PG : Postgres} {LIB : Libraries}.

(** The [WHERE] clause of the search. *)
Definition search_matches (searchTerm : string) (u : User.row) : bool :=
  (LOWER_LIKE (Some (User.username u)) searchTerm
   || LOWER_LIKE (User.fullName (User.profile u)) searchTerm)%bool.

(** The [CASE] the search orders by first. *)
Definition search_rank (q : string) (u : User.row) : Z :=
  if LOWER_is (Some (User.username u)) q then 1
  else if LOWER_is (User.fullName (User.profile u)) q then 2
  else if LOWER_LIKE (Some (User.username u)) (q ++ "%") then 3
  else if LOWER_LIKE (User.fullName (User.profile u)) (q ++ "%") then 4
  else 5.

(** [ORDER BY CASE ... END, "storyCount" DESC, "likeCount" DESC]. *)
Definition search_order (q : string) (u v : User.row) : bool :=
  ((search_rank q u <? search_rank q v)
   || ((search_rank q u =? search_rank q v)
       && ((User.storyCount v <? User.storyCount u)
           || ((User.storyCount u =? User.storyCount v)
               && (User.likeCount v <=? User.likeCount u)))))%bool.

Definition select_found (u : User.row) : Found :=
  {| f_id := User.id u; f_username := User.username u;
     f_fullName := User.fullName (User.profile u);
     f_avatarUrl := User.avatarUrl (User.profile u);
     f_bio := User.bio (User.profile u);
     f_city := User.city (User.profile u);
     f_country := User.country (User.profile u);
     f_storyCount := User.storyCount u;
     f_likeCount := User.likeCount u;
     f_commentCount := User.commentCount u;
     f_coordinates := option_map ST_AsText (User.coordinates u) |}.

(** The users the search statement lists, before [LIMIT]. *)
Definition search_listing (query : string) (db : DB) : list User.row :=
  ORDER_BY (search_order (toLowerCase query))
    (filter (search_matches ("%" ++ toLowerCase query ++ "%")) (Users db)).

Definition searchUsersService (query : string) (limit : JS.number)
  : M (list Found) :=
  fun db => (LIMIT limit (map select_found (search_listing query db)), db).

Definition optimizedFound (user : Found) : Found :=
  {| f_id := f_id user; f_username := f_username user;
     f_fullName := f_fullName user;
     f_avatarUrl := optimized (f_avatarUrl user) 100 100;
     f_bio := f_bio user; f_city := f_city user; f_country := f_country user;
     f_storyCount := f_storyCount user; f_likeCount := f_likeCount user;
     f_commentCount := f_commentCount user;
     f_coordinates := f_coordinates user |}.

(** [GET /users/search]: the payload is [{ query, count, users }]. *)
Definition searchUsers (q limit : option string) (db : DB)
  : reply (string * nat * list Found) * DB :=
  match q with
  | Some query =>
      if (JS.falsy (Some query) || (String.length (trim query) <? 2)%nat)%bool then
        ((400, Failure "Search query must be at least 2 characters long"), db)
      else
        let limit := match limit with
                     | None => JS.Number (JS.of_Z 20)
                     | Some s => JS.Str s
                     end in
        match searchUsersService (trim query) (parseInt limit) db with
        | (Ok users, db') =>
            let optimizedUsers := map optimizedFound users in
            ((200, Payload (trim query, List.length optimizedUsers, optimizedUsers)),
             db')
        | (Throw _, db') => ((500, Failure "Failed to search users"), db')
        end
  | None =>
      ((400, Failure "Search query must be at least 2 characters long"), db)
  end.
End Search.

(** A text with none of the characters [LIKE] reads specially. *)
Fixpoint plain_text (s : string) : bool :=
  match s with
  | EmptyString => true
  | String c rest =>
      (negb (Ascii.eqb c "%") && negb (Ascii.eqb c "_") && negb (Ascii.eqb c "\")
       && plain_text rest)%bool
  end.

(** ** Stand-ins for the added interfaces *)

Definition sample_hashing : Hashing :=
  {| bcrypt_hash := fun password _ => "$2b$12$" ++ password |}.

(** The stand-in token is the user's name behind [jwt.]; it verifies when a
    sample user bears that name. *)
Definition sample_tokens : Tokens :=
  {| jwt_verify := fun token =>
       match strip_prefix "jwt." token with
       | Some "amira" => Decoded (Some 1)
       | Some "badr" => Decoded (Some 2)
       | Some "chadi" => Decoded (Some 3)
       | Some "expired" => TokenExpiredError
       | _ => JsonWebTokenError
       end |}.

Definition sample_driver : Driver :=
  {| place_of_NaN_id := Ok None;
     stats_of_NaN := fun _ _ _ => throw (PrismaError P2010) |}.

Definition registry_of (db : DB) (next : Z) : Registry :=
  {| store := db; User_id_seq := next |}.

(** The rows [seedTestPlaces] adds when the store reads the three texts as
    [g1], [g2] and [g3]. *)
Definition seeded (g1 g2 g3 : geography) (db : DB) : DB :=
  with_new_Place "Food Plaza" (Some "Famous for street food") g3
    (with_new_Place "Library Park" (Some "Quiet place with trees") g2
       (with_new_Place "City Square" (Some "A center point") g1 db)).

(** ** Registered users *)

(** No stored user has the email in [email] or the name in [username]. *)
Definition free (email username : string) (db : DB) : Prop :=
  forall u, In u (Users db) -> User.email u <> email /\ User.username u <> username.

(** The user table as registration keeps it: ids distinct and below the
    sequence, emails distinct, names distinct. *)
Definition Users_wf (reg : Registry) : Prop :=
  NoDup (map User.id (Users (store reg)))
  /\ NoDup (map User.email (Users (store reg)))
  /\ NoDup (map User.username (Users (store reg)))
  /\ Forall (fun u => User.id u < User_id_seq reg) (Users (store reg)).

(** The counter of a profile view that a stat type names. *)
Definition view_counter (statType : string) (v : User.view) : Z :=
  if String.eqb statType "storyCount" then User.v_storyCount v
  else if String.eqb statType "likeCount" then User.v_likeCount v
  else User.v_commentCount v.

Definition engagement_counter (statType : string) (e : Engagement) : Z :=
  if String.eqb statType "storyCount" then e_storyCount e
  else if String.eqb statType "likeCount" then e_likeCount e
  else e_commentCount e.

(** The sample users with the sequence at 4, and two registrations: a new
    user, and one whose email is the name of the second sample user. *)
Definition sample_registry : Registry := registry_of users_db 4.

Definition register_dalia : RegisterInput :=
  {| reg_username := JS.Str "dalia"; reg_email := JS.Str "dalia@example.com";
     reg_password := JS.Str "secret4"; reg_fullName := JS.Str "Dalia" |}.

(** A registration with the number 1234567 for a password. *)
Definition register_number_password : RegisterInput :=
  {| reg_username := JS.Str "farid"; reg_email := JS.Str "farid@example.com";
     reg_password := JS.Number (JS.of_Z 1234567); reg_fullName := JS.undefined |}.

Definition register_with_email_badr : RegisterInput :=
  {| reg_username := JS.Str "eve"; reg_email := JS.Str "badr";
     reg_password := JS.Str "secret5"; reg_fullName := JS.undefined |}.

(** What a profile update may change of a row [u], giving [u']: nothing of
    its id, email, name, password hash and counters, and nothing at all
    unless its id is [me]. *)
Definition profile_change_of (me : Z) (u u' : User.row) : Prop :=
  User.id u' = User.id u /\ User.email u' = User.email u
  /\ User.username u' = User.username u /\ User.password u' = User.password u
  /\ User.storyCount u' = User.storyCount u
  /\ User.likeCount u' = User.likeCount u
  /\ User.commentCount u' = User.commentCount u
  /\ (User.id u <> me -> u' = u).

(** A text with no space in it, as a token is. *)
Fixpoint no_space (s : string) : bool :=
  match s with
  | EmptyString => true
  | String c rest => (negb (Ascii.eqb c " ") && no_space rest)%bool
  end.

(** [s] has [q] as a part. *)
Definition contains (s q : string) : Prop :=
  exists before after, s = before ++ q ++ after.

(** A text of percent signs only. *)
Fixpoint only_percent (s : string) : bool :=
  match s with
  | EmptyString => true
  | String c rest => (Ascii.eqb c "%" && only_percent rest)%bool
  end.

(** The order of the search, spelled out: the rank first, then more stories
    first, then more likes first. *)
Definition search_before (q : string) (u v : User.row) : Prop :=
  search_rank q u < search_rank q v
  \/ (search_rank q u = search_rank q v
      /\ (User.storyCount v < User.storyCount u
          \/ (User.storyCount u = User.storyCount v
              /\ User.likeCount v <= User.likeCount u))).

(** Three users to search among: name, full name and story count. *)
Definition searchable_user (id : Z) (username : string) (fullName : option string)
           (storyCount : Z) : User.row :=
  {| User.id := id; User.username := username;
     User.email := username ++ "@example.com";
     User.password := "$2b$12$secret";
     User.profile := with_fullName fullName no_texts;
     User.storyCount := storyCount; User.likeCount := 0; User.commentCount := 0;
     User.coordinates := None |}.

Definition search_db : DB :=
  db_of_users
    [ searchable_user 1 "Bob" (Some "Bob Ali") 9;
      searchable_user 2 "alice" (Some "Alice Smith") 0;
      searchable_user 3 "Ali" None 3 ].

(** * Properties *)

(** ** The JavaScript fragments on sample texts *)

Example parseInt_50 : JS.parseInt "50" = JS.of_Z 50.
Proof. reflexivity. Qed.

Example parseInt_prefix : JS.parseInt "  -12px" = JS.of_Z (-12).
Proof. reflexivity. Qed.

Example parseInt_hex : JS.parseInt "0x1f" = JS.of_Z 31.
Proof. reflexivity. Qed.

Example parseInt_none : JS.parseInt "invalid" = JS.NaN.
Proof. reflexivity. Qed.

Example parseFloat_decimal : JS.parseFloat "30.044" = JS.Num (7511 # 250).
Proof. reflexivity. Qed.

Example parseFloat_exponent : JS.parseFloat "5e3m" = JS.Num 5000.
Proof. reflexivity. Qed.

Example parseFloat_none : JS.parseFloat "invalid" = JS.NaN.
Proof. reflexivity. Qed.

Example ToString_decimal : JS.ToString (JS.Number (JS.Num (30033333 # 1000000))) = "30.033333".
Proof. reflexivity. Qed.

Example ToString_integer : JS.ToString (JS.Number (JS.of_Z 91)) = "91".
Proof. reflexivity. Qed.

Example ToString_negative : JS.ToString (JS.Number (JS.Num (- (5 # 2)))) = "-2.5".
Proof. reflexivity. Qed.

Example ToString_1e21 : JS.ToString (JS.Number (JS.of_Z (10 ^ 21))) = "1e+21".
Proof. reflexivity. Qed.

Example ToString_below_1e21 :
  JS.ToString (JS.Number (JS.of_Z (10 ^ 21 - 1))) = "999999999999999999999".
Proof. reflexivity. Qed.

Example ToString_5e_7 : JS.ToString (JS.Number (JS.Num (5 # 10000000))) = "5e-7".
Proof. reflexivity. Qed.

Example ToString_1e_6 : JS.ToString (JS.Number (JS.Num (1 # 1000000))) = "0.000001".
Proof. reflexivity. Qed.

Example parseInt_1e21 : parseInt (JS.Number (JS.of_Z (10 ^ 21))) = JS.of_Z 1.
Proof. reflexivity. Qed.

Example int4_bounds :
  int4 2147483647 = true /\ int4 2147483648 = false
  /\ int4 (-2147483648) = true /\ int4 99999999999 = false.
Proof. repeat split. Qed.

(** ** The SQL clauses *)

Section ClauseFacts.
Context {A B : Type}.

Lemma SELECT_WHERE_In (select : A -> option B) (rows : list A) (b : B) :
  In b (SELECT_WHERE select rows) <-> exists a, In a rows /\ select a = Some b.
Proof.
  induction rows as [|r rest IH]; simpl.
  - split; [tauto | intros (a & [] & _)].
  - destruct (select r) as [b'|] eqn:E; simpl; rewrite IH; split.
    + intros [<- | (a & Ha & Hs)]; [exists r | exists a]; auto.
    + intros (a & [<- | Ha] & Hs).
      * left; congruence.
      * right; exists a; auto.
    + intros (a & Ha & Hs); exists a; auto.
    + intros (a & [<- | Ha] & Hs); [congruence | exists a; auto].
Qed.

(** A condition with no projection is a filter followed by a map. *)
Lemma SELECT_WHERE_filter (keep : A -> bool) (select : A -> B) (rows : list A) :
  SELECT_WHERE (fun a => if keep a then Some (select a) else None) rows
  = map select (filter keep rows).
Proof.
  induction rows as [|r rest IH]; simpl; [reflexivity|].
  destruct (keep r); simpl; now rewrite IH.
Qed.

Lemma SELECT_WHERE_none (select : A -> option B) (rows : list A) :
  (forall a, In a rows -> select a = None) -> SELECT_WHERE select rows = [].
Proof.
  induction rows as [|r rest IH]; simpl; intros H; [reflexivity|].
  rewrite (H r (or_introl eq_refl)). apply IH. intros a Ha. apply H. now right.
Qed.

Lemma In_firstn (n : nat) (l : list B) (b : B) : In b (firstn n l) -> In b l.
Proof.
  revert n. induction l as [|x rest IH]; intros [|n]; simpl; try tauto.
  intros [<- | H]; [now left | right; eauto].
Qed.

Variable key : B -> Q.

Lemma insert_ASC_perm (r : B) (l : list B) :
  Permutation (insert_ASC key r l) (r :: l).
Proof.
  induction l as [|x rest IH]; simpl; [reflexivity|].
  destruct (Qle_bool (key r) (key x)); [reflexivity|].
  rewrite IH. apply perm_swap.
Qed.

Lemma ORDER_BY_ASC_perm (l : list B) : Permutation (ORDER_BY_ASC key l) l.
Proof.
  induction l as [|x rest IH]; simpl; [constructor|].
  rewrite insert_ASC_perm. now constructor.
Qed.

Lemma insert_ASC_sorted (r : B) (l : list B) :
  StronglySorted (ascending key) l -> StronglySorted (ascending key) (insert_ASC key r l).
Proof.
  induction 1 as [|x rest Hs IH Hx]; simpl.
  - repeat constructor.
  - destruct (Qle_bool (key r) (key x)) eqn:E.
    + apply Qle_bool_iff in E.
      constructor; [now constructor|].
      constructor; [exact E|].
      eapply Forall_impl; [|exact Hx].
      intros b Hb. unfold ascending in *. now apply Qle_trans with (key x).
    + constructor; [exact IH|].
      assert (Hlt : (key x <= key r)%Q).
      { apply Qlt_le_weak, Qnot_le_lt. intros Hle.
        apply Qle_bool_iff in Hle. congruence. }
      eapply Permutation_Forall; [symmetry; apply insert_ASC_perm|].
      now constructor.
Qed.

Lemma ORDER_BY_ASC_sorted (l : list B) :
  StronglySorted (ascending key) (ORDER_BY_ASC key l).
Proof.
  induction l as [|x rest IH]; simpl; [constructor|].
  now apply insert_ASC_sorted.
Qed.

Lemma ORDER_BY_ASC_In (l : list B) (b : B) :
  In b (ORDER_BY_ASC key l) <-> In b l.
Proof.
  split; apply Permutation_in;
    [apply ORDER_BY_ASC_perm | symmetry; apply ORDER_BY_ASC_perm].
Qed.

Lemma firstn_sorted (n : nat) (l : list B) :
  StronglySorted (ascending key) l -> StronglySorted (ascending key) (firstn n l).
Proof.
  intros H. revert n.
  induction H as [|x rest Hs IH Hx]; intros [|n]; simpl; try constructor.
  - apply IH.
  - rewrite Forall_forall in *. intros b Hb. eapply Hx, In_firstn, Hb.
Qed.
End ClauseFacts.

Lemma as_integer_of_Z (z : Z) : JS.as_integer (JS.of_Z z) = Some z.
Proof.
  unfold JS.as_integer, JS.of_Z. rewrite Qfloor_Z.
  now rewrite (proj2 (Qeq_bool_iff _ _) (Qeq_refl _)).
Qed.

Section ServiceFacts.
Context {PG : Postgres} {LIB : Libraries}.

Lemma LIMIT_of_Z {A : Type} (l : Z) (rows : list A) :
  0 <= l -> LIMIT (JS.of_Z l) rows = Ok (firstn (Z.to_nat l) rows).
Proof.
  intros Hl. unfold LIMIT. rewrite as_integer_of_Z.
  destruct (Z.ltb_spec l 0); [lia | reflexivity].
Qed.

Lemma LIMIT_incl {A : Type} (n : JS.number) (rows limited : list A) :
  LIMIT n rows = Ok limited -> incl limited rows.
Proof.
  unfold LIMIT. intros H a Ha.
  destruct (JS.as_integer n) as [z|].
  - destruct (z <? 0); [discriminate|].
    injection H as <-. now apply In_firstn in Ha.
  - destruct (LIMIT_non_integer n) as [[k|]|e]; try discriminate;
      injection H as <-; [now apply In_firstn in Ha | assumption].
Qed.

(** Every row [getNearbyUsersService] returns was selected from a stored
    user that has a point and is kept by [ST_DWithin]. *)
Lemma getNearbyUsersService_rows (latitude longitude radius limit : JS.number)
      (db db' : DB) (rows : list (User.nearby Q)) :
  getNearbyUsersService latitude longitude radius limit db = (Ok rows, db') ->
  exists center,
    ST_MakePoint longitude latitude = Some center /\
    forall row, In row rows ->
      exists u, In u (Users db) /\ select_nearby center radius u = Some row.
Proof.
  unfold getNearbyUsersService.
  destruct (ST_MakePoint longitude latitude) as [center|]; [|discriminate].
  intros H. injection H as HL _. exists center. split; [reflexivity|].
  intros row Hrow. apply (LIMIT_incl _ _ _ HL) in Hrow.
  apply ORDER_BY_ASC_In in Hrow. now apply SELECT_WHERE_In in Hrow.
Qed.

Lemma select_nearby_Some (center : geography) (radius : JS.number)
      (u : User.row) (row : User.nearby Q) :
  select_nearby center radius u = Some row ->
  exists g, User.coordinates u = Some g /\
            ST_DWithin g center radius = true /\
            User.n_id row = User.id u /\
            User.n_distance row = ST_Distance g center.
Proof.
  unfold select_nearby.
  destruct (User.coordinates u) as [g|]; [|discriminate].
  destruct (ST_DWithin g center radius) eqn:E; [|discriminate].
  intros H. injection H as <-. exists g. simpl. auto.
Qed.

Lemma ST_DWithin_Qle_bool {LAWS : PostgresLaws PG} (a b : geography) (r : Q) :
  ST_DWithin a b (JS.Num r) = Qle_bool (ST_Distance a b) r.
Proof.
  apply eq_true_iff_eq. rewrite ST_DWithin_iff. symmetry. apply Qle_bool_iff.
Qed.

Lemma findNearbyPlacesService_filter {LAWS : PostgresLaws PG}
      (lat lng : JS.number) (center : geography) (r : Q) (db : DB) :
  ST_MakePoint lng lat = Some center ->
  findNearbyPlacesService lat lng (JS.Num r) db
  = (Ok (map select_place (places_within center r db)), db).
Proof.
  intros Hc. unfold findNearbyPlacesService, places_within. rewrite Hc.
  rewrite SELECT_WHERE_filter. do 3 f_equal.
  apply filter_ext. intros p. apply ST_DWithin_Qle_bool.
Qed.

End ServiceFacts.

Lemma plane_laws : PostgresLaws plane.
Proof.
  split; simpl.
  - intros a b. unfold plane_Distance.
    apply Qmult_le_0_compat; [discriminate|].
    change 0%Q with (0 + 0)%Q.
    apply Qplus_le_compat; apply Qabs_nonneg.
  - intros a b r. apply Qle_bool_iff.
Qed.



Section RadiusFacts.
Context {PG : Postgres} {LAWS : PostgresLaws PG}.

(** With a centre the database accepts and a natural limit, the user search
    returns, and leaves the database as it was. *)
Lemma getNearbyUsersService_returns
      (latitude longitude radius : JS.number) (center : geography) (limit : Z)
      (db : DB) :
  ST_MakePoint longitude latitude = Some center ->
  0 <= limit ->
  getNearbyUsersService latitude longitude radius (JS.of_Z limit) db
  = (Ok (firstn (Z.to_nat limit)
           (ORDER_BY_ASC User.n_distance
              (SELECT_WHERE (select_nearby center radius) (Users db)))), db).
Proof.
  intros Hc Hl. unfold getNearbyUsersService. now rewrite Hc, LIMIT_of_Z.
Qed.

Lemma ST_DWithin_negative (a b : geography) (r : Q) :
  (r < 0)%Q -> ST_DWithin a b (JS.Num r) = false.
Proof.
  intros Hr. apply not_true_is_false. intros H.
  apply ST_DWithin_iff in H.
  apply (Qlt_irrefl 0).
  apply Qle_lt_trans with r; [|exact Hr].
  apply Qle_trans with (ST_Distance a b); [apply ST_Distance_nonneg | exact H].
Qed.

Lemma select_nearby_negative (center : geography) (r : Q) (u : User.row) :
  (r < 0)%Q -> select_nearby center (JS.Num r) u = None.
Proof.
  intros Hr. unfold select_nearby.
  destruct (User.coordinates u) as [g|]; [|reflexivity].
  now rewrite ST_DWithin_negative.
Qed.

Lemma places_within_negative (center : geography) (r : Q) (db : DB) :
  (r < 0)%Q -> places_within center r db = [].
Proof.
  intros Hr. unfold places_within.
  induction (Places db) as [|p rest IH]; simpl; [reflexivity|].
  rewrite <- ST_DWithin_Qle_bool, ST_DWithin_negative by assumption. exact IH.
Qed.

End RadiusFacts.



Lemma NoDup_map_injective {A B : Type} (f : A -> B) (l : list A) (a b : A) :
  NoDup (map f l) -> In a l -> In b l -> f a = f b -> a = b.
Proof.
  induction l as [|x rest IH]; simpl; [tauto|].
  intros Hnd Ha Hb Hf. inversion Hnd as [|? ? Hx Hrest]; subst.
  destruct Ha as [<- | Ha], Hb as [<- | Hb]; auto.
  - exfalso. apply Hx. rewrite Hf. now apply in_map.
  - exfalso. apply Hx. rewrite <- Hf. now apply in_map.
Qed.

(** C7.  A stored user with no coordinate is in no result of the user
    search, whatever the centre, radius and limit: no returned row carries
    its id (ids are the table's primary key).  A place always has a point:
    ["Place".location] is [NOT NULL], and [Place.row] holds a [geography]. *)
Theorem user_without_coordinates_never_nearby
        {PG : Postgres} (db : DB) (u : User.row) :
  NoDup (map User.id (Users db)) ->
  In u (Users db) ->
  User.coordinates u = None ->
  forall (latitude longitude radius limit : JS.number)
         (rows : list (User.nearby Q)) (db' : DB),
    getNearbyUsersService latitude longitude radius limit db = (Ok rows, db') ->
    ~ In (User.id u) (map User.n_id rows).
Proof.
  intros Hnd Hu Hnone latitude longitude radius limit rows db' Hrun Hin.
  apply in_map_iff in Hin as (row & Hid & Hrow).
  apply getNearbyUsersService_rows in Hrun as (center & _ & Hsel).
  destruct (Hsel row Hrow) as (u' & Hu' & Hs).
  apply select_nearby_Some in Hs as (g & Hg & _ & Hid' & _).
  assert (u' = u) as ->.
  { apply (NoDup_map_injective User.id (Users db)); auto. congruence. }
  congruence.
Qed.

(** C7, a run: the third sample user has no point and is not among the
    users found within 100 km of the square, while the search does return. *)
Lemma user_without_coordinates_never_nearby_witness :
  exists rows,
    getNearbyUsersService (PG := plane)
      (JS.Num (lat square)) (JS.Num (lng square)) (JS.Num 100000) (JS.of_Z 50)
      users_db = (Ok rows, users_db)
    /\ map User.n_id rows = [2; 1]
    /\ ~ In 3 (map User.n_id rows).
Proof.
  eexists. split; [reflexivity|]. split; [reflexivity|].
  apply (user_without_coordinates_never_nearby (PG := plane) users_db
           (sample_user 3 "chadi" "secret3" None)
           ltac:(repeat constructor; simpl; intuition discriminate)
           ltac:(simpl; tauto)
           eq_refl
           (JS.Num (lat square)) (JS.Num (lng square)) (JS.Num 100000) (JS.of_Z 50)
           _ users_db eq_refl).
Defined.

(** ** Deleting a user *)

Lemma filter_other_ids_absent (userId : Z) (users : list User.row) :
  ~ In userId (map User.id users) ->
  filter (fun u => negb (User.id u =? userId)) users = users.
Proof.
  induction users as [|x rest IH]; simpl; [reflexivity|].
  intros Hx. destruct (Z.eqb_spec (User.id x) userId) as [Heq|Hne]; simpl.
  - exfalso. apply Hx. now left.
  - f_equal. apply IH. intros Hin. apply Hx. now right.
Qed.

Lemma filter_other_ids_length (userId : Z) (users : list User.row) :
  NoDup (map User.id users) ->
  existsb (fun u => User.id u =? userId) users = true ->
  S (List.length (filter (fun u => negb (User.id u =? userId)) users))
  = List.length users.
Proof.
  induction users as [|x rest IH]; simpl; [discriminate|].
  intros Hnd Hex. inversion Hnd as [|? ? Hx Hrest]; subst.
  destruct (Z.eqb_spec (User.id x) userId) as [Heq|Hne]; simpl.
  - rewrite filter_other_ids_absent; [reflexivity | now rewrite <- Heq].
  - f_equal. now apply IH.
Qed.

(** C8, as amended.  [deleteUserService] on the id of a stored user returns
    [true] and removes the rows of that id and no other (one row, ids being
    the primary key); on an id that is not stored the client raises [P2025],
    the database is left as it was, and [deleteUser] answers 500. *)
Theorem deleteUserService_contract {PG : Postgres} (userId : Z) (db : DB) :
  let present := existsb (fun u => User.id u =? userId) (Users db) in
  let db' := snd (deleteUserService userId db) in
  fst (deleteUserService userId db)
  = (if present then Ok true else Throw (PrismaError P2025))
  /\ deleteUser userId db
     = (if present
        then respond 200 (MessageBody "User account deleted successfully")
        else respond 500 (ErrorBody "Failed to delete user account"), db')
  /\ Places db' = Places db
  /\ (forall u, In u (Users db') <-> In u (Users db) /\ User.id u <> userId)
  /\ (present = false -> db' = db)
  /\ (present = true -> NoDup (map User.id (Users db)) ->
      S (List.length (Users db')) = List.length (Users db)).
Proof.
  unfold deleteUser, deleteUserService, prisma_user_delete, bind,
    getUserProfileService, ret. simpl.
  destruct (existsb (fun u => User.id u =? userId) (Users db)) eqn:E; simpl.
  - split; [reflexivity|]. split; [reflexivity|]. split; [reflexivity|].
    split; [|split; [discriminate|]].
    + intros u. rewrite filter_In, negb_true_iff, Z.eqb_neq. tauto.
    + intros _ Hnd. now apply filter_other_ids_length.
  - split; [reflexivity|]. split; [reflexivity|]. split; [reflexivity|].
    split; [|split; [reflexivity | discriminate]].
    intros u. split; [|tauto]. intros Hu. split; [exact Hu|]. intros Heq.
    assert (existsb (fun u0 => User.id u0 =? userId) (Users db) = true);
      [|congruence].
    apply existsb_exists. exists u. split; [exact Hu | now apply Z.eqb_eq].
Qed.

(** C8, as stated, fails: removing an id that is not stored is an error. *)
Lemma deleteUserService_absent_raises :
  fst (deleteUserService 7 users_db) = Throw (PrismaError P2025)
  /\ fst (deleteUser (PG := plane) 7 users_db)
     = respond 500 (ErrorBody "Failed to delete user account").
Proof. split; reflexivity. Qed.

(** C8, a run: removing the second sample user returns [true] and leaves the
    two others; removing an id that is not stored leaves all three. *)
Lemma deleteUserService_contract_witness :
  fst (deleteUserService 2 users_db) = Ok true
  /\ S (List.length (Users (snd (deleteUserService 2 users_db)))) = 3%nat
  /\ snd (deleteUserService 7 users_db) = users_db.
Proof.
  destruct (deleteUserService_contract (PG := plane) 2 users_db)
    as (Hreturns & _ & _ & _ & _ & Hone).
  destruct (deleteUserService_contract (PG := plane) 7 users_db)
    as (_ & _ & _ & _ & Hkept & _).
  split; [exact Hreturns|]. split.
  - apply Hone; [reflexivity|].
    repeat constructor; simpl; intuition discriminate.
  - apply Hkept. reflexivity.
Defined.

(** ** Engagement counters *)

Section StatFacts.
Context {PG : Postgres}.

Lemma validStats_cases (statType : string) :
  In statType validStats ->
  statType = "storyCount" \/ statType = "likeCount" \/ statType = "commentCount".
Proof. simpl. intuition. Qed.

Lemma includes_validStats (statType : string) :
  In statType validStats -> includes validStats statType = true.
Proof.
  intros Hvalid. unfold includes. apply existsb_exists.
  exists statType. split; [exact Hvalid | apply String.eqb_refl].
Qed.

(** For a stat type of the list, the three branches are one [UPDATE] with
    the [SET] clause of that type. *)
Lemma updateUserStatsService_valid (userId : Z) (statType : string)
      (increment : Z) (db : DB) :
  In statType validStats ->
  updateUserStatsService userId statType increment db
  = (UPDATE_User_counter userId increment (set_counter statType) ;;;
     getUserProfileService userId) db.
Proof.
  intros Hvalid.
  destruct (validStats_cases _ Hvalid) as [-> | [-> | ->]]; reflexivity.
Qed.

Lemma SET_WHERE_id_total (userId : Z) (set : User.row -> option User.row)
      (f : User.row -> User.row) (rows : list User.row) :
  (forall u, In u rows -> User.id u = userId -> set u = Some (f u)) ->
  SET_WHERE_id userId set rows
  = Some (map (fun u => if User.id u =? userId then f u else u) rows).
Proof.
  induction rows as [|u rest IH]; intros Hset; simpl; [reflexivity|].
  rewrite IH by (intros v Hv; apply Hset; now right).
  destruct (User.id u =? userId) eqn:E; [|reflexivity].
  apply Z.eqb_eq in E. rewrite (Hset u (or_introl eq_refl) E). reflexivity.
Qed.

Lemma SET_WHERE_id_None (userId : Z) (set : User.row -> option User.row)
      (rows : list User.row) (u : User.row) :
  In u rows -> User.id u = userId -> set u = None ->
  SET_WHERE_id userId set rows = None.
Proof.
  induction rows as [|v rest IH]; intros Hin Hid Hnone; [contradiction|].
  simpl. destruct Hin as [-> | Hin].
  - apply Z.eqb_eq in Hid. rewrite Hid, Hnone. reflexivity.
  - rewrite (IH Hin Hid Hnone).
    destruct (if User.id v =? userId then set v else Some v); reflexivity.
Qed.

Lemma SET_WHERE_id_rows (userId : Z) (set : User.row -> option User.row)
      (rows rows' : list User.row) :
  SET_WHERE_id userId set rows = Some rows' ->
  Forall2 (fun u u' => u' = u \/ set u = Some u') rows rows'.
Proof.
  revert rows'. induction rows as [|u rest IH]; intros rows' H; simpl in H.
  - injection H as <-. constructor.
  - destruct (if User.id u =? userId then set u else Some u) as [u'|] eqn:Eu;
      [|discriminate].
    destruct (SET_WHERE_id userId set rest) as [rest'|]; [|discriminate].
    injection H as <-. constructor; [|now apply IH].
    destruct (User.id u =? userId); [now right|].
    injection Eu as <-. now left.
Qed.

Lemma set_counter_fits (statType : string) (increment : Z) (u : User.row) :
  int4 (counter statType u + increment) = true ->
  set_counter statType increment u
  = Some (with_counter statType (Z.max 0 (counter statType u + increment)) u).
Proof.
  intros Hfit. unfold set_counter, int4pl. rewrite Hfit. reflexivity.
Qed.

Lemma with_counter_spec (statType : string) (value : Z) (u : User.row) :
  In statType validStats ->
  User.id (with_counter statType value u) = User.id u
  /\ forall s, In s validStats ->
       counter s (with_counter statType value u)
       = if String.eqb s statType then value else counter s u.
Proof.
  intros Hvalid.
  destruct (validStats_cases _ Hvalid) as [-> | [-> | ->]];
    (split; [reflexivity|]); intros s Hs;
    destruct (validStats_cases _ Hs) as [-> | [-> | ->]]; reflexivity.
Qed.

(** What one call does to the user table, for a stat type of the list and
    numbers that fit. *)
Lemma updateUserStatsService_rows (userId : Z) (statType : string) (increment : Z)
      (db : DB) :
  In statType validStats ->
  int4 userId = true -> int4 increment = true ->
  sums_fit userId statType increment db ->
  exists set,
    Users (snd (updateUserStatsService userId statType increment db))
    = map (fun u => if User.id u =? userId then set u else u) (Users db)
    /\ forall u, User.id (set u) = User.id u
                 /\ forall s, In s validStats ->
                      counter s (set u)
                      = if String.eqb s statType
                        then Z.max 0 (counter s u + increment)
                        else counter s u.
Proof.
  intros Hvalid Hid Hinc Hfit.
  exists (fun u => with_counter statType (Z.max 0 (counter statType u + increment)) u).
  split.
  - rewrite updateUserStatsService_valid by exact Hvalid.
    unfold bind, UPDATE_User_counter. rewrite Hid, Hinc. simpl.
    rewrite (SET_WHERE_id_total userId _
               (fun u => with_counter statType
                           (Z.max 0 (counter statType u + increment)) u)).
    + reflexivity.
    + intros u Hu Hu_id. apply set_counter_fits. now apply Hfit.
  - intros u. destruct (with_counter_spec statType
                          (Z.max 0 (counter statType u + increment)) u Hvalid)
      as [Hsame Hcounters].
    split; [exact Hsame|]. intros s Hs. rewrite (Hcounters s Hs).
    destruct (String.eqb s statType) eqn:E; [|reflexivity].
    apply String.eqb_eq in E. now subst.
Qed.

Lemma updateUserStatsService_returns (userId : Z) (statType : string)
      (increment : Z) (db : DB) :
  In statType validStats ->
  int4 userId = true -> int4 increment = true ->
  sums_fit userId statType increment db ->
  exists profile,
    updateUserStatsService userId statType increment db
    = (Ok profile, snd (updateUserStatsService userId statType increment db)).
Proof.
  intros Hvalid Hid Hinc Hfit.
  rewrite updateUserStatsService_valid by exact Hvalid.
  unfold bind, UPDATE_User_counter. rewrite Hid, Hinc. simpl.
  rewrite (SET_WHERE_id_total userId _
             (fun u => with_counter statType
                         (Z.max 0 (counter statType u + increment)) u)).
  - eexists. reflexivity.
  - intros u Hu Hu_id. apply set_counter_fits. now apply Hfit.
Qed.

(** A sum above the 32-bit range on a row of the id makes the call raise
    and leaves the database as it was. *)
Lemma updateUserStatsService_overflow (userId : Z) (statType : string)
      (increment : Z) (db : DB) (u : User.row) :
  In statType validStats ->
  In u (Users db) -> User.id u = userId ->
  int4 (counter statType u + increment) = false ->
  updateUserStatsService userId statType increment db
  = (Throw (PrismaError P2010), db).
Proof.
  intros Hvalid Hin Hid Hover.
  rewrite updateUserStatsService_valid by exact Hvalid.
  unfold bind, UPDATE_User_counter.
  destruct (int4 userId && int4 increment)%bool; [|reflexivity].
  rewrite (SET_WHERE_id_None userId _ _ u Hin Hid); [reflexivity|].
  unfold set_counter, int4pl. rewrite Hover. reflexivity.
Qed.

Lemma updateUserStatsService_invalid (userId : Z) (statType : string)
      (increment : Z) (db : DB) :
  ~ In statType validStats ->
  updateUserStatsService userId statType increment db
  = (Throw (Error ("Invalid stat type: " ++ statType)), db).
Proof.
  intros Hinvalid. unfold updateUserStatsService.
  destruct (includes validStats statType) eqn:E; [|reflexivity].
  exfalso. apply Hinvalid. unfold includes in E.
  apply existsb_exists in E as (s & Hs & Heq).
  apply String.eqb_eq in Heq. now subst.
Qed.

Lemma validStats_dec (statType : string) :
  {In statType validStats} + {~ In statType validStats}.
Proof. apply in_dec, string_dec. Qed.

Lemma set_counter_nonneg (statType : string) (increment : Z) (u u' : User.row) :
  In statType validStats ->
  set_counter statType increment u = Some u' ->
  0 <= User.storyCount u /\ 0 <= User.likeCount u /\ 0 <= User.commentCount u ->
  0 <= User.storyCount u' /\ 0 <= User.likeCount u' /\ 0 <= User.commentCount u'.
Proof.
  intros Hvalid Hset Hu. unfold set_counter in Hset.
  destruct (int4pl (counter statType u) increment) as [sum|]; [|discriminate].
  injection Hset as <-. unfold GREATEST_0.
  destruct (validStats_cases _ Hvalid) as [-> | [-> | ->]]; simpl; lia.
Qed.

Lemma updateUserStatsService_nonneg (userId : Z) (statType : string)
      (increment : Z) (db : DB) :
  counters_nonneg db ->
  counters_nonneg (snd (updateUserStatsService userId statType increment db)).
Proof.
  intros Hdb. destruct (validStats_dec statType) as [Hvalid|Hinvalid].
  - rewrite updateUserStatsService_valid by exact Hvalid.
    unfold bind, UPDATE_User_counter.
    destruct (int4 userId && int4 increment)%bool; [|exact Hdb].
    destruct (SET_WHERE_id userId (set_counter statType increment) (Users db))
      as [rows|] eqn:Erows; [|exact Hdb].
    simpl. apply SET_WHERE_id_rows in Erows.
    unfold counters_nonneg in *. simpl.
    induction Erows as [|u u' rest rest' Hu _ IH]; [constructor|].
    inversion Hdb as [|? ? Hhead Htail]; subst.
    constructor; [|now apply IH].
    destruct Hu as [-> | Hset]; [exact Hhead|].
    now apply (set_counter_nonneg statType increment u u').
  - now rewrite updateUserStatsService_invalid.
Qed.

Lemma stat_updates_nonneg (calls : list (Z * string * Z)) (db : DB) :
  counters_nonneg db -> counters_nonneg (stat_updates calls db).
Proof.
  revert db. induction calls as [|[[userId statType] increment] rest IH];
    intros db Hdb; simpl; [exact Hdb|].
  now apply IH, updateUserStatsService_nonneg.
Qed.

(** C9.  For a stat type of the list, an id and an increment that fit 32
    bits, and sums that fit on the rows of the id, [updateUserStatsService]
    returns, and in the user table it leaves each row keeps its id, the named
    counter of the rows of the given id is [max 0 (old + increment)], and
    every other counter is as before.  When a sum is above the 32-bit range
    on a row of the id, the call raises and the database is as it was.  Over
    any sequence of calls the counters, once all non-negative, stay so. *)
Theorem updateUserStatsService_clamps (userId : Z) (statType : string)
        (increment : Z) (db : DB) :
  In statType validStats ->
  let run := updateUserStatsService userId statType increment db in
  (int4 userId = true -> int4 increment = true ->
   sums_fit userId statType increment db ->
   (exists profile, fst run = Ok profile)
   /\ Forall2 (fun u u' =>
                 User.id u' = User.id u /\
                 forall s, In s validStats ->
                   counter s u'
                   = if ((User.id u =? userId) && String.eqb s statType)%bool
                     then Z.max 0 (counter s u + increment)
                     else counter s u)
              (Users db) (Users (snd run))
   /\ Forall (fun u' => User.id u' = userId -> 0 <= counter statType u')
             (Users (snd run)))
  /\ (forall u, In u (Users db) -> User.id u = userId ->
                int4_max < counter statType u + increment ->
                (exists code, fst run = Throw (PrismaError code))
                /\ snd run = db)
  /\ forall calls, counters_nonneg db -> counters_nonneg (stat_updates calls db).
Proof.
  intros Hvalid run. split; [|split].
  - intros Hid Hinc Hfit.
    destruct (updateUserStatsService_rows userId statType increment db
                Hvalid Hid Hinc Hfit) as (set & Hrows & Hset).
    fold run in Hrows. split; [|split].
    + subst run. rewrite updateUserStatsService_valid by exact Hvalid.
      unfold bind, UPDATE_User_counter. rewrite Hid, Hinc. simpl.
      rewrite (SET_WHERE_id_total userId _
                 (fun u => with_counter statType
                             (Z.max 0 (counter statType u + increment)) u)).
      * eexists. reflexivity.
      * intros u Hu Hu_id. apply set_counter_fits. now apply Hfit.
    + rewrite Hrows. clear Hrows Hfit.
      induction (Users db) as [|u rest IH]; simpl; constructor; [|exact IH].
      destruct (User.id u =? userId) eqn:E; simpl.
      * destruct (Hset u) as [Hsame Hc]. split; [exact Hsame|]. exact Hc.
      * split; [reflexivity|]. reflexivity.
    + rewrite Hrows. apply Forall_forall. intros u' Hu' Hu'_id.
      apply in_map_iff in Hu' as (u & <- & Hu).
      destruct (User.id u =? userId) eqn:E.
      * destruct (Hset u) as [_ Hc]. rewrite (Hc statType Hvalid).
        rewrite String.eqb_refl. lia.
      * apply Z.eqb_neq in E. contradiction.
  - intros u Hu Hu_id Hover. subst run.
    rewrite (updateUserStatsService_overflow userId statType increment db u
               Hvalid Hu Hu_id).
    + split; [eexists|]; reflexivity.
    + unfold int4, int4_max in *.
      apply andb_false_iff. right. apply Z.leb_gt. exact Hover.
  - intros calls Hdb. now apply stat_updates_nonneg.
Qed.
End StatFacts.

(** C9, a run: five likes taken from the first sample user, who has none,
    leave the counter at zero, and three more calls keep every counter
    non-negative. *)
Lemma updateUserStatsService_clamps_witness :
  map (counter "likeCount")
      (Users (snd (updateUserStatsService (PG := plane) 1 "likeCount" (-5) users_db)))
  = [0; 0; 0]
  /\ counters_nonneg
       (stat_updates (PG := plane)
          [(1, "likeCount", 4); (1, "likeCount", -9); (2, "views", 1); (3, "storyCount", -1)]
          users_db).
Proof.
  split; [reflexivity|].
  apply (updateUserStatsService_clamps (PG := plane) 1 "likeCount" (-5) users_db).
  - simpl. tauto.
  - repeat constructor; simpl; lia.
Defined.

(** C9, where the claim fails: one more story for a user whose counter is
    2147483647.  The call raises and the counter stays, where
    [max 0 (old + increment)] is 2147483648. *)
Lemma updateUserStatsService_overflow_raises :
  (exists code,
      updateUserStatsService (PG := plane) 1 "storyCount" 1 (db_of_users [busy_user])
      = (Throw (PrismaError code), db_of_users [busy_user]))
  /\ map (counter "storyCount")
         (Users (snd (updateUserStatsService (PG := plane) 1 "storyCount" 1
                        (db_of_users [busy_user]))))
     = [2147483647]
  /\ Z.max 0 (counter "storyCount" busy_user + 1) = 2147483648.
Proof. split; [eexists; reflexivity | split; reflexivity]. Qed.

(** ** Login *)

Section LoginFacts.
Context {LIB : Libraries}.

Lemma loginUserService_no_such_user (emailOrUsername : string)
      (password : JS.value) (db : DB) :
  no_such_user emailOrUsername db ->
  loginUserService (JS.Str emailOrUsername) password db
  = (Throw (Error "Invalid credentials"), db).
Proof.
  unfold no_such_user, loginUserService, bind, findFirst_email_or_username.
  simpl. intros H. injection H as ->. reflexivity.
Qed.

Lemma loginUserService_wrong_password (emailOrUsername password : string) (db : DB) :
  wrong_password emailOrUsername password db ->
  loginUserService (JS.Str emailOrUsername) (JS.Str password) db
  = (Throw (Error "Invalid credentials"), db).
Proof.
  unfold wrong_password, loginUserService, bind, findFirst_email_or_username.
  simpl. intros (user & H & Hpw). injection H as ->. now rewrite Hpw.
Qed.

(** A password that is no string is refused by [bcrypt.compare], which is
    reached only when a user was found. *)
Lemma loginUserService_password_no_string (emailOrUsername : string)
      (data : JS.value) (db : DB) (user : User.row) :
  fst (findFirst_email_or_username emailOrUsername db) = Ok (Some user) ->
  (forall s, data <> JS.Str s) ->
  loginUserService (JS.Str emailOrUsername) data db
  = (Throw (bcrypt_compare_error data), db).
Proof.
  unfold loginUserService, bind, findFirst_email_or_username.
  simpl. intros H Hdata. injection H as ->.
  destruct data; try reflexivity. now destruct (Hdata s).
Qed.

End LoginFacts.



(** ** Coordinates on their way to the store *)

Section CoordinateFacts.
Context {PG : Postgres}.

Lemma createPlace_outcome (input : PlaceInput) (db : DB) :
  createPlace input db
  = match ST_GeographyFromText
            (location_text (in_longitude input) (in_latitude input)),
          in_name input with
    | Some g, Some n =>
        (respond 201 (MessageBody "Place created successfully"),
         with_new_Place n (in_description input) g db)
    | _, _ => (respond 500 (ErrorBody "Failed to create place"), db)
    end.
Proof.
  unfold createPlace, createPlaceService, bind, INSERT_Place, ret.
  destruct (ST_GeographyFromText _) as [g|]; [|reflexivity].
  destruct (in_name input) as [n|]; reflexivity.
Qed.

Lemma createPlace_never_400 (input : PlaceInput) (db : DB) :
  status (fst (createPlace input db)) <> 400.
Proof.
  rewrite createPlace_outcome.
  destruct (ST_GeographyFromText _) as [g|]; [|discriminate].
  destruct (in_name input) as [n|]; discriminate.
Qed.

Lemma UPDATE_User_coordinates_kept (userId : Z) (set : User.row -> User.row)
      (db : DB) :
  (forall u, User.coordinates (set u) = User.coordinates u) ->
  map User.coordinates (Users (snd (UPDATE_User userId set db)))
  = map User.coordinates (Users db).
Proof.
  intros Hset. simpl. rewrite map_map. apply map_ext. intros u.
  destruct (User.id u =? userId); [apply Hset | reflexivity].
Qed.

(** The second and third step of [updateUserProfileService] leave every
    stored coordinate as it is. *)
Lemma update_texts_coordinates_kept (userId : Z)
      (updateFields : User.texts (option (option string))) (db : DB) :
  map User.coordinates
      (Users (snd (((if has_keys updateFields
                     then prisma_user_update userId updateFields
                     else ret tt) ;;; getUserProfileService userId) db)))
  = map User.coordinates (Users db).
Proof.
  unfold bind, getUserProfileService.
  destruct (has_keys updateFields); [|reflexivity].
  unfold prisma_user_update.
  destruct (existsb _ (Users db)); [|reflexivity].
  simpl. rewrite map_map. apply map_ext. intros u.
  destruct (User.id u =? userId); reflexivity.
Qed.

End CoordinateFacts.






(** C5, at the failing input.  Without [limit] in the query string the
    search runs with limit 50, and without [radius] with radius 10000; but a
    [limit] of 101 is passed on as it is: with 101 users at the centre, the
    response lists 101 users. *)
Theorem getNearbyUsers_limit_not_capped :
  (forall lat lng radius,
      searchLimit {| uq_lat := lat; uq_lng := lng;
                     uq_radius := radius; uq_limit := None |} = JS.of_Z 50)
  /\ (forall lat lng limit,
         searchRadius {| uq_lat := lat; uq_lng := lng;
                         uq_radius := None; uq_limit := limit |} = JS.of_Z 10000)
  /\ searchLimit (nearby_square (Some "101")) = JS.of_Z 101
  /\ (exists latitude longitude users,
         fst (getNearbyUsers (PG := plane) (LIB := sample_libraries)
                (nearby_square (Some "101")) (db_of_users (crowd 101)))
         = respond 200 (NearbyBody latitude longitude (JS.of_Z 10000) 101 users)
         /\ List.length users = 101%nat)
  /\ (exists latitude longitude users,
         fst (getNearbyUsers (PG := plane) (LIB := sample_libraries)
                (nearby_square None) (db_of_users (crowd 101)))
         = respond 200 (NearbyBody latitude longitude (JS.of_Z 10000) 50 users)).
Proof.
  split; [reflexivity|]. split; [reflexivity|]. split; [reflexivity|].
  split.
  - do 3 eexists. split; vm_compute; reflexivity.
  - do 3 eexists. vm_compute. reflexivity.
Qed.

(** * Further properties *)

(** ** Nearby users *)

Lemma StronglySorted_app_le {A : Type} (R : A -> A -> Prop) (l1 l2 : list A) :
  StronglySorted R (l1 ++ l2) ->
  forall a b, In a l1 -> In b l2 -> R a b.
Proof.
  induction l1 as [|x rest IH]; simpl; intros Hs a b Ha Hb; [destruct Ha|].
  inversion Hs as [|? ? Hrest Hx]; subst.
  destruct Ha as [<- | Ha].
  - rewrite Forall_forall in Hx. apply Hx, in_or_app. now right.
  - now apply IH.
Qed.



(** X2.  [getNearbyUsers] never changes the database; it answers 400 when
    [lat] or [lng] is absent or empty, and 400 when one of them is no
    number; and when it answers 200 the body names the parsed centre and
    radius, [count] is the number of users listed, and that number is at
    most the limit asked for. *)
Theorem getNearbyUsers_answers
        {PG : Postgres} {LIB : Libraries} (query : NearbyUsersQuery) (db : DB) :
  snd (getNearbyUsers query db) = db
  /\ ((JS.falsy (uq_lat query) || JS.falsy (uq_lng query))%bool = true ->
      fst (getNearbyUsers query db)
      = respond 400 (ErrorBody "Latitude and longitude are required"))
  /\ ((JS.falsy (uq_lat query) || JS.falsy (uq_lng query))%bool = false ->
      (JS.isNaN (parseFloat (param (uq_lat query)))
       || JS.isNaN (parseFloat (param (uq_lng query))))%bool = true ->
      fst (getNearbyUsers query db)
      = respond 400 (ErrorBody "Invalid latitude or longitude"))
  /\ (forall latitude longitude radius count users,
         fst (getNearbyUsers query db)
         = respond 200 (NearbyBody latitude longitude radius count users) ->
         latitude = parseFloat (param (uq_lat query))
         /\ longitude = parseFloat (param (uq_lng query))
         /\ radius = searchRadius query
         /\ count = List.length users
         /\ forall limit, searchLimit query = JS.of_Z limit ->
                          (count <= Z.to_nat limit)%nat).
Proof.
  unfold getNearbyUsers.
  destruct (JS.falsy (uq_lat query) || JS.falsy (uq_lng query))%bool eqn:Emissing.
  { repeat split; try discriminate. }
  destruct (JS.isNaN (parseFloat (param (uq_lat query)))
            || JS.isNaN (parseFloat (param (uq_lng query))))%bool eqn:Enan.
  { repeat split; try discriminate. }
  unfold getNearbyUsersService.
  destruct (ST_MakePoint _ _) as [center|]; simpl.
  2:{ repeat split; try discriminate. }
  destruct (LIMIT (searchLimit query) _) as [rows|e] eqn:Elimit; simpl.
  2:{ repeat split; try discriminate. }
  split; [reflexivity|]. split; [discriminate|]. split; [discriminate|].
  intros latitude longitude radius count users H.
  injection H as <- <- <- <- <-.
  repeat split. rewrite length_map.
  intros limit Hlimit. rewrite Hlimit in Elimit. unfold LIMIT in Elimit.
  rewrite as_integer_of_Z in Elimit.
  destruct (limit <? 0); [discriminate|].
  injection Elimit as <-. apply firstn_le_length.
Qed.

(** ** Places *)

Section PlaceFacts.
Context {PG : Postgres} {DR : Driver}.

Lemma with_new_Place_fresh (name : string) (description : option string)
      (g : geography) (db : DB) :
  Places_fresh db -> NoDup (map Place.id (Places db)) ->
  Places_fresh (with_new_Place name description g db)
  /\ NoDup (map Place.id (Places (with_new_Place name description g db))).
Proof.
  unfold Places_fresh. simpl. intros Hfresh Hnodup. split.
  - apply Forall_app. split.
    + eapply Forall_impl; [|exact Hfresh]. simpl. intros p Hp. lia.
    + repeat constructor. simpl. lia.
  - rewrite map_app. simpl.
    apply NoDup_app_remove_l with (l := []). simpl.
    apply Permutation_NoDup with (l := Place_id_seq db :: map Place.id (Places db)).
    + apply Permutation_cons_append.
    + constructor; [|exact Hnodup].
      intros Hin. apply in_map_iff in Hin as (p & Hid & Hp).
      rewrite Forall_forall in Hfresh. specialize (Hfresh p Hp). lia.
Qed.

Lemma INSERT_Place_fresh (name description : option string) (text : string)
      (db : DB) :
  Places_fresh db -> NoDup (map Place.id (Places db)) ->
  Places_fresh (snd (INSERT_Place name description text db))
  /\ NoDup (map Place.id (Places (snd (INSERT_Place name description text db)))).
Proof.
  intros Hfresh Hnodup. unfold INSERT_Place.
  destruct (ST_GeographyFromText text) as [g|]; [|now split].
  destruct name as [n|]; [|now split].
  now apply with_new_Place_fresh.
Qed.

Lemma seed_places_fresh (entries : list (string * string * Q * Q)) (db : DB) :
  Places_fresh db -> NoDup (map Place.id (Places db)) ->
  Places_fresh (snd (seed_places entries db))
  /\ NoDup (map Place.id (Places (snd (seed_places entries db)))).
Proof.
  revert db. induction entries as [|[[[name description] lat] lng] rest IH];
    intros db Hfresh Hnodup; simpl; [now split|].
  unfold bind.
  destruct (INSERT_Place_fresh (Some name) (Some description)
              (location_text (JS.Number (JS.Num lng)) (JS.Number (JS.Num lat)))
              db Hfresh Hnodup) as [Hf Hn].
  destruct (INSERT_Place _ _ _ db) as [[[]|e] db1]; simpl in *.
  - now apply IH.
  - now split.
Qed.

(** X3.  Creating and seeding places keep the ids of the table distinct
    and below the sequence, whatever the store does with the texts. *)
Theorem place_ids_stay_distinct (db : DB) :
  Places_fresh db ->
  NoDup (map Place.id (Places db)) ->
  (forall input,
      Places_fresh (snd (createPlace input db))
      /\ NoDup (map Place.id (Places (snd (createPlace input db)))))
  /\ Places_fresh (snd (seedTestData db))
  /\ NoDup (map Place.id (Places (snd (seedTestData db)))).
Proof.
  intros Hfresh Hnodup. split.
  - intros input. rewrite createPlace_outcome.
    destruct (ST_GeographyFromText _) as [g|]; [|now split].
    destruct (in_name input) as [n|]; [|now split].
    now apply with_new_Place_fresh.
  - destruct (seed_places_fresh testPlaces db Hfresh Hnodup) as [Hf Hn].
    unfold seedTestData, seedTestPlaces.
    destruct (seed_places testPlaces db) as [[[]|e] db1]; simpl in *; now split.
Qed.
End PlaceFacts.

(** X3, a run: seeding the two sample places' table, then creating one. *)
Lemma place_ids_stay_distinct_witness :
  NoDup (map Place.id
             (Places (snd (createPlace (PG := plane) place_city_square
                             (snd (seedTestData (PG := plane) places_db)))))).
Proof.
  assert (Hfresh : Places_fresh places_db) by (repeat constructor).
  assert (Hnodup : NoDup (map Place.id (Places places_db)))
    by (repeat constructor; simpl; intuition discriminate).
  destruct (place_ids_stay_distinct (PG := plane) places_db Hfresh Hnodup)
    as (_ & Hf & Hn).
  destruct (place_ids_stay_distinct (PG := plane)
              (snd (seedTestData (PG := plane) places_db)) Hf Hn)
    as (Hcreate & _).
  apply Hcreate.
Defined.

Lemma find_app_fresh {A : Type} (f : A -> bool) (l : list A) (x : A) :
  (forall a, In a l -> f a = false) -> find f (l ++ [x]) = find f [x].
Proof.
  induction l as [|a rest IH]; intros Hnone; simpl; [reflexivity|].
  rewrite (Hnone a (or_introl eq_refl)). apply IH.
  intros b Hb. apply Hnone. now right.
Qed.

Lemma find_app_old {A : Type} (f : A -> bool) (l : list A) (x : A) :
  f x = false -> find f (l ++ [x]) = find f l.
Proof.
  intros Hx. induction l as [|a rest IH]; simpl; [now rewrite Hx|].
  destruct (f a); [reflexivity | exact IH].
Qed.

Section PlaceRoundTrip.
Context {PG : Postgres} {DR : Driver}.

(** X4.  A place that [createPlace] stored is read back: when the ids of
    the table are below the sequence and the request is answered 201,
    [getPlaceByIdService] on the id drawn from the sequence returns the name
    and description sent and the text of the point the store read; every
    other id reads as before; and [getAllPlacesService] lists the places as
    before with the new one last. *)
Theorem createPlace_then_read (input : PlaceInput) (db : DB) :
  Places_fresh db ->
  status (fst (createPlace input db)) = 201 ->
  let db' := snd (createPlace input db) in
  exists n g,
    in_name input = Some n
    /\ ST_GeographyFromText
         (location_text (in_longitude input) (in_latitude input)) = Some g
    /\ fst (getPlaceByIdService (Place_id_seq db) db')
       = Ok (Some {| Place.s_id := Place_id_seq db; Place.s_name := n;
                     Place.s_description := in_description input;
                     Place.s_location := ST_AsText g |})
    /\ (forall id, id <> Place_id_seq db ->
                   fst (getPlaceByIdService id db') = fst (getPlaceByIdService id db))
    /\ exists before,
        fst (getAllPlacesService db) = Ok before
        /\ fst (getAllPlacesService db')
           = Ok (before ++ [ {| Place.s_id := Place_id_seq db; Place.s_name := n;
                                Place.s_description := in_description input;
                                Place.s_location := ST_AsText g |} ])%list.
Proof.
  intros Hfresh. rewrite createPlace_outcome.
  destruct (ST_GeographyFromText _) as [g|]; [|discriminate].
  destruct (in_name input) as [n|]; [|discriminate].
  intros _ db'. exists n, g. split; [reflexivity|]. split; [reflexivity|].
  subst db'. unfold getPlaceByIdService, getAllPlacesService. simpl.
  split; [|split].
  - rewrite find_app_fresh.
    + simpl. now rewrite Z.eqb_refl.
    + intros p Hp. unfold Places_fresh in Hfresh.
      rewrite Forall_forall in Hfresh. specialize (Hfresh p Hp).
      apply Z.eqb_neq. lia.
  - intros id Hid. rewrite find_app_old; [reflexivity|].
    simpl. apply Z.eqb_neq. congruence.
  - eexists. split; [reflexivity|]. now rewrite map_app.
Qed.

(** X5.  [GET /places/:id] has no 404: for an id within the 32-bit range
    that no place has it answers 200 with the empty object.  For an integer
    outside that range the query raises and the answer is 500.  Neither
    changes the database. *)
Theorem getPlaceById_unknown_is_200 (id : string) (n : Z) (db : DB) :
  JS.as_integer (JS.parseInt id) = Some n ->
  (int4 n = true -> ~ In n (map Place.id (Places db)) ->
   getPlaceById id db = ((200, Payload None), db))
  /\ (int4 n = false ->
      getPlaceById id db = ((500, Failure "Failed to get place by ID"), db)).
Proof.
  intros Hid. unfold getPlaceById, getPlaceByIdService_of_number.
  rewrite Hid. split; intros Hrange; rewrite Hrange; [|reflexivity].
  intros Hnone. unfold getPlaceByIdService.
  replace (find (fun p => Place.id p =? n) (Places db)) with (@None Place.row);
    [reflexivity|].
  symmetry. induction (Places db) as [|p rest IH]; simpl; [reflexivity|].
  destruct (Z.eqb_spec (Place.id p) n) as [Heq|Hne].
  - exfalso. apply Hnone. now left.
  - apply IH. intros Hin. apply Hnone. now right.
Qed.

(** X6.  Seeding inserts the three test places one by one, sending the
    texts below.  When the store reads all three the answer is 201 and the
    three rows are appended, names and all, so that a second seeding appends
    them again; when the store reads the first and not the second the answer
    is 500 and the first row stays. *)
Theorem seedTestData_inserts_one_by_one (db : DB) :
  (forall g1 g2 g3,
      ST_GeographyFromText "SRID=4326;POINT(31.233334 30.033333)" = Some g1 ->
      ST_GeographyFromText "SRID=4326;POINT(31.22 30.04)" = Some g2 ->
      ST_GeographyFromText "SRID=4326;POINT(31.245 30.05)" = Some g3 ->
      seedTestData db
      = ((201, Payload "Test data seeded successfully"), seeded g1 g2 g3 db)
      /\ map Place.name (Places (snd (seedTestData (snd (seedTestData db)))))
         = (map Place.name (Places db)
            ++ ["City Square"; "Library Park"; "Food Plaza";
                "City Square"; "Library Park"; "Food Plaza"])%list)
  /\ (forall g1,
         ST_GeographyFromText "SRID=4326;POINT(31.233334 30.033333)" = Some g1 ->
         ST_GeographyFromText "SRID=4326;POINT(31.22 30.04)" = None ->
         seedTestData db
         = ((500, Failure "Failed to seed test data"),
            with_new_Place "City Square" (Some "A center point") g1 db)).
Proof.
  assert (Hrun : forall d,
             seedTestData d
             = match ST_GeographyFromText "SRID=4326;POINT(31.233334 30.033333)" with
               | None => ((500, Failure "Failed to seed test data"), d)
               | Some g1 =>
                   let d1 := with_new_Place "City Square" (Some "A center point") g1 d in
                   match ST_GeographyFromText "SRID=4326;POINT(31.22 30.04)" with
                   | None => ((500, Failure "Failed to seed test data"), d1)
                   | Some g2 =>
                       let d2 := with_new_Place "Library Park"
                                   (Some "Quiet place with trees") g2 d1 in
                       match ST_GeographyFromText "SRID=4326;POINT(31.245 30.05)" with
                       | None => ((500, Failure "Failed to seed test data"), d2)
                       | Some g3 =>
                           ((201, Payload "Test data seeded successfully"),
                            with_new_Place "Food Plaza"
                              (Some "Famous for street food") g3 d2)
                       end
                   end
               end).
  { intros d. unfold seedTestData, seedTestPlaces, testPlaces, seed_places,
      bind, INSERT_Place, ret.
    change (location_text (JS.Number (JS.Num (31233334 # 1000000)))
                          (JS.Number (JS.Num (30033333 # 1000000))))
      with "SRID=4326;POINT(31.233334 30.033333)".
    change (location_text (JS.Number (JS.Num (3122 # 100)))
                          (JS.Number (JS.Num (3004 # 100))))
      with "SRID=4326;POINT(31.22 30.04)".
    change (location_text (JS.Number (JS.Num (31245 # 1000)))
                          (JS.Number (JS.Num (3005 # 100))))
      with "SRID=4326;POINT(31.245 30.05)".
    destruct (ST_GeographyFromText "SRID=4326;POINT(31.233334 30.033333)");
      [|reflexivity].
    destruct (ST_GeographyFromText "SRID=4326;POINT(31.22 30.04)");
      [|reflexivity].
    destruct (ST_GeographyFromText "SRID=4326;POINT(31.245 30.05)");
      reflexivity. }
  split.
  - intros g1 g2 g3 H1 H2 H3. rewrite !Hrun, H1, H2, H3. simpl.
    split; [reflexivity|].
    rewrite !map_app. simpl. now rewrite <- !app_assoc.
  - intros g1 H1 H2. now rewrite Hrun, H1, H2.
Qed.
End PlaceRoundTrip.

(** X4, a run: the city square created in the table of the two sample
    places is read back under id 3. *)
Lemma createPlace_then_read_witness :
  exists g,
    fst (getPlaceByIdService (PG := plane) 3
           (snd (createPlace (PG := plane) place_city_square places_db)))
    = Ok (Some {| Place.s_id := 3; Place.s_name := "City Square";
                  Place.s_description := Some "A center point";
                  Place.s_location := ST_AsText (Postgres := plane) g |}).
Proof.
  destruct (createPlace_then_read (PG := plane) place_city_square places_db)
    as (n & g & Hname & _ & Hread & _).
  - repeat constructor.
  - reflexivity.
  - exists g. injection Hname as <-. exact Hread.
Defined.

(** X5, a run: no sample place has id 99, and 99999999999 does not fit. *)
Lemma getPlaceById_unknown_is_200_witness :
  getPlaceById (PG := plane) (DR := sample_driver) "99" places_db
  = ((200, Payload None), places_db)
  /\ getPlaceById (PG := plane) (DR := sample_driver) "99999999999" places_db
     = ((500, Failure "Failed to get place by ID"), places_db).
Proof.
  split.
  - apply (getPlaceById_unknown_is_200 (PG := plane) (DR := sample_driver)
             "99" 99 places_db); [reflexivity|reflexivity|].
    simpl. intuition discriminate.
  - apply (getPlaceById_unknown_is_200 (PG := plane) (DR := sample_driver)
             "99999999999" 99999999999 places_db); reflexivity.
Defined.

(** X6, a run on the stand-in store, which reads the three texts. *)
Lemma seedTestData_inserts_one_by_one_witness :
  fst (seedTestData (PG := plane) empty_db)
  = (201, Payload "Test data seeded successfully")
  /\ map Place.name
         (Places (snd (seedTestData (PG := plane)
                         (snd (seedTestData (PG := plane) empty_db)))))
     = ["City Square"; "Library Park"; "Food Plaza";
        "City Square"; "Library Park"; "Food Plaza"].
Proof.
  destruct (seedTestData_inserts_one_by_one (PG := plane) empty_db) as [Hall _].
  destruct (Hall (POINT (15616667 # 500000) (30033333 # 1000000))
                 (POINT (1561 # 50) (751 # 25))
                 (POINT (6249 # 200) (601 # 20))
                 eq_refl eq_refl eq_refl) as [Hrun Htwice].
  split; [now rewrite Hrun | exact Htwice].
Defined.

(** ** Registration *)

Section RegistrationFacts.
Context {PG : Postgres} {LIB : Libraries} {HASH : Hashing}.

Lemma find_None_free (email username : string) (db : DB) :
  find (fun u => String.eqb (User.email u) email
                 || String.eqb (User.username u) username)%bool (Users db) = None
  <-> free email username db.
Proof.
  unfold free. split.
  - intros Hnone u Hu. pose proof (find_none _ _ Hnone u Hu) as H.
    apply orb_false_iff in H as [He Hn].
    now apply String.eqb_neq in He, Hn.
  - intros Hfree. induction (Users db) as [|u rest IH]; simpl; [reflexivity|].
    destruct (Hfree u (or_introl eq_refl)) as [He Hn].
    apply String.eqb_neq in He, Hn. rewrite He, Hn. simpl.
    apply IH. intros v Hv. apply Hfree. now right.
Qed.

Lemma is_falsy_Str (s : string) :
  JS.is_falsy (JS.Str s) = false <-> s <> "".
Proof. simpl. apply String.eqb_neq. Qed.

(** The four ways a registration ends. *)
Lemma registerUser_cases (input : RegisterInput) (reg : Registry) :
  (fst (fst (registerUser input reg)) = 400 /\ snd (registerUser input reg) = reg)
  \/ (exists username email password fullName,
        reg_username input = JS.Str username /\ reg_email input = JS.Str email
        /\ reg_password input = JS.Str password
        /\ or_null (reg_fullName input) = Some fullName
        /\ username <> "" /\ email <> "" /\ (6 <= String.length password)%nat
        /\ free email username (store reg)
        /\ registerUser input reg
           = ((201, Payload ("User created successfully",
                             without_password
                               (new_user (User_id_seq reg) username email
                                         (bcrypt_hash password 12) fullName))),
              {| store := with_Users
                            (Users (store reg)
                             ++ [new_user (User_id_seq reg) username email
                                          (bcrypt_hash password 12) fullName])
                            (store reg);
                 User_id_seq := User_id_seq reg + 1 |}))
  \/ (exists username email,
        reg_username input = JS.Str username /\ reg_email input = JS.Str email
        /\ ~ free email username (store reg)
        /\ registerUser input reg
           = ((409, Failure "User with this email or username already exists"),
              reg))
  \/ (registerUser input reg = ((500, Failure "Failed to create user"), reg)
      /\ ((forall s, reg_username input <> JS.Str s)
          \/ (forall s, reg_email input <> JS.Str s)
          \/ (forall s, reg_password input <> JS.Str s)
          \/ or_null (reg_fullName input) = None)).
Proof.
  unfold registerUser.
  destruct (JS.is_falsy (reg_username input) || JS.is_falsy (reg_email input)
            || JS.is_falsy (reg_password input))%bool eqn:Efalsy;
    [left; split; reflexivity|].
  apply orb_false_iff in Efalsy as [Efalsy Hp].
  apply orb_false_iff in Efalsy as [Hu He].
  destruct (JS.length_below (reg_password input) 6) eqn:Elen;
    [left; split; reflexivity|].
  right. unfold createUserService, findFirst_email_or_username_of.
  destruct (reg_email input) as [| |b|n|email] eqn:Eemail;
    try (right; right; split; [destruct (reg_username input); reflexivity|];
         right; left; intros s; discriminate).
  destruct (reg_username input) as [| |b|n|username] eqn:Eusername;
    try (right; right; split; [reflexivity|]; left; intros s; discriminate).
  destruct (find _ (Users (store reg))) as [u|] eqn:Efind.
  { right. left. exists username, email. do 2 (split; [reflexivity|]).
    split; [|reflexivity]. intros Hfree.
    apply find_None_free in Hfree. congruence. }
  apply find_None_free in Efind.
  destruct (reg_password input) as [| |b|n|password] eqn:Epassword;
    try discriminate;
    try (right; right; split; [reflexivity|];
         right; right; left; intros s; discriminate).
  destruct (or_null (reg_fullName input)) as [fullName|] eqn:Ename.
  - left. exists username, email, password, fullName.
    do 4 (split; [reflexivity|]).
    split; [now apply is_falsy_Str|]. split; [now apply is_falsy_Str|].
    split; [simpl in Elen; now apply Nat.ltb_ge in Elen|].
    split; [exact Efind | reflexivity].
  - right. right. split; [reflexivity|]. now do 3 right.
Qed.


(** X8.  Registration keeps the user table well formed: ids distinct and
    below the sequence, emails distinct, names distinct. *)
Theorem registerUser_keeps_users_distinct (input : RegisterInput) (reg : Registry) :
  Users_wf reg -> Users_wf (snd (registerUser input reg)).
Proof.
  intros Hwf.
  destruct (registerUser_cases input reg)
    as [[_ Hkept]
       | [(username & email & password & fullName & _ & _ & _ & _ & _
           & _ & _ & Hfree & Hrun)
         | [(username & email & _ & _ & _ & Hrun)
           | [Hrun _]]]];
    [now rewrite Hkept | | now rewrite Hrun | now rewrite Hrun].
  rewrite Hrun. cbn [snd].
  destruct Hwf as (Hid & Hemail & Hname & Hbelow).
  unfold Users_wf. cbn [store User_id_seq with_Users Users]. rewrite !map_app. simpl.
  assert (Hsnoc : forall (A : Type) (l : list A) (x : A),
             NoDup l -> ~ In x l -> NoDup (l ++ [x])).
  { intros A l x Hl Hx.
    apply Permutation_NoDup with (l := x :: l);
      [apply Permutation_cons_append | now constructor]. }
  split; [|split; [|split]].
  - apply Hsnoc; [exact Hid|]. intros Hin.
    apply in_map_iff in Hin as (u & Hu & Hin).
    rewrite Forall_forall in Hbelow. specialize (Hbelow u Hin). lia.
  - apply Hsnoc; [exact Hemail|]. intros Hin.
    apply in_map_iff in Hin as (u & Hu & Hin).
    destruct (Hfree u Hin) as [He _]. now apply He.
  - apply Hsnoc; [exact Hname|]. intros Hin.
    apply in_map_iff in Hin as (u & Hu & Hin).
    destruct (Hfree u Hin) as [_ Hn]. now apply Hn.
  - apply Forall_app. split.
    + eapply Forall_impl; [|exact Hbelow]. simpl. intros u Hu. lia.
    + repeat constructor. simpl. lia.
Qed.
End RegistrationFacts.

Lemma find_app_found {A : Type} (f : A -> bool) (l l' : list A) (a : A) :
  find f l = Some a -> find f (l ++ l') = Some a.
Proof.
  induction l as [|x rest IH]; simpl; [discriminate|].
  destruct (f x); [auto | exact IH].
Qed.

Section RegisterThenLogin.
Context {PG : Postgres} {LIB : Libraries} {HASH : Hashing}.
Context {HASHLAWS : HashingLaws LIB HASH}.

(** A registration answered 201 is the second of the four cases. *)
Lemma registerUser_201 (input : RegisterInput) (reg : Registry) :
  fst (fst (registerUser input reg)) = 201 ->
  exists username email password fullName,
    reg_username input = JS.Str username /\ reg_email input = JS.Str email
    /\ reg_password input = JS.Str password
    /\ username <> "" /\ email <> "" /\ password <> ""
    /\ free email username (store reg)
    /\ registerUser input reg
       = ((201, Payload ("User created successfully",
                         without_password
                           (new_user (User_id_seq reg) username email
                                     (bcrypt_hash password 12) fullName))),
          {| store := with_Users
                        (Users (store reg)
                         ++ [new_user (User_id_seq reg) username email
                                      (bcrypt_hash password 12) fullName])
                        (store reg);
             User_id_seq := User_id_seq reg + 1 |}).
Proof.
  intros H201.
  destruct (registerUser_cases input reg)
    as [[H400 _]
       | [(username & email & password & fullName & Hu & He & Hp & _ & Hune
           & Hene & Hlen & Hfree & Hrun)
         | [(username & email & _ & _ & _ & Hrun)
           | [Hrun _]]]];
    [congruence | | rewrite Hrun in H201; discriminate
     | rewrite Hrun in H201; discriminate].
  exists username, email, password, fullName.
  do 5 (split; [assumption|]).
  split; [intros ->; simpl in Hlen; lia|]. now split.
Qed.

(** A login with a name and a password, both non-empty strings, on a table
    in which the first row the name matches is [user]. *)
Lemma loginUser_first_match (name password : string) (db : DB) (user : User.row) :
  name <> "" -> password <> "" ->
  find (fun u => String.eqb (User.email u) name
                 || String.eqb (User.username u) name)%bool (Users db)
  = Some user ->
  bcrypt_compare password (User.password user) = true ->
  loginUser {| in_emailOrUsername := JS.Str name;
               in_password := JS.Str password |} db
  = (respond 200 (LoginBody "Login successful" (without_password user)
                    (jwt_sign (User.id user) (User.username user))), db).
Proof.
  intros Hname Hpassword Hfind Hcompare.
  unfold loginUser. cbn [in_emailOrUsername in_password JS.is_falsy].
  apply String.eqb_neq in Hname, Hpassword. rewrite Hname, Hpassword. simpl.
  unfold loginUserService, bind, findFirst_email_or_username.
  rewrite Hfind, Hcompare. reflexivity.
Qed.

(** X9.  A registered user can log in: after a registration answered 201,
    a login with the name and the password sent answers 200 with the
    account the registration returned and a token signed for it, provided no
    user stored before had that name as email; and the same with the email
    for the name, provided no user stored before had that email as name. *)
Theorem register_then_login (input : RegisterInput) (reg : Registry) :
  fst (fst (registerUser input reg)) = 201 ->
  let reg' := snd (registerUser input reg) in
  exists username email password account,
    reg_username input = JS.Str username /\ reg_email input = JS.Str email
    /\ reg_password input = JS.Str password
    /\ fst (registerUser input reg)
       = (201, Payload ("User created successfully", account))
    /\ (free username username (store reg) ->
        loginUser {| in_emailOrUsername := JS.Str username;
                     in_password := JS.Str password |} (store reg')
        = (respond 200 (LoginBody "Login successful" account
                          (jwt_sign (User.a_id account) username)),
           store reg'))
    /\ (free email email (store reg) ->
        loginUser {| in_emailOrUsername := JS.Str email;
                     in_password := JS.Str password |} (store reg')
        = (respond 200 (LoginBody "Login successful" account
                          (jwt_sign (User.a_id account) username)),
           store reg')).
Proof.
  intros H201 reg'.
  destruct (registerUser_201 input reg H201)
    as (username & email & password & fullName & Hu & He & Hp & Hune & Hene
        & Hpne & Hfree & Hrun).
  subst reg'. rewrite Hrun. cbn [fst snd store].
  set (user := new_user (User_id_seq reg) username email
                        (bcrypt_hash password 12) fullName).
  exists username, email, password, (without_password user).
  do 3 (split; [assumption|]). split; [reflexivity|].
  assert (Hlogin : forall name,
             free name name (store reg) ->
             name <> "" ->
             (String.eqb (User.email user) name
              || String.eqb (User.username user) name)%bool = true ->
             loginUser {| in_emailOrUsername := JS.Str name;
                          in_password := JS.Str password |}
                       (with_Users (Users (store reg) ++ [user]) (store reg))
             = (respond 200 (LoginBody "Login successful" (without_password user)
                               (jwt_sign (User.a_id (without_password user)) username)),
                with_Users (Users (store reg) ++ [user]) (store reg))).
  { intros name Hname Hnne Hmatch.
    apply (loginUser_first_match name password _ user Hnne Hpne).
    - cbn [with_Users Users]. rewrite find_app_fresh.
      + cbn [find]. now rewrite Hmatch.
      + intros u Hin. destruct (Hname u Hin) as [H1 H2].
        apply String.eqb_neq in H1, H2. now rewrite H1, H2.
    - apply bcrypt_compare_hash. }
  split; intros Hname; apply Hlogin; auto; simpl.
  - rewrite String.eqb_refl. apply orb_true_r.
  - now rewrite String.eqb_refl.
Qed.

(** X10.  Registration compares the email with stored emails and the name
    with stored names, not one with the other: when a user stored before
    bears the new email as name, the registration can still be answered 201,
    and two rows then answer to a login with that email, the earlier user's
    and the new one.  [findFirst] has no [orderBy], so which it takes is up
    to the scan: with the earlier rows scanned first the login is answered
    as before the registration, and with the new row scanned first the new
    password opens the new account. *)
Theorem register_email_shadowed_by_username
        (input : RegisterInput) (reg : Registry)
        (email password : string) (other : User.row) :
  fst (fst (registerUser input reg)) = 201 ->
  reg_email input = JS.Str email ->
  reg_password input = JS.Str password ->
  In other (Users (store reg)) ->
  User.username other = email ->
  let db' := store (snd (registerUser input reg)) in
  let login := {| in_emailOrUsername := JS.Str email;
                  in_password := JS.Str password |} in
  exists new,
    Permutation (Users db') (new :: Users (store reg))
    /\ User.email new = email
    /\ User.username new <> User.username other
    /\ fst (loginUser login (with_Users (Users (store reg) ++ [new]) db'))
       = fst (loginUser login (store reg))
    /\ fst (loginUser login (with_Users (new :: Users (store reg)) db'))
       = respond 200 (LoginBody "Login successful" (without_password new)
                        (jwt_sign (User.id new) (User.username new))).
Proof.
  intros H201 Hemail Hpassword Hother Hname db' login.
  destruct (registerUser_201 input reg H201)
    as (username & email' & password' & fullName & Hu & He & Hp & Hune & Hene
        & Hpne & Hfree & Hrun).
  rewrite Hemail in He. injection He as <-.
  rewrite Hpassword in Hp. injection Hp as <-.
  subst db'. rewrite Hrun. cbn [snd store].
  set (new := new_user (User_id_seq reg) username email
                       (bcrypt_hash password 12) fullName).
  exists new. split; [|split; [|split; [|split]]].
  - cbn [with_Users Users]. symmetry. apply Permutation_cons_append.
  - reflexivity.
  - destruct (Hfree other Hother) as [_ Hn]. simpl. congruence.
  - unfold login, loginUser, loginUserService, bind, findFirst_email_or_username.
    cbn [in_emailOrUsername in_password fst snd with_Users Users].
    destruct (JS.is_falsy (JS.Str email) || JS.is_falsy (JS.Str password))%bool;
      [reflexivity|].
    destruct (find (fun u => String.eqb (User.email u) email
                             || String.eqb (User.username u) email)%bool
                   (Users (store reg))) as [first|] eqn:Efind.
    + rewrite (find_app_found _ _ _ _ Efind).
      destruct (bcrypt_compare password (User.password first)); reflexivity.
    + exfalso. pose proof (find_none _ _ Efind other Hother) as H.
      simpl in H. rewrite Hname, String.eqb_refl, orb_true_r in H. discriminate.
  - unfold login.
    rewrite (loginUser_first_match email password _ new Hene Hpne);
      [reflexivity| |apply bcrypt_compare_hash].
    cbn [with_Users Users find]. simpl. now rewrite String.eqb_refl.
Qed.
End RegisterThenLogin.

Lemma sample_hashing_laws : HashingLaws sample_libraries sample_hashing.
Proof. split. intros password saltRounds. simpl. apply String.eqb_refl. Qed.

Lemma sample_registry_wf : Users_wf sample_registry.
Proof.
  repeat split; simpl; repeat constructor; simpl; try lia;
    intuition discriminate.
Qed.

(** X8, a run: the sample users stay distinct over two registrations. *)
Lemma registerUser_keeps_users_distinct_witness :
  Users_wf (snd (registerUser (HASH := sample_hashing) register_with_email_badr
                   (snd (registerUser (HASH := sample_hashing) register_dalia
                           sample_registry)))).
Proof.
  apply (registerUser_keeps_users_distinct (HASH := sample_hashing)).
  apply (registerUser_keeps_users_distinct (HASH := sample_hashing)).
  exact sample_registry_wf.
Defined.


(** X9, a run: the new user logs in by name and by email. *)
Lemma register_then_login_witness :
  let reg' := snd (registerUser (HASH := sample_hashing) register_dalia
                     sample_registry) in
  status (fst (loginUser (LIB := sample_libraries)
                 {| in_emailOrUsername := JS.Str "dalia";
                    in_password := JS.Str "secret4" |} (store reg'))) = 200
  /\ status (fst (loginUser (LIB := sample_libraries)
                    {| in_emailOrUsername := JS.Str "dalia@example.com";
                       in_password := JS.Str "secret4" |} (store reg'))) = 200.
Proof.
  destruct (register_then_login (LIB := sample_libraries) (HASH := sample_hashing)
              (HASHLAWS := sample_hashing_laws) register_dalia sample_registry
              eq_refl)
    as (username & email & password & account & Hu & He & Hp & _ & Hname & Hemail).
  injection Hu as <-. injection He as <-. injection Hp as <-.
  split.
  - rewrite Hname; [reflexivity|].
    intros u [<- | [<- | [<- | []]]]; split; discriminate.
  - rewrite Hemail; [reflexivity|].
    intros u [<- | [<- | [<- | []]]]; split; discriminate.
Defined.

(** X10, a run: a registration with the email [badr], the name of the
    second sample user, is answered 201; with the sample users scanned first
    a login with [badr] and the new password is answered 401 as before, and
    with the new row scanned first it is answered 200. *)
Lemma register_email_shadowed_by_username_witness :
  fst (fst (registerUser (HASH := sample_hashing) register_with_email_badr
              sample_registry)) = 201
  /\ exists new,
      status (fst (loginUser (LIB := sample_libraries)
                     {| in_emailOrUsername := JS.Str "badr";
                        in_password := JS.Str "secret5" |}
                     (with_Users (Users users_db ++ [new]) users_db))) = 401
      /\ status (fst (loginUser (LIB := sample_libraries)
                        {| in_emailOrUsername := JS.Str "badr";
                           in_password := JS.Str "secret5" |}
                        (with_Users (new :: Users users_db) users_db))) = 200.
Proof.
  split; [reflexivity|].
  destruct (register_email_shadowed_by_username (LIB := sample_libraries)
              (HASH := sample_hashing) (HASHLAWS := sample_hashing_laws)
              register_with_email_badr sample_registry
              "badr" "secret5" (sample_user 2 "badr" "secret2" (Some square))
              eq_refl eq_refl eq_refl ltac:(simpl; tauto) eq_refl)
    as (new & _ & _ & _ & Hbefore & Hnew).
  exists new. split.
  - change (store sample_registry) with users_db in Hbefore.
    change (with_Users (Users users_db ++ [new])
              (store (snd (registerUser (HASH := sample_hashing)
                             register_with_email_badr sample_registry))))
      with (with_Users (Users users_db ++ [new]) users_db) in Hbefore.
    rewrite Hbefore. reflexivity.
  - change (with_Users (new :: Users (store sample_registry))
              (store (snd (registerUser (HASH := sample_hashing)
                             register_with_email_badr sample_registry))))
      with (with_Users (new :: Users users_db) users_db) in Hnew.
    rewrite Hnew. reflexivity.
Defined.

(** ** The routes behind the middleware *)

Section RouteFacts.
Context {PG : Postgres} {LIB : Libraries} {TOK : Tokens} {DR : Driver}.

Lemma find_by_id_Some (userId : Z) (users : list User.row) (u : User.row) :
  find (fun u => User.id u =? userId) users = Some u ->
  In u users /\ User.id u = userId
  /\ existsb (fun u => User.id u =? userId) users = true.
Proof.
  intros Hfind. pose proof (find_some _ _ Hfind) as [Hin Hid].
  apply Z.eqb_eq in Hid. repeat split; auto.
  apply existsb_exists. exists u. split; [exact Hin | now apply Z.eqb_eq].
Qed.

(** The middleware lets through only a token that verifies to the id of a
    stored user, as that user. *)
Lemma authenticateToken_inr (authorization : option string) (db : DB)
      (me : User.account) :
  authenticateToken authorization db = inr me ->
  exists token u,
    bearer_token authorization = Some token
    /\ jwt_verify token = Decoded (Some (User.id u))
    /\ find (fun v => User.id v =? User.id u) (Users db) = Some u
    /\ me = without_password u.
Proof.
  unfold authenticateToken.
  destruct (bearer_token authorization) as [token|]; [|discriminate].
  destruct (String.eqb token ""); [discriminate|].
  destruct (jwt_verify token) as [[userId|]| | |] eqn:Everify; try discriminate.
  destruct (find _ (Users db)) as [u|] eqn:Efind; [|discriminate].
  intros H. injection H as <-. exists token, u.
  destruct (find_by_id_Some _ _ _ Efind) as (_ & <- & _). auto.
Qed.

Lemma authenticateToken_inl (authorization : option string) (db : DB)
      (code : Z) (error : string) :
  authenticateToken authorization db = inl (code, error) ->
  (code = 401 \/ code = 500)
  /\ error <> "Failed to delete user account".
Proof.
  unfold authenticateToken.
  destruct (bearer_token authorization) as [token|];
    [|intros H; injection H as <- <-; split; [tauto | discriminate]].
  destruct (String.eqb token "");
    [intros H; injection H as <- <-; split; [tauto | discriminate]|].
  destruct (jwt_verify token) as [[userId|]| | |];
    try (intros H; injection H as <- <-; split; [tauto | discriminate]).
  destruct (find _ (Users db)); [discriminate|].
  intros H; injection H as <- <-; split; [tauto | discriminate].
Qed.

Lemma authorizeOwner_inr (id : string) (me : User.account) (userId : Z) :
  authorizeOwner id me = inr userId ->
  userId = User.a_id me /\ JS.as_integer (JS.parseInt id) = Some userId.
Proof.
  unfold authorizeOwner.
  destruct (JS.as_integer (JS.parseInt id)) as [n|]; [|discriminate].
  destruct (Z.eqb_spec n (User.a_id me)); [|discriminate].
  intros H. injection H as <-. auto.
Qed.

Lemma authorizeOwner_inl (id : string) (me : User.account) (code : Z)
      (error : string) :
  authorizeOwner id me = inl (code, error) ->
  code = 403 /\ error <> "Failed to delete user account".
Proof.
  unfold authorizeOwner.
  destruct (JS.as_integer (JS.parseInt id)) as [n|].
  - destruct (n =? User.a_id me); [discriminate|].
    intros H; injection H as <- <-; split; [reflexivity | discriminate].
  - intros H; injection H as <- <-; split; [reflexivity | discriminate].
Qed.

(** X11.  [DELETE /users/:id] removes the caller's own account or nothing.
    The answer is 200, 401, 403 or 500; with any answer but 200 the database
    is as it was; with 200 the token verified to the id of a stored user,
    the id in the path is that id, and the rows of that id and no other are
    gone; places are never touched; and the 500 of [deleteUser] for a
    missing record is never the answer, the middleware having found the
    user. *)
Theorem DELETE_users_id_own_account_only
        (authorization : option string) (id : string) (db : DB) :
  let r := fst (DELETE_users_id authorization id db) in
  let db' := snd (DELETE_users_id authorization id db) in
  (status r = 200 \/ status r = 401 \/ status r = 403 \/ status r = 500)
  /\ Places db' = Places db
  /\ (status r <> 200 -> db' = db)
  /\ (status r = 200 ->
      exists me,
        authenticateToken authorization db = inr me
        /\ JS.as_integer (JS.parseInt id) = Some (User.a_id me)
        /\ Users db' = filter (fun u => negb (User.id u =? User.a_id me)) (Users db))
  /\ body r <> ErrorBody "Failed to delete user account".
Proof.
  unfold DELETE_users_id.
  destruct (authenticateToken authorization db) as [[code error]|me] eqn:Eauth.
  { destruct (authenticateToken_inl _ _ _ _ Eauth) as [[-> | ->] Herror];
      simpl; repeat split; try tauto; try discriminate; congruence. }
  destruct (authorizeOwner id me) as [[code error]|userId] eqn:Eowner.
  { destruct (authorizeOwner_inl _ _ _ _ Eowner) as [-> Herror];
      simpl; repeat split; try tauto; try discriminate; congruence. }
  destruct (authorizeOwner_inr _ _ _ Eowner) as [-> Hid].
  destruct (authenticateToken_inr _ _ _ Eauth) as (token & u & _ & _ & Hfind & ->).
  destruct (find_by_id_Some _ _ _ Hfind) as (_ & _ & Hexists).
  unfold deleteUser, deleteUserService, prisma_user_delete, bind,
    getUserProfileService, ret.
  simpl. rewrite Hexists. simpl.
  repeat split; try tauto; try discriminate.
  exists (without_password u). auto.
Qed.

Lemma Forall2_refl_on {A : Type} (R : A -> A -> Prop) (l : list A) :
  (forall a, R a a) -> Forall2 R l l.
Proof. intros HR. induction l; constructor; auto. Qed.

Lemma Forall2_map_r {A : Type} (R : A -> A -> Prop) (f : A -> A) (l : list A) :
  (forall a, R a (f a)) -> Forall2 R l (map f l).
Proof. intros HR. induction l; simpl; constructor; auto. Qed.

Lemma Forall2_trans_on {A : Type} (R : A -> A -> Prop) (l1 l2 l3 : list A) :
  (forall a b c, R a b -> R b c -> R a c) ->
  Forall2 R l1 l2 -> Forall2 R l2 l3 -> Forall2 R l1 l3.
Proof.
  intros HR H12. revert l3.
  induction H12 as [|a b l1 l2 Hab H12 IH]; intros l3 H23;
    inversion H23; subst; constructor; eauto.
Qed.

Lemma profile_change_of_refl (me : Z) (u : User.row) : profile_change_of me u u.
Proof. unfold profile_change_of. tauto. Qed.

Lemma profile_change_of_trans (me : Z) (a b c : User.row) :
  profile_change_of me a b -> profile_change_of me b c -> profile_change_of me a c.
Proof.
  unfold profile_change_of.
  intros (H1 & H2 & H3 & H4 & H5 & H6 & H7 & H8)
         (G1 & G2 & G3 & G4 & G5 & G6 & G7 & G8).
  repeat split; try congruence.
  intros Hne. rewrite <- (H8 Hne). apply G8. rewrite (H8 Hne). exact Hne.
Qed.

Lemma UPDATE_User_profile_change (userId : Z) (set : User.row -> User.row)
      (db : DB) :
  (forall u, profile_change_of (User.id u) u (set u)) ->
  Forall2 (profile_change_of userId) (Users db)
          (Users (snd (UPDATE_User userId set db))).
Proof.
  intros Hset. simpl. apply Forall2_map_r. intros u.
  destruct (Z.eqb_spec (User.id u) userId) as [Heq|Hne].
  - destruct (Hset u) as (H1 & H2 & H3 & H4 & H5 & H6 & H7 & _).
    repeat split; auto. congruence.
  - apply profile_change_of_refl.
Qed.

(** What [updateUserProfileService] may change: of the rows of the given id
    the texts and the coordinate, of the other rows nothing. *)
Lemma updateUserProfileService_profile_change (userId : Z) (updateData : UpdateData)
      (db : DB) :
  Forall2 (profile_change_of userId) (Users db)
          (Users (snd (updateUserProfileService userId updateData db)))
  /\ Places (snd (updateUserProfileService userId updateData db)) = Places db.
Proof.
  unfold updateUserProfileService, bind, getUserProfileService.
  set (step1 := if (negb (JS.is_undefined (up_latitude updateData))
                    && negb (JS.is_undefined (up_longitude updateData)))%bool
                then _ else _).
  assert (H1 : Forall2 (profile_change_of userId) (Users db) (Users (snd (step1 db)))
               /\ Places (snd (step1 db)) = Places db).
  { subst step1. destruct (_ && _)%bool.
    - unfold UPDATE_User_coordinates.
      destruct (ST_GeographyFromText _) as [g|].
      + split; [|reflexivity]. apply UPDATE_User_profile_change.
        intros u. unfold profile_change_of. simpl. tauto.
      + split; [|reflexivity]. apply Forall2_refl_on, profile_change_of_refl.
    - split; [|reflexivity]. apply Forall2_refl_on, profile_change_of_refl. }
  destruct (step1 db) as [[[]|e] db1]; simpl in *; [|exact H1].
  set (step2 := if has_keys (up_texts updateData) then _ else _).
  assert (H2 : Forall2 (profile_change_of userId) (Users db1) (Users (snd (step2 db1)))
               /\ Places (snd (step2 db1)) = Places db1).
  { subst step2. destruct (has_keys _).
    - unfold prisma_user_update. destruct (existsb _ (Users db1)).
      + split; [|reflexivity]. apply UPDATE_User_profile_change.
        intros u. unfold profile_change_of. simpl. tauto.
      + split; [|reflexivity]. apply Forall2_refl_on, profile_change_of_refl.
    - split; [|reflexivity]. apply Forall2_refl_on, profile_change_of_refl. }
  destruct H1 as [H1 P1], H2 as [H2 P2].
  assert (Hall : Forall2 (profile_change_of userId) (Users db) (Users (snd (step2 db1)))).
  { eapply Forall2_trans_on; eauto. apply profile_change_of_trans. }
  destruct (step2 db1) as [[[]|e] db2]; simpl in *; split; congruence.
Qed.

End RouteFacts.

(** X11, a run with the stand-in tokens: the first sample user may not
    delete the second, and may delete herself. *)
Lemma DELETE_users_id_own_account_only_witness :
  DELETE_users_id (PG := plane) (TOK := sample_tokens)
    (Some "Bearer jwt.amira") "2" users_db
  = (respond 403 (ErrorBody "Access denied: You can only access your own profile"),
     users_db)
  /\ map User.id
         (Users (snd (DELETE_users_id (PG := plane) (TOK := sample_tokens)
                        (Some "Bearer jwt.amira") "1" users_db)))
     = [2; 3].
Proof.
  split; [reflexivity|].
  destruct (DELETE_users_id_own_account_only (PG := plane) (TOK := sample_tokens)
              (Some "Bearer jwt.amira") "1" users_db)
    as (_ & _ & _ & Hown & _).
  destruct (Hown eq_refl) as (me & Hme & _ & Husers).
  rewrite Husers. injection Hme as <-. reflexivity.
Defined.

Section StatsRoute.
Context {PG : Postgres} {LIB : Libraries} {TOK : Tokens} {DR : Driver}.

(** X13.  [PUT /users/:id/stats] asks for a valid token and for nothing
    more: whoever the token verifies to, the counters of the user in the path
    are updated as [updateUserStatsService] does for that id, the stat type
    and the increment parsed from the body (1 when the body has none), and
    the answer is 200 with the profile the service returned; this for an id
    and an increment that fit 32 bits and sums that fit on the rows of the
    id. *)
Theorem PUT_users_id_stats_any_user
        (authorization : option string) (id statType : string)
        (increment : JS.value) (db : DB)
        (me : User.account) (target amount : Z) :
  authenticateToken authorization db = inr me ->
  JS.as_integer (JS.parseInt id) = Some target ->
  In statType validStats ->
  JS.as_integer (parseInt (if JS.is_undefined increment
                           then JS.Number (JS.of_Z 1) else increment))
  = Some amount ->
  int4 target = true -> int4 amount = true ->
  sums_fit target statType amount db ->
  exists profile,
    updateUserStatsService target statType amount db
    = (Ok profile, snd (updateUserStatsService target statType amount db))
    /\ PUT_users_id_stats authorization id (Some statType) increment db
       = ((200, Payload ("User stats updated successfully", profile)),
          snd (updateUserStatsService target statType amount db)).
Proof.
  intros Hauth Hid Hvalid Hamount Htarget Hfits Hsums.
  pose proof (includes_validStats _ Hvalid) as Hincluded.
  assert (Hne : String.eqb statType "" = false).
  { apply String.eqb_neq. intros ->. simpl in Hvalid. intuition discriminate. }
  destruct (updateUserStatsService_returns target statType amount db
              Hvalid Htarget Hfits Hsums) as [profile Hrun].
  exists profile. split; [exact Hrun|].
  unfold PUT_users_id_stats, updateUserStats. rewrite Hauth.
  unfold JS.falsy. rewrite Hne.
  unfold updateUserStatsService_of_numbers.
  rewrite Hincluded, Hid, Hamount. simpl. now rewrite Hrun.
Qed.
End StatsRoute.

(** X13, a run with the stand-in tokens: the first sample user sends the
    number 1e21 as increment for the second sample user; [parseInt] reads
    its text [1e+21] as 1, and one story is added. *)
Lemma PUT_users_id_stats_any_user_witness :
  map User.storyCount
      (Users (snd (PUT_users_id_stats (PG := plane) (TOK := sample_tokens)
                     (DR := sample_driver)
                     (Some "Bearer jwt.amira") "2" (Some "storyCount")
                     (JS.Number (JS.of_Z (10 ^ 21))) users_db)))
  = [0; 1; 0].
Proof.
  destruct (PUT_users_id_stats_any_user (PG := plane) (TOK := sample_tokens)
              (DR := sample_driver)
              (Some "Bearer jwt.amira") "2" "storyCount"
              (JS.Number (JS.of_Z (10 ^ 21)))
              users_db
              (without_password
                 (sample_user 1 "amira" "secret1"
                    (Some (POINT (3124 # 100) (3004 # 100)))))
              2 1 eq_refl eq_refl ltac:(simpl; tauto) eq_refl eq_refl eq_refl)
    as (profile & _ & Hroute).
  - intros u [<- | [<- | [<- | []]]] _; reflexivity.
  - rewrite Hroute. reflexivity.
Defined.

(** ** Reading after writing *)

Section ReadAfterWrite.
Context {PG : Postgres} {LIB : Libraries}.

Lemma find_filter_other_ids (userId : Z) (users : list User.row) :
  find (fun u => User.id u =? userId)
       (filter (fun u => negb (User.id u =? userId)) users) = None.
Proof.
  induction users as [|u rest IH]; simpl; [reflexivity|].
  destruct (User.id u =? userId) eqn:E; simpl; [exact IH|].
  now rewrite E.
Qed.

(** X14.  A deleted account is gone for [GET /users/:id]: after a
    [deleteUser] answered 200, the profile of that id is answered 404. *)
Theorem deleteUser_then_getUserProfile (id : string) (userId : Z) (db : DB) :
  JS.as_integer (JS.parseInt id) = Some userId ->
  status (fst (deleteUser userId db)) = 200 ->
  getUserProfile id (snd (deleteUser userId db))
  = ((404, Failure "User not found"), snd (deleteUser userId db)).
Proof.
  intros Hid. unfold getUserProfile. rewrite Hid.
  unfold deleteUser, deleteUserService, prisma_user_delete, bind,
    getUserProfileService, ret. simpl.
  destruct (existsb _ (Users db)); simpl; [|discriminate].
  intros _. now rewrite find_filter_other_ids.
Qed.

Lemma find_map_same_id (userId : Z) (set : User.row -> User.row)
      (users : list User.row) :
  (forall u, User.id (set u) = User.id u) ->
  find (fun u => User.id u =? userId)
       (map (fun u => if User.id u =? userId then set u else u) users)
  = option_map set (find (fun u => User.id u =? userId) users).
Proof.
  intros Hset. induction users as [|u rest IH]; simpl; [reflexivity|].
  destruct (User.id u =? userId) eqn:E.
  - now rewrite Hset, E.
  - now rewrite E.
Qed.

Lemma map_same_rows (userId : Z) (set : User.row -> User.row)
      (users : list User.row) :
  ~ In userId (map User.id users) ->
  map (fun u => if User.id u =? userId then set u else u) users = users.
Proof.
  induction users as [|u rest IH]; simpl; intros Hnone; [reflexivity|].
  destruct (Z.eqb_spec (User.id u) userId) as [Heq|Hne].
  - exfalso. apply Hnone. now left.
  - f_equal. apply IH. intros Hin. apply Hnone. now right.
Qed.

Lemma updateUserStatsService_result (userId : Z) (statType : string)
      (increment : Z) (db : DB) :
  In statType validStats ->
  int4 userId = true -> int4 increment = true ->
  sums_fit userId statType increment db ->
  fst (updateUserStatsService userId statType increment db)
  = Ok (option_map select_view
          (find (fun u => User.id u =? userId)
                (Users (snd (updateUserStatsService userId statType increment db)))))
  /\ Places (snd (updateUserStatsService userId statType increment db)) = Places db
  /\ Place_id_seq (snd (updateUserStatsService userId statType increment db))
     = Place_id_seq db.
Proof.
  intros Hvalid Hid Hinc Hfit.
  rewrite updateUserStatsService_valid by exact Hvalid.
  unfold bind, UPDATE_User_counter. rewrite Hid, Hinc. simpl.
  rewrite (SET_WHERE_id_total userId _
             (fun u => with_counter statType
                         (Z.max 0 (counter statType u + increment)) u)).
  - repeat split; reflexivity.
  - intros u Hu Hu_id. apply set_counter_fits. now apply Hfit.
Qed.

(** X15.  What [updateUserStatsService] returns is what is stored.  For a
    stat type of the list and an id and an increment that fit 32 bits: when
    no user has the id, it returns [null] without an error and the database
    is as it was; when a user has it and the sums fit, it returns that
    user's profile, in which the named counter is [max 0 (old + increment)]
    and the others are as they were, and [getUserEngagementService] reads
    the same three counters afterwards. *)
Theorem updateUserStatsService_returns_stored
        (userId : Z) (statType : string) (increment : Z) (db : DB) :
  In statType validStats ->
  int4 userId = true -> int4 increment = true ->
  let run := updateUserStatsService userId statType increment db in
  (~ In userId (map User.id (Users db)) -> run = (Ok None, db))
  /\ (forall u,
         find (fun u => User.id u =? userId) (Users db) = Some u ->
         sums_fit userId statType increment db ->
         exists v e,
           fst run = Ok (Some v)
           /\ User.v_id v = userId
           /\ (forall s, In s validStats ->
                 view_counter s v
                 = if String.eqb s statType
                   then Z.max 0 (counter s u + increment)
                   else counter s u)
           /\ fst (getUserEngagementService userId (snd run)) = Ok e
           /\ (forall s, In s validStats ->
                 engagement_counter s e = view_counter s v)).
Proof.
  intros Hvalid Hid Hinc run.
  split.
  - intros Hnone.
    assert (Hfit : sums_fit userId statType increment db).
    { intros u Hu Hu_id. exfalso. apply Hnone.
      apply in_map_iff. now exists u. }
    destruct (updateUserStatsService_rows userId statType increment db
                Hvalid Hid Hinc Hfit) as (set & Hrows & Hset).
    destruct (updateUserStatsService_result userId statType increment db
                Hvalid Hid Hinc Hfit) as (Hresult & Hplaces & Hseq).
    fold run in Hrows, Hresult, Hplaces, Hseq.
    rewrite (map_same_rows _ _ _ Hnone) in Hrows.
    rewrite Hrows in Hresult.
    replace (find (fun u => User.id u =? userId) (Users db))
      with (@None User.row) in Hresult.
    + destruct run as [res db']. simpl in *. subst res.
      f_equal. destruct db, db'. simpl in *. congruence.
    + symmetry. clear - Hnone.
      induction (Users db) as [|u rest IH]; simpl; [reflexivity|].
      destruct (Z.eqb_spec (User.id u) userId) as [Heq|Hne].
      * exfalso. apply Hnone. now left.
      * apply IH. intros Hin. apply Hnone. now right.
  - intros u Hfind Hfit.
    destruct (updateUserStatsService_rows userId statType increment db
                Hvalid Hid Hinc Hfit) as (set & Hrows & Hset).
    destruct (updateUserStatsService_result userId statType increment db
                Hvalid Hid Hinc Hfit) as (Hresult & Hplaces & Hseq).
    fold run in Hrows, Hresult, Hplaces, Hseq.
    rewrite Hrows, find_map_same_id, Hfind in Hresult by apply Hset.
    simpl in Hresult.
    destruct (find_by_id_Some _ _ _ Hfind) as (_ & Hsame_id & _).
    destruct (Hset u) as [Hsame Hcounters].
    exists (select_view (set u)), (select_engagement (set u)).
    split; [exact Hresult|]. split; [simpl; congruence|].
    split; [intros s Hs; rewrite <- (Hcounters s Hs); reflexivity|].
    split; [|intros s Hs; reflexivity].
    unfold getUserEngagementService. rewrite Hid.
    now rewrite Hrows, find_map_same_id, Hfind by apply Hset.
Qed.
End ReadAfterWrite.

(** X14, a run: the second sample user deleted and looked up. *)
Lemma deleteUser_then_getUserProfile_witness :
  fst (getUserProfile (PG := plane) (LIB := sample_libraries) "2"
         (snd (deleteUser (PG := plane) 2 users_db)))
  = (404, Failure "User not found").
Proof.
  now rewrite (deleteUser_then_getUserProfile (PG := plane)
                 (LIB := sample_libraries) "2" 2 users_db eq_refl eq_refl).
Defined.

(** X15, a run: three likes for the second sample user, and for an id no
    sample user has. *)
Lemma updateUserStatsService_returns_stored_witness :
  (exists v,
      fst (updateUserStatsService (PG := plane) 2 "likeCount" 3 users_db)
      = Ok (Some v)
      /\ view_counter "likeCount" v = 3 /\ view_counter "storyCount" v = 0)
  /\ updateUserStatsService (PG := plane) 9 "likeCount" 3 users_db
     = (Ok None, users_db).
Proof.
  destruct (updateUserStatsService_returns_stored (PG := plane)
              2 "likeCount" 3 users_db ltac:(simpl; tauto) eq_refl eq_refl)
    as [_ Hsome].
  destruct (updateUserStatsService_returns_stored (PG := plane)
              9 "likeCount" 3 users_db ltac:(simpl; tauto) eq_refl eq_refl)
    as [Hnone _].
  split.
  - destruct (Hsome (sample_user 2 "badr" "secret2" (Some square)) eq_refl)
      as (v & e & Hv & _ & Hcounters & _).
    + intros u [<- | [<- | [<- | []]]] _; reflexivity.
    + exists v. split; [exact Hv|]. split.
      * apply (Hcounters "likeCount"). simpl. tauto.
      * apply (Hcounters "storyCount"). simpl. tauto.
  - apply Hnone. simpl. intuition discriminate.
Defined.

Section LoginThenMe.
Context {PG : Postgres} {LIB : Libraries} {TOK : Tokens}.

Lemma split_on_no_space (s : string) :
  no_space s = true -> split_on " " s = [s].
Proof.
  induction s as [|c rest IH]; simpl; [reflexivity|].
  intros H. apply andb_true_iff in H as [Hc Hrest].
  apply negb_true_iff in Hc. rewrite Hc, (IH Hrest). reflexivity.
Qed.

Lemma bearer_token_of (token : string) :
  no_space token = true ->
  bearer_token (Some ("Bearer " ++ token)) = Some token.
Proof.
  intros H. unfold bearer_token. simpl.
  now rewrite (split_on_no_space _ H).
Qed.

(** X16.  The token of a login opens the caller's own profile: when user
    ids are distinct and [loginUser] answered 200 with an account and a
    token that has no space, is not empty and verifies to the account's id,
    [GET /users/me] with [Bearer] and that token answers 200 with the
    profile of that id and name and with the account's email, and changes
    nothing. *)
Theorem loginUser_then_GET_users_me
        (input : LoginInput) (db : DB) (message token : string)
        (account : User.account) :
  NoDup (map User.id (Users db)) ->
  fst (loginUser input db) = respond 200 (LoginBody message account token) ->
  no_space token = true ->
  token <> "" ->
  jwt_verify token = Decoded (Some (User.a_id account)) ->
  exists own,
    GET_users_me (Some ("Bearer " ++ token)) db = ((200, Payload own), db)
    /\ User.v_id (own_profile own) = User.a_id account
    /\ User.v_username (own_profile own) = User.a_username account
    /\ own_email own = User.a_email account.
Proof.
  intros Hnodup Hlogin Hspace Hne Hverify.
  assert (Hstored : exists u, In u (Users db) /\ account = without_password u).
  { unfold loginUser in Hlogin.
    destruct (JS.is_falsy (in_emailOrUsername input)
              || JS.is_falsy (in_password input))%bool; [discriminate|].
    unfold loginUserService in Hlogin.
    destruct (in_emailOrUsername input) as [| |b|n|name]; try discriminate.
    unfold bind, findFirst_email_or_username in Hlogin. simpl in Hlogin.
    destruct (find _ (Users db)) as [u|] eqn:Efind; [|discriminate].
    destruct (in_password input) as [| |b|n|password]; try discriminate.
    destruct (bcrypt_compare password (User.password u)); [|discriminate].
    simpl in Hlogin. injection Hlogin as _ <- _.
    exists u. split; [|reflexivity]. now apply find_some in Efind. }
  destruct Hstored as (u & Hu & ->).
  assert (Hfind : find (fun v => User.id v =? User.id u) (Users db) = Some u).
  { destruct (find (fun v => User.id v =? User.id u) (Users db)) as [v|] eqn:E.
    - pose proof (find_some _ _ E) as [Hv Hid]. apply Z.eqb_eq in Hid.
      f_equal. now apply (NoDup_map_injective User.id (Users db)).
    - pose proof (find_none _ _ E u Hu) as H. simpl in H.
      now rewrite Z.eqb_refl in H. }
  unfold GET_users_me, authenticateToken.
  rewrite (bearer_token_of _ Hspace).
  apply String.eqb_neq in Hne. rewrite Hne, Hverify. simpl. rewrite Hfind.
  unfold getCurrentUserProfile, getUserProfileService. simpl. rewrite Hfind.
  simpl. eexists. split; [reflexivity|]. repeat split.
Qed.
End LoginThenMe.

(** X16, a run with the stand-in libraries and tokens: the second sample
    user logs in and reads their own profile. *)
Lemma loginUser_then_GET_users_me_witness :
  exists own,
    GET_users_me (PG := plane) (LIB := sample_libraries) (TOK := sample_tokens)
      (Some "Bearer jwt.badr") users_db = ((200, Payload own), users_db)
    /\ User.v_id (own_profile own) = 2
    /\ own_email own = "badr@example.com".
Proof.
  destruct (loginUser_then_GET_users_me (PG := plane) (LIB := sample_libraries)
              (TOK := sample_tokens)
              {| in_emailOrUsername := JS.Str "badr";
                 in_password := JS.Str "secret2" |}
              users_db "Login successful" "jwt.badr"
              (without_password (sample_user 2 "badr" "secret2" (Some square))))
    as (own & Hrun & Hid & _ & Hemail).
  - repeat constructor; simpl; intuition discriminate.
  - reflexivity.
  - reflexivity.
  - discriminate.
  - reflexivity.
  - exists own. auto.
Defined.

(** ** User search *)

Section OrderByFacts.
Context {A : Type}.
Variable leb : A -> A -> bool.
Hypothesis leb_total : forall a b, leb a b = false -> leb b a = true.
Hypothesis leb_trans : forall a b c, leb a b = true -> leb b c = true -> leb a c = true.

Lemma insert_by_perm (r : A) (l : list A) :
  Permutation (insert_by leb r l) (r :: l).
Proof.
  induction l as [|x rest IH]; simpl; [reflexivity|].
  destruct (leb r x); [reflexivity|].
  rewrite IH. apply perm_swap.
Qed.

Lemma ORDER_BY_perm (l : list A) : Permutation (ORDER_BY leb l) l.
Proof.
  induction l as [|x rest IH]; simpl; [constructor|].
  rewrite insert_by_perm. now constructor.
Qed.

Lemma insert_by_sorted (r : A) (l : list A) :
  StronglySorted (fun a b => leb a b = true) l ->
  StronglySorted (fun a b => leb a b = true) (insert_by leb r l).
Proof.
  induction 1 as [|x rest Hs IH Hx]; simpl.
  - repeat constructor.
  - destruct (leb r x) eqn:E.
    + constructor; [now constructor|].
      constructor; [exact E|].
      eapply Forall_impl; [|exact Hx]. intros b Hb. now apply leb_trans with x.
    + constructor; [exact IH|].
      eapply Permutation_Forall; [symmetry; apply insert_by_perm|].
      constructor; [now apply leb_total | exact Hx].
Qed.

Lemma ORDER_BY_sorted (l : list A) :
  StronglySorted (fun a b => leb a b = true) (ORDER_BY leb l).
Proof.
  induction l as [|x rest IH]; simpl; [constructor|].
  now apply insert_by_sorted.
Qed.
End OrderByFacts.

Lemma firstn_StronglySorted {A : Type} (R : A -> A -> Prop) (n : nat) (l : list A) :
  StronglySorted R l -> StronglySorted R (firstn n l).
Proof.
  intros H. revert n.
  induction H as [|x rest Hs IH Hx]; intros [|n]; simpl; try constructor.
  - apply IH.
  - rewrite Forall_forall in *. intros b Hb. eapply Hx, In_firstn, Hb.
Qed.

Lemma search_order_iff (q : string) (u v : User.row) :
  search_order q u v = true <-> search_before q u v.
Proof.
  unfold search_order, search_before.
  rewrite !orb_true_iff, !andb_true_iff, !orb_true_iff, !andb_true_iff.
  rewrite !Z.ltb_lt, !Z.eqb_eq, Z.leb_le. tauto.
Qed.

Lemma search_order_total (q : string) (u v : User.row) :
  search_order q u v = false -> search_order q v u = true.
Proof.
  intros H. apply search_order_iff.
  assert (Hn : ~ search_before q u v)
    by (rewrite <- search_order_iff; congruence).
  unfold search_before in *. lia.
Qed.

Lemma search_order_trans (q : string) (u v w : User.row) :
  search_order q u v = true -> search_order q v w = true ->
  search_order q u w = true.
Proof.
  rewrite !search_order_iff. unfold search_before. lia.
Qed.

Section SearchFacts.
Context {PG : Postgres} {LIB : Libraries}.

(** With a limit of at least the number of matching users, all are listed. *)
Lemma searchUsersService_all (query : string) (limit : Z) (db : DB) :
  0 <= limit ->
  (List.length (filter (search_matches ("%" ++ toLowerCase query ++ "%")) (Users db))
   <= Z.to_nat limit)%nat ->
  exists users,
    searchUsersService query (JS.of_Z limit) db = (Ok (map select_found users), db)
    /\ Permutation users
         (filter (search_matches ("%" ++ toLowerCase query ++ "%")) (Users db)).
Proof.
  intros Hlimit Hall.
  assert (Hperm : Permutation (search_listing query db)
                    (filter (search_matches ("%" ++ toLowerCase query ++ "%"))
                            (Users db)))
    by apply ORDER_BY_perm.
  exists (search_listing query db). split; [|exact Hperm].
  unfold searchUsersService. rewrite LIMIT_of_Z by assumption.
  rewrite firstn_all2; [reflexivity|].
  now rewrite length_map, (Permutation_length Hperm).
Qed.

End SearchFacts.

(** *** What [LIKE] matches *)

Lemma like_percent_unfold (p s : string) :
  like (String "%" p) s
  = (like p s
     || match s with
        | EmptyString => false
        | String _ s' => like (String "%" p) s'
        end)%bool.
Proof. destruct s; reflexivity. Qed.

Lemma like_char_unfold (c : ascii) (p s : string) :
  Ascii.eqb c "%" = false -> Ascii.eqb c "_" = false -> Ascii.eqb c "\" = false ->
  like (String c p) s
  = match s with
    | String a s' => (Ascii.eqb a c && like p s')%bool
    | EmptyString => false
    end.
Proof. intros H1 H2 H3. simpl. now rewrite H1, H2, H3. Qed.

Lemma like_percent (p s : string) :
  like (String "%" p) s = true
  <-> exists before after, s = before ++ after /\ like p after = true.
Proof.
  induction s as [|a s' IH]; rewrite like_percent_unfold.
  - rewrite orb_false_r. split.
    + intros H. now exists "", "".
    + intros (before & after & Hs & H).
      destruct before; [|discriminate]. simpl in Hs. now subst.
  - rewrite orb_true_iff, IH. split.
    + intros [H | (before & after & -> & H)].
      * now exists "", (String a s').
      * now exists (String a before), after.
    + intros (before & after & Hs & H). destruct before as [|b before].
      * left. simpl in Hs. now subst.
      * right. simpl in Hs. injection Hs as <- ->. now exists before, after.
Qed.

Lemma like_plain_prefix (q rest s : string) :
  plain_text q = true ->
  like (q ++ rest) s = true
  <-> exists after, s = q ++ after /\ like rest after = true.
Proof.
  revert s. induction q as [|c q IH]; intros s Hplain; simpl append.
  - split; [intros H; now exists s | now intros (after & -> & H)].
  - simpl in Hplain. rewrite !andb_true_iff, !negb_true_iff in Hplain.
    destruct Hplain as [[[H1 H2] H3] Hq].
    rewrite like_char_unfold by assumption.
    destruct s as [|a s'].
    + split; [discriminate | intros (after & Hs & _); discriminate].
    + rewrite andb_true_iff, (IH _ Hq). split.
      * intros [Ha (after & -> & H)]. apply Ascii.eqb_eq in Ha. subst.
        now exists after.
      * intros (after & Hs & H). injection Hs as -> ->.
        split; [apply Ascii.eqb_refl | now exists after].
Qed.

Lemma like_only_percent (p s : string) :
  only_percent p = true -> p <> "" -> like p s = true.
Proof.
  induction p as [|c p IH]; [congruence|].
  simpl only_percent. rewrite andb_true_iff. intros [Hc Hp] _.
  apply Ascii.eqb_eq in Hc. subst c.
  apply like_percent.
  destruct p as [|c' p'].
  - exists s, "". split; [|reflexivity].
    clear. induction s; simpl; congruence.
  - exists "", s. split; [reflexivity|]. now apply IH.
Qed.

(** X18.  For a query with no percent sign, underscore or backslash the
    pattern of the search reads as meant: [s LIKE '%q%'] holds exactly when
    [q] is a part of [s]; and so a user matches exactly when the lower-cased
    query is a part of the lower-cased name or of the lower-cased full name. *)
Theorem search_matches_plain_query (query : string) (u : User.row) :
  plain_text (toLowerCase query) = true ->
  search_matches ("%" ++ toLowerCase query ++ "%") u = true
  <-> contains (toLowerCase (User.username u)) (toLowerCase query)
      \/ exists fullName,
          User.fullName (User.profile u) = Some fullName
          /\ contains (toLowerCase fullName) (toLowerCase query).
Proof.
  intros Hplain.
  assert (Hlike : forall s,
             LIKE s ("%" ++ toLowerCase query ++ "%") = true
             <-> contains s (toLowerCase query)).
  { intros s. unfold LIKE, contains. simpl append. rewrite like_percent.
    split.
    - intros (before & after & -> & H).
      apply (like_plain_prefix _ "%" _ Hplain) in H as (rest & -> & _).
      now exists before, rest.
    - intros (before & after & ->).
      exists before, (toLowerCase query ++ after). split; [reflexivity|].
      apply (like_plain_prefix _ "%" _ Hplain). exists after.
      split; [reflexivity|]. now apply like_only_percent. }
  unfold search_matches, LOWER_LIKE. rewrite orb_true_iff, Hlike.
  destruct (User.fullName (User.profile u)) as [fullName|].
  - rewrite Hlike. split; intros [H | H]; auto.
    + right. now exists fullName.
    + destruct H as (f & Hf & H). injection Hf as <-. now right.
  - split; intros [H | H]; auto; [discriminate|].
    destruct H as (f & Hf & _). discriminate.
Qed.

Section WildcardFacts.
Context {PG : Postgres} {LIB : Libraries}.

Lemma toLowerCase_only_percent (q : string) :
  only_percent q = true -> toLowerCase q = q.
Proof.
  induction q as [|c q IH]; simpl; [reflexivity|].
  rewrite andb_true_iff. intros [Hc Hq]. apply Ascii.eqb_eq in Hc. subst c.
  now rewrite (IH Hq).
Qed.

End WildcardFacts.


(** X18, a run: [li] is a part of [alice] and of none of [Bob]'s texts but
    his full name. *)
Lemma search_matches_plain_query_witness :
  search_matches "%li%" (searchable_user 2 "alice" (Some "Alice Smith") 0) = true
  /\ contains "bob ali" "li".
Proof.
  split; [reflexivity|].
  destruct (proj1 (search_matches_plain_query "Li"
                     (searchable_user 1 "Bob" (Some "Bob Ali") 9) eq_refl)
                  eq_refl) as [Hname | (fullName & Hfull & Hpart)].
  - exfalso. destruct Hname as (before & after & Hname).
    destruct before as [|a [|b [|c before]]]; simpl in Hname;
      try discriminate; destruct before; discriminate.
  - injection Hfull as <-. exact Hpart.
Defined.


Section SearchController.
Context {PG : Postgres} {LIB : Libraries}.

(** X20.  [searchUsers] never changes the database; it answers 400 when
    [q] is absent or shorter than two characters once trimmed; and when it
    answers 200 the body repeats the trimmed query, [count] is the number of
    users listed, and that number is at most 20 when the query string has no
    [limit], and at most the limit asked for otherwise. *)
Theorem searchUsers_answers (q limit : option string) (db : DB) :
  snd (searchUsers q limit db) = db
  /\ (q = None -> fst (searchUsers q limit db)
                  = (400, Failure "Search query must be at least 2 characters long"))
  /\ (forall query, q = Some query -> (String.length (trim query) < 2)%nat ->
        fst (searchUsers q limit db)
        = (400, Failure "Search query must be at least 2 characters long"))
  /\ (forall text count users,
         fst (searchUsers q limit db) = (200, Payload (text, count, users)) ->
         exists query,
           q = Some query /\ text = trim query
           /\ (2 <= String.length text)%nat
           /\ count = List.length users
           /\ (limit = None -> (count <= 20)%nat)
           /\ (forall asked n, limit = Some asked ->
                 JS.parseInt asked = JS.of_Z n -> (count <= Z.to_nat n)%nat)).
Proof.
  unfold searchUsers.
  destruct q as [query|]; [|repeat split; try discriminate].
  destruct (JS.falsy (Some query)) eqn:Efalsy; simpl orb.
  { repeat split; try discriminate. }
  destruct (Nat.ltb_spec (String.length (trim query)) 2) as [Hshort|Hlong].
  { repeat split; try discriminate. }
  assert (Hlimit : forall number rows,
             LIMIT number (map select_found (search_listing (trim query) db))
             = Ok rows ->
             forall n, number = JS.of_Z n -> (List.length rows <= Z.to_nat n)%nat).
  { intros number rows Hrows n ->. unfold LIMIT in Hrows.
    rewrite as_integer_of_Z in Hrows.
    destruct (n <? 0); [discriminate|].
    injection Hrows as <-. apply firstn_le_length. }
  unfold searchUsersService.
  destruct (LIMIT _ _) as [rows|e] eqn:Erows; simpl.
  2:{ split; [reflexivity|]. split; [discriminate|]. split.
      - intros query' Hq Hlt. injection Hq as <-. lia.
      - discriminate. }
  split; [reflexivity|]. split; [discriminate|]. split.
  - intros query' Hq Hlt. injection Hq as <-. lia.
  - intros text count users H. injection H as <- <- <-.
    exists query. rewrite length_map.
    split; [reflexivity|]. split; [reflexivity|]. split; [exact Hlong|].
    split; [reflexivity|]. split.
    + intros ->. apply (Hlimit _ _ Erows 20). reflexivity.
    + intros asked n -> Hn. apply (Hlimit _ _ Erows n). exact Hn.
Qed.
End SearchController.

(** ** Looking a user up *)

Section LookupFacts.
Context {PG : Postgres} {LIB : Libraries} {HASH : Hashing}.

Lemma find_by_id_None (userId : Z) (users : list User.row) :
  find (fun u => User.id u =? userId) users = None
  <-> ~ In userId (map User.id users).
Proof.
  induction users as [|u rest IH]; simpl; [tauto|].
  destruct (Z.eqb_spec (User.id u) userId) as [Heq|Hne].
  - split; [discriminate | intros H; exfalso; apply H; now left].
  - rewrite IH. tauto.
Qed.

(** X21.  [GET /users/:id] and [GET /users/:id/engagement] read the id with
    [parseInt]: they answer 400 when it yields no number, and for an integer
    within the 32-bit range 404 exactly when no user has it, 200 when one
    has; the engagement then shows the counters of the first row of that id.
    For an integer outside that range the engagement is answered 500.
    Neither changes the database. *)
Theorem user_lookup_statuses (id : string) (db : DB) :
  snd (getUserProfile id db) = db
  /\ snd (getUserEngagement id db) = db
  /\ (JS.as_integer (JS.parseInt id) = None ->
      fst (getUserProfile id db) = (400, Failure "Invalid user ID")
      /\ fst (getUserEngagement id db) = (400, Failure "Invalid user ID"))
  /\ (forall userId,
         JS.as_integer (JS.parseInt id) = Some userId ->
         (int4 userId = false ->
          fst (getUserEngagement id db)
          = (500, Failure "Failed to get user engagement"))
         /\ (int4 userId = true ->
             (~ In userId (map User.id (Users db)) ->
              fst (getUserProfile id db) = (404, Failure "User not found")
              /\ fst (getUserEngagement id db) = (404, Failure "User not found"))
             /\ (forall u,
                    find (fun u => User.id u =? userId) (Users db) = Some u ->
                    fst (getUserProfile id db)
                    = (200, Payload (optimize_view (select_view u)))
                    /\ fst (getUserEngagement id db)
                       = (200, Payload (select_engagement u))))).
Proof.
  unfold getUserProfile, getUserEngagement, getUserProfileService,
    getUserEngagementService.
  destruct (JS.as_integer (JS.parseInt id)) as [n|].
  - destruct (int4 n) eqn:Erange.
    + destruct (find (fun u => User.id u =? n) (Users db)) as [u|] eqn:Efind; simpl.
      * split; [reflexivity|]. split; [reflexivity|]. split; [discriminate|].
        intros userId Hid. injection Hid as <-.
        split; [congruence|]. intros _. split.
        -- intros Hnone. apply find_by_id_None in Hnone. congruence.
        -- intros u' Hu'. rewrite Efind in Hu'. injection Hu' as <-. now split.
      * split; [reflexivity|]. split; [reflexivity|]. split; [discriminate|].
        intros userId Hid. injection Hid as <-.
        split; [congruence|]. intros _. split.
        -- intros _. now split.
        -- intros u' Hu'. rewrite Efind in Hu'. discriminate.
    + split; [destruct (find _ (Users db)); reflexivity|].
      split; [reflexivity|]. split; [discriminate|].
      intros userId Hid. injection Hid as <-.
      split; [reflexivity | congruence].
  - split; [reflexivity|]. split; [reflexivity|]. split; [now split|].
    discriminate.
Qed.
End LookupFacts.

(** X21, a run: [parseInt] reads [2abc] as 2, so the second sample user is
    served; [abc] is answered 400, [9] 404 and [99999999999] 500. *)
Lemma user_lookup_statuses_witness :
  fst (fst (getUserProfile (PG := plane) (LIB := sample_libraries) "2abc" users_db))
  = 200
  /\ fst (getUserEngagement "abc" users_db) = (400, Failure "Invalid user ID")
  /\ fst (getUserEngagement "9" users_db) = (404, Failure "User not found")
  /\ fst (getUserEngagement "99999999999" users_db)
     = (500, Failure "Failed to get user engagement").
Proof.
  destruct (user_lookup_statuses (PG := plane) (LIB := sample_libraries)
              "2abc" users_db) as (_ & _ & _ & Hfound).
  destruct (user_lookup_statuses (PG := plane) (LIB := sample_libraries)
              "abc" users_db) as (_ & _ & Hnan & _).
  destruct (user_lookup_statuses (PG := plane) (LIB := sample_libraries)
              "9" users_db) as (_ & _ & _ & Habsent).
  destruct (user_lookup_statuses (PG := plane) (LIB := sample_libraries)
              "99999999999" users_db) as (_ & _ & _ & Hbeyond).
  split; [|split; [|split]].
  - destruct (Hfound 2 eq_refl) as [_ Hin_range].
    destruct (Hin_range eq_refl) as [_ Hsome].
    destruct (Hsome (sample_user 2 "badr" "secret2" (Some square)) eq_refl)
      as [Hprofile _].
    now rewrite Hprofile.
  - now apply Hnan.
  - destruct (Habsent 9 eq_refl) as [_ Hin_range].
    destruct (Hin_range eq_refl) as [Hnone _].
    apply Hnone. simpl. intuition discriminate.
  - destruct (Hbeyond 99999999999 eq_refl) as [H500 _]. now apply H500.
Defined.

Section TokenFacts.
Context {PG : Postgres} {LIB : Libraries} {TOK : Tokens} {DR : Driver}.

(** X22.  The four routes behind [authenticateToken] need a token: with no
    [Authorization] header, or one whose second piece between single spaces
    is missing or empty, each answers 401 with [Access token required] and
    changes nothing, whatever the path and the body. *)
Theorem routes_need_a_token (authorization : option string) (db : DB) :
  bearer_token authorization = None \/ bearer_token authorization = Some "" ->
  GET_users_me authorization db = ((401, Failure "Access token required"), db)
  /\ (forall id body,
         PUT_users_id authorization id body db
         = ((401, Failure "Access token required"), db))
  /\ (forall id statType increment,
         PUT_users_id_stats authorization id statType increment db
         = ((401, Failure "Access token required"), db))
  /\ (forall id,
         DELETE_users_id authorization id db
         = (respond 401 (ErrorBody "Access token required"), db)).
Proof.
  intros Htoken.
  assert (Hauth : authenticateToken authorization db
                  = inl (401, "Access token required")).
  { unfold authenticateToken. destruct Htoken as [-> | ->]; reflexivity. }
  unfold GET_users_me, PUT_users_id, PUT_users_id_stats, DELETE_users_id.
  rewrite Hauth. repeat split.
Qed.
End TokenFacts.

(** X22, a run: no header, a header of one piece, and a header with two
    spaces before the token. *)
Lemma routes_need_a_token_witness :
  DELETE_users_id (PG := plane) (TOK := sample_tokens) None "1" users_db
  = (respond 401 (ErrorBody "Access token required"), users_db)
  /\ DELETE_users_id (PG := plane) (TOK := sample_tokens) (Some "jwt.amira") "1"
       users_db
     = (respond 401 (ErrorBody "Access token required"), users_db)
  /\ DELETE_users_id (PG := plane) (TOK := sample_tokens)
       (Some "Bearer  jwt.amira") "1" users_db
     = (respond 401 (ErrorBody "Access token required"), users_db).
Proof.
  split; [|split].
  - apply (routes_need_a_token (PG := plane) (LIB := sample_libraries)
             (TOK := sample_tokens) (DR := sample_driver) None users_db).
    now left.
  - apply (routes_need_a_token (PG := plane) (LIB := sample_libraries)
             (TOK := sample_tokens) (DR := sample_driver)
             (Some "jwt.amira") users_db).
    now left.
  - apply (routes_need_a_token (PG := plane) (LIB := sample_libraries)
             (TOK := sample_tokens) (DR := sample_driver)
             (Some "Bearer  jwt.amira") users_db).
    now right.
Defined.

Section PlaceSearchController.
Context {PG : Postgres}.

(** X23.  [GET /places/nearby/search] takes an absent or empty [radius] as
    5000; it has no check of [lat] and [lng], so that it answers 200 or 500
    and never 400; and it never changes the database. *)
Theorem findNearbyPlaces_default_radius (lat lng radius : option string) (db : DB) :
  (JS.falsy radius = true ->
   findNearbyPlaces {| pq_lat := lat; pq_lng := lng; pq_radius := radius |} db
   = findNearbyPlaces {| pq_lat := lat; pq_lng := lng; pq_radius := Some "5000" |} db)
  /\ snd (findNearbyPlaces {| pq_lat := lat; pq_lng := lng; pq_radius := radius |} db)
     = db
  /\ (status (fst (findNearbyPlaces
                     {| pq_lat := lat; pq_lng := lng; pq_radius := radius |} db)) = 200
      \/ status (fst (findNearbyPlaces
                        {| pq_lat := lat; pq_lng := lng; pq_radius := radius |} db))
         = 500).
Proof.
  unfold findNearbyPlaces. cbn [pq_lat pq_lng pq_radius].
  split; [|split].
  - intros Hfalsy. rewrite Hfalsy. reflexivity.
  - unfold findNearbyPlacesService. destruct (ST_MakePoint _ _); reflexivity.
  - unfold findNearbyPlacesService. destruct (ST_MakePoint _ _); simpl; tauto.
Qed.
End PlaceSearchController.

(** X23, a run: the two sample places lie within the 5000 m that an empty
    [radius] stands for. *)
Lemma findNearbyPlaces_default_radius_witness :
  exists rows,
    fst (findNearbyPlaces (PG := plane)
           {| pq_lat := Some "30.033333"; pq_lng := Some "31.233334";
              pq_radius := Some "" |} places_db)
    = respond 200 (PlacesBody rows)
    /\ List.length rows = 2%nat.
Proof.
  destruct (findNearbyPlaces_default_radius (PG := plane)
              (Some "30.033333") (Some "31.233334") (Some "") places_db)
    as (Hdefault & _ & _).
  rewrite (Hdefault eq_refl). eexists. split; reflexivity.
Defined.
